(** * Orchestrate API: instance creation

    A shallow embedding of [api/orchestrateapi/commands/instances/create.py]
    (the [CreateInstance] command of the Orchestrate API service) and the
    properties of its template resolution and descriptor assembly, followed
    by the configuration step of the Teradici deployment of the command line
    ([cli/orchestrate/systems/teradici/main.py]).

    Conventions of the embedding:
    - Python exceptions are values of [error]; a function that can raise
      returns [result A].
    - Python dictionaries read with [d.get(k)] are [gmap string string];
      JSON objects with a fixed shape are records whose fields are [option]
      wherever the source indexes them with [d[k]] and the key may be
      missing (the lookup then raises [KeyError]).
    - The Compute Engine client [compute], the bucket name
      [environ.ORCHESTRATE_BUCKET] and the random identifiers produced by
      [uuid.uuid4()] are parameters.
    - [print] calls write to the service log only and are left out; the
      values they index ([template['name']], [operation['name']]) are still
      read, since a missing key raises there too.
    - Strings are sequences of bytes; the primitives that depend on the
      class of a character ([lower], decimal digits) are those of ASCII. *)

From Stdlib Require Import ZArith Ascii.
From stdpp Require Import base option list list_monad gmap strings.

Local Open Scope Z_scope.

(** ** Exceptions and results *)

(** The exceptions the command can raise.  [Unmodelled] is not a Python
    exception: it marks an input on which [str.format] leaves the fragment
    embedded below (see [format]). *)
Inductive error : Type :=
  | OrchestrateInstanceCreationError (message : string)
  | HttpError (status : Z)
  | KeyError (key : string)
  | IndexError
  | ValueError (message : string)
  | AttributeError (message : string)
  | UnboundLocalError (variable : string)
  | Unmodelled (what : string).

Inductive result (A : Type) : Type :=
  | Ok (a : A)
  | Raise (e : error).
Arguments Ok {A} a.
Arguments Raise {A} e.

Global Instance result_ret : MRet result := fun A a => Ok a.
Global Instance result_bind : MBind result := fun A B f m =>
  match m with
  | Ok a => f a
  | Raise e => Raise e
  end.
Global Instance result_fmap : FMap result := fun A B f m =>
  match m with
  | Ok a => Ok (f a)
  | Raise e => Raise e
  end.

(** [d[k]] on an optional field. *)
Definition getitem {A : Type} (k : string) (field : option A) : result A :=
  match field with
  | Some a => Ok a
  | None => Raise (KeyError k)
  end.

Global Instance error_eq_dec : EqDecision error.
Proof. solve_decision. Defined.

(** ** Python string primitives *)

Module PyStr.

Definition quote : string := String "034"%char "".

(** [s.startswith(p)]. *)
Fixpoint startswith (s p : string) {struct p} : bool :=
  match p, s with
  | "", _ => true
  | String a p', String b s' => if decide (a = b) then startswith s' p' else false
  | String _ _, "" => false
  end.

(** [s[n:]]. *)
Fixpoint drop (n : nat) (s : string) : string :=
  match n, s with
  | O, _ => s
  | S n', String _ s' => drop n' s'
  | S _, "" => ""
  end.

(** [s[:n]]. *)
Fixpoint take (n : nat) (s : string) : string :=
  match n, s with
  | O, _ => ""
  | S n', String c s' => String c (take n' s')
  | S _, "" => ""
  end.

(** [s.endswith(p)]. *)
Definition endswith (s p : string) : bool :=
  bool_decide (String.length p ≤ String.length s)%nat
  && bool_decide (drop (String.length s - String.length p) s = p).

(** [s[:-n]] for [n > 0]. *)
Definition drop_end (n : nat) (s : string) : string :=
  take (String.length s - n) s.

(** [s.split(sep)] for a one-character separator: never empty. *)
Fixpoint split (sep : ascii) (s : string) : list string :=
  match s with
  | "" => [""]
  | String c s' =>
      if decide (c = sep) then "" :: split sep s'
      else match split sep s' with
           | w :: ws => String c w :: ws
           | [] => [String c ""]
           end
  end.

(** [sep.join(parts)]. *)
Fixpoint join (sep : string) (parts : list string) : string :=
  match parts with
  | [] => ""
  | [w] => w
  | w :: ws => w +:+ sep +:+ join sep ws
  end.

(** [s.lower()] on ASCII text: the letters A to Z are mapped to a to z
    and every other byte is kept. *)
Definition lower_ascii (c : ascii) : ascii :=
  let n := nat_of_ascii c in
  if bool_decide (65 ≤ n ≤ 90)%nat then ascii_of_nat (n + 32) else c.

Fixpoint lower (s : string) : string :=
  match s with
  | "" => ""
  | String c s' => String (lower_ascii c) (lower s')
  end.

(** Truth value of a string: the empty string is false. *)
Definition truthy (s : string) : bool :=
  match s with "" => false | _ => true end.

(** [a or b or c] where [a] is a string and [b] comes from [dict.get]. *)
Definition or_else (a : option string) (b : string) : string :=
  match a with
  | Some s => if truthy s then s else b
  | None => b
  end.

(** *** [str.format] with keyword arguments only

    The embedded fragment: literal text, the escapes of the two braces,
    and replacement fields that hold a plain ASCII name.  A field that uses
    a conversion, a format specification, an attribute or an index is
    outside the fragment and yields [Unmodelled]; so is a field whose name
    holds a byte outside ASCII, because [str.format] reads every Unicode
    decimal digit as part of a positional index and the digits tested here
    are those of ASCII.  Values are rendered with [str], so every keyword
    argument is given as the string it renders to. *)

Definition is_digit (c : ascii) : bool :=
  let n := nat_of_ascii c in bool_decide (48 ≤ n ≤ 57)%nat.

Definition all_digits (s : string) : bool :=
  forallb is_digit (String.list_ascii_of_string s).

Definition decimal (s : string) : Z :=
  fold_left (fun acc c => acc * 10 + (Z.of_nat (nat_of_ascii c) - 48))
            (String.list_ascii_of_string s) 0.

Definition SSIZE_T_MAX : Z := 2 ^ 63 - 1.

(** The object a replacement field names.  [str.format] is called with
    keyword arguments and no positional argument: an empty or a numeric name indexes
    the empty tuple. *)
Definition get_field (kwargs : list (string * string)) (name : string)
  : result string :=
  if decide (name = "") then Raise IndexError
  else if all_digits name then
    if bool_decide (decimal name ≤ SSIZE_T_MAX) then Raise IndexError
    else Raise (ValueError "Too many decimal digits in format string")
  else match list_find (fun kv => kv.1 = name) kwargs with
       | Some (_, (_, v)) => Ok v
       | None => Raise (KeyError name)
       end.

Definition outside_fragment (c : ascii) : bool :=
  bool_decide (c = "!"%char) || bool_decide (c = ":"%char)
  || bool_decide (c = "["%char) || bool_decide (c = "."%char)
  || bool_decide (128 ≤ nat_of_ascii c)%nat.

(** [field = None]: reading literal text; [field = Some n]: inside a
    replacement field whose name read so far is [n]. *)
Fixpoint format_go (kwargs : list (string * string)) (field : option string)
    (s : string) : result string :=
  match field, s with
  | None, "" => Ok ""
  | None, String c s' =>
      if decide (c = "{"%char) then
        match s' with
        | "" => Raise (ValueError "Single '{' encountered in format string")
        | String c' s'' =>
            if decide (c' = "{"%char)
            then String "{"%char <$> format_go kwargs None s''
            else format_go kwargs (Some "") s'
        end
      else if decide (c = "}"%char) then
        match s' with
        | String c' s'' =>
            if decide (c' = "}"%char)
            then String "}"%char <$> format_go kwargs None s''
            else Raise (ValueError "Single '}' encountered in format string")
        | "" => Raise (ValueError "Single '}' encountered in format string")
        end
      else String c <$> format_go kwargs None s'
  | Some _, "" => Raise (ValueError "expected '}' before end of string")
  | Some name, String c s' =>
      if decide (c = "}"%char) then
        v ← get_field kwargs name;
        rest ← format_go kwargs None s';
        Ok (v +:+ rest)
      else if decide (c = "{"%char) then
        Raise (ValueError "unexpected '{' in field name")
      else if outside_fragment c then
        Raise (Unmodelled
                 "str.format: conversion, format spec, attribute, index or name outside ASCII")
      else format_go kwargs (Some (name +:+ String c "")) s'
  end.

Definition format (pattern : string) (kwargs : list (string * string))
  : result string :=
  format_go kwargs None pattern.

End PyStr.

(** ** The regular expression of [get_images]

    [re.match] on a pattern that is a sequence of literals and greedy
    [.*] (named or not): the match is anchored at the start of the text, a
    dot does not match a newline, and the longest repetition is tried
    first, backtracking one character at a time. *)

Module Re.

Inductive token : Type :=
  | Lit (s : string)
  | DotStar (group : option string).

Definition capture (group : option string) (text : string)
    (groups : list (string * string)) : list (string * string) :=
  match group with
  | Some g => (g, text) :: groups
  | None => groups
  end.

Definition newline : ascii := "010"%char.

Fixpoint match_tokens (pattern : list token) (s : string)
  : option (list (string * string)) :=
  match pattern with
  | [] => Some []
  | Lit l :: pattern' =>
      if PyStr.startswith s l
      then match_tokens pattern' (PyStr.drop (String.length l) s)
      else None
  | DotStar g :: pattern' =>
      (fix star (s : string) (taken : string) {struct s} :=
         let stop := capture g taken <$> match_tokens pattern' s in
         match s with
         | "" => stop
         | String c s' =>
             if decide (c = newline) then stop
             else match star s' (taken +:+ String c "") with
                  | Some groups => Some groups
                  | None => stop
                  end
         end) s ""
  end.

(** [match.group(name)] on a successful match. *)
Definition group (name : string) (groups : list (string * string)) : string :=
  match list_find (fun kv => kv.1 = name) groups with
  | Some (_, (_, v)) => v
  | None => ""
  end.

End Re.

(** ** Data model *)

(** A JSON value the command carries along without looking inside. *)
Definition Json : Type := string.

(** A metadata item, [dict(key=..., value=...)]. *)
Record Item : Type := {
  item_key : string;
  item_value : string;
}.

(** [properties.disks[].initializeParams]. *)
Record InitializeParams : Type := {
  ip_diskType : option string;
  ip_sourceImage : option string;
  ip_other : Json;
}.

(** [properties.disks[]]. *)
Record Disk : Type := {
  disk_boot : option bool;
  disk_initializeParams : option InitializeParams;
  disk_other : Json;
}.

(** [properties.networkInterfaces[]]. *)
Record NetworkInterface : Type := {
  ni_network : option string;
  ni_subnetwork : option string;
  ni_other : Json;
}.

(** [properties.guestAccelerators[]]. *)
Record Accelerator : Type := {
  acc_acceleratorType : option string;
  acc_other : Json;
}.

(** [properties.metadata]. *)
Record Metadata : Type := {
  md_items : option (list Item);
}.

(** [template['properties']] of an instanceTemplate. *)
Record Properties : Type := {
  prop_machineType : option string;
  prop_tags : option Json;
  prop_canIpForward : option Json;
  prop_networkInterfaces : option (list NetworkInterface);
  prop_labels : option Json;
  prop_scheduling : option Json;
  prop_deletionProtection : option Json;
  prop_serviceAccounts : option Json;
  prop_guestAccelerators : option (list Accelerator);
  prop_disks : option (list Disk);
  prop_metadata : option Metadata;
}.

(** An instanceTemplate as returned by [instanceTemplates.get]. *)
Record Template : Type := {
  tpl_name : option string;
  tpl_properties : option Properties;
}.

(** An image as returned by [images.get] and [images.getFromFamily]. *)
Record Image : Type := {
  img_selfLink : option string;
  img_family : option string;
  img_labels : option (gmap string string);
}.

(** [request.instance]: the creation parameters.  A protobuf message: every
    field is there, an unset string is empty. *)
Record Instance : Type := {
  inst_project : string;
  inst_zone : string;
  inst_template : string;
  inst_size : string;
  inst_name : string;
  inst_metadata : list Item;
  inst_use_latest_image : bool;
}.

(** The body of [instances.insert].  The keys transferred from the template
    are there when the template has them. *)
Record Payload : Type := {
  pl_name : string;
  pl_description : string;
  pl_machineType : option string;
  pl_tags : option Json;
  pl_canIpForward : option Json;
  pl_networkInterfaces : option (list NetworkInterface);
  pl_labels : option Json;
  pl_scheduling : option Json;
  pl_deletionProtection : option Json;
  pl_serviceAccounts : option Json;
  pl_guestAccelerators : option (list Accelerator);
  pl_disks : option (list Disk);
  pl_metadata : option (list Item);
}.

(** The operation returned by [instances.insert]. *)
Record Operation : Type := {
  op_name : option string;
}.

(** [orchestrate_pb2.CreateInstanceResponse]. *)
Record CreateInstanceResponse : Type := {
  resp_status : string;
  resp_request_id : string;
  resp_name : string;
}.

(** The calls made on the Compute Engine client, each followed by
    [.execute()]. *)
Record ComputeApi : Type := {
  (** [instanceTemplates().get(project, instanceTemplate)] *)
  instanceTemplates_get : string → string → result Template;
  (** [instanceTemplates().list(project, filter)]: the [items] of the
      response, when it has any. *)
  instanceTemplates_list : string → string → result (option (list Template));
  (** [images().get(project, image)] *)
  images_get : string → string → result Image;
  (** [images().getFromFamily(project, family)] *)
  images_getFromFamily : string → string → result Image;
  (** [instances().insert(project, zone, body)] *)
  instances_insert : string → string → Payload → result Operation;
}.

Global Instance Item_eq_dec : EqDecision Item.
Proof. solve_decision. Defined.

(** ** The command *)

Section create.

(** The module-level client [compute] and [environ.ORCHESTRATE_BUCKET]. *)
Context (compute : ComputeApi) (ORCHESTRATE_BUCKET : string).

(** [region = '-'.join(instance.zone.split('-')[:2])] *)
Definition region_of (zone : string) : string :=
  PyStr.join "-" (take 2 (PyStr.split "-"%char zone)).

(** *** [get_template] *)

Definition is_default_size (item : Item) : bool :=
  bool_decide (item_key item = "orchestrate_default_size")
  && bool_decide (item_value item = "true").

(** The two nested loops over the listed templates and their items. *)
Fixpoint find_default_size (templates : list Template)
  : result (option Template) :=
  match templates with
  | [] => Ok None
  | template :: templates' =>
      properties ← getitem "properties" (tpl_properties template);
      metadata ← getitem "metadata" (prop_metadata properties);
      items ← getitem "items" (md_items metadata);
      if existsb is_default_size items then
        _ ← getitem "name" (tpl_name template);
        Ok (Some template)
      else find_default_size templates'
  end.

Definition no_default_size_message (instance : Instance) : string :=
  "Could not locate default size for project " +:+ inst_project instance
  +:+ " template " +:+ inst_template instance
  +:+ ". Please specify an explicit size in the request.".

Definition get_template (instance : Instance) : result Template :=
  if negb (PyStr.truthy (inst_size instance)) then
    response ← instanceTemplates_list compute (inst_project instance)
      ("name = " +:+ PyStr.quote +:+ inst_template instance +:+ "-*"
       +:+ PyStr.quote);
    found ← find_default_size (default [] response);
    match found with
    | Some template => Ok template
    | None =>
        Raise (OrchestrateInstanceCreationError
                 (no_default_size_message instance))
    end
  else
    instanceTemplates_get compute (inst_project instance)
      (inst_template instance +:+ "-" +:+ inst_size instance).

(** *** [get_metadata] *)

(** One turn of the loop over the template's items. *)
Definition split_item (acc : list Item * gmap string string) (item : Item)
  : list Item * gmap string string :=
  if PyStr.startswith (item_key item) "orchestrate_" then
    (acc.1, <[PyStr.drop 8 (item_key item) := item_value item]> acc.2)
  else
    (acc.1 ++ [item], acc.2).

Definition get_metadata (instance : Instance) (template : Template)
  : result (list Item * gmap string string) :=
  properties ← getitem "properties" (tpl_properties template);
  metadata ← getitem "metadata" (prop_metadata properties);
  items ← getitem "items" (md_items metadata);
  let '(instance_metadata, orchestrate_metadata) :=
    foldl split_item ([], ∅) items in
  Ok (instance_metadata
        ++ map (fun item => {| item_key := item_key item;
                               item_value := item_value item |})
               (inst_metadata instance),
      orchestrate_metadata).

(** *** [build_name] *)

Definition default_pattern : string := "{template}-{size}-{id}".

(** The keyword arguments of [name_pattern.format].  [uuid_hex] is
    [uuid.uuid4().hex] of this call; [gpu_count] is the metadata string or
    the integer 0, which renders as one digit. *)
Definition name_placeholders (uuid_hex : string) (instance : Instance)
    (orchestrate_metadata : gmap string string) : list (string * string) :=
  let unique_id := PyStr.take 5 uuid_hex in
  let gpu_count := default "0" (orchestrate_metadata !! "gpu_count") in
  let gpu_type := default "" (orchestrate_metadata !! "gpu_type") in
  let graphics_type := if PyStr.endswith gpu_type "-vws" then "vws" else "gpu" in
  let gpu_name :=
    if negb (PyStr.endswith gpu_type "-vws") then gpu_type
    else PyStr.drop_end 4 gpu_type in
  let region := region_of (inst_zone instance) in
  [("template", inst_template instance);
   ("size", inst_size instance);
   ("region", region);
   ("zone", inst_zone instance);
   ("type", graphics_type);
   ("gpu_name", gpu_name);
   ("gpu_count", gpu_count);
   ("gpu_type", gpu_type);
   ("user", unique_id);
   ("id", unique_id)].

Definition build_name (uuid_hex : string) (instance : Instance)
    (orchestrate_metadata : gmap string string) : result string :=
  let instance_name_pattern := orchestrate_metadata !! "instance_name_pattern" in
  let name_pattern :=
    if PyStr.truthy (inst_name instance) then inst_name instance
    else PyStr.or_else instance_name_pattern default_pattern in
  PyStr.format name_pattern
    (name_placeholders uuid_hex instance orchestrate_metadata).

(** *** [get_images] and [get_boot_images] *)

(** The pattern of [re.match]: any text, the literal [/projects/], the
    group [project], the literal [/global/images/], the group [version];
    both groups and the leading text are greedy repetitions of the dot. *)
Definition source_image_pattern : list Re.token :=
  [Re.DotStar None; Re.Lit "/projects/"; Re.DotStar (Some "project");
   Re.Lit "/global/images/"; Re.DotStar (Some "version")].

Definition get_images (parameters : InitializeParams) : result (Image * Image) :=
  link ← getitem "sourceImage" (ip_sourceImage parameters);
  match Re.match_tokens source_image_pattern link with
  | None => Raise (AttributeError "'NoneType' object has no attribute 'group'")
  | Some groups =>
      let project := Re.group "project" groups in
      let version := Re.group "version" groups in
      image ← images_get compute project version;
      family ← getitem "family" (img_family image);
      latest ← images_getFromFamily compute project family;
      Ok (image, latest)
  end.

Fixpoint get_boot_images (disks : list Disk) : result (Image * Image) :=
  match disks with
  | [] => Raise (OrchestrateInstanceCreationError "Template has no boot disk.")
  | disk :: disks' =>
      boot ← getitem "boot" (disk_boot disk);
      if (boot : bool) then
        parameters ← getitem "initializeParams" (disk_initializeParams disk);
        get_images parameters
      else get_boot_images disks'
  end.

(** *** [get_os_type] and [set_startup_script] *)

Definition linux_families : list string :=
  ["centos"; "debian"; "rhel"; "sles"; "cos"; "coreos"; "ubuntu"].

Definition unknown_os_message (image : string) : string :=
  "Image " +:+ image
  +:+ " does not have a orchestrate_os label. And, could not guess the"
  +:+ " OS from the family name based on GCP image family naming conventions,"
  +:+ " e.g. windows-, centos-, etc. Please add a orchestrate_os label and set it"
  +:+ " to either " +:+ PyStr.quote +:+ "linux" +:+ PyStr.quote +:+ " or "
  +:+ PyStr.quote +:+ "windows" +:+ PyStr.quote
  +:+ " to indicate the base OS for this image."
  +:+ " Or, rename the image family to include a prefix with the base OS name.".

(** Steps 2 and 3 of [get_os_type]: guess by family name, or give up. *)
Definition guess_os_type (image : Image) : result string :=
  family_name ← getitem "family" (img_family image);
  let family := hd "" (PyStr.split "-"%char family_name) in
  if decide (family = "windows") then Ok "windows"
  else if bool_decide (family ∈ linux_families) then Ok "linux"
  else
    self_link ← getitem "selfLink" (img_selfLink image);
    Raise (OrchestrateInstanceCreationError (unknown_os_message self_link)).

Definition get_os_type (image : Image) : result string :=
  let labels := default ∅ (img_labels image) in
  match labels !! "orchestrate_os" with
  | Some os_type =>
      if PyStr.truthy os_type then Ok (PyStr.lower os_type)
      else guess_os_type image
  | None => guess_os_type image
  end.

(** Returns the metadata list after the call (the source appends to the
    list it is given). *)
Definition set_startup_script (metadata : list Item) (image : Image)
  : result (list Item) :=
  os_type ← get_os_type image;
  if decide (os_type = "linux") then
    Ok (metadata ++ [{| item_key := "startup-script-url";
                        item_value := "gs://" +:+ ORCHESTRATE_BUCKET
                                      +:+ "/remotedesktopconfigure.py" |}])
  else if decide (os_type = "windows") then
    Ok (metadata ++ [{| item_key := "windows-startup-script-url";
                        item_value := "gs://" +:+ ORCHESTRATE_BUCKET
                                      +:+ "/remotedesktopconfigure.ps1" |}])
  else Ok metadata.

(** *** [build_instance_payload] *)

(** The payload right after the transfer loop over [keys_to_transfer]. *)
Definition transfer (name description : string) (properties : Properties)
  : Payload :=
  {| pl_name := name;
     pl_description := description;
     pl_machineType := prop_machineType properties;
     pl_tags := prop_tags properties;
     pl_canIpForward := prop_canIpForward properties;
     pl_networkInterfaces := prop_networkInterfaces properties;
     pl_labels := prop_labels properties;
     pl_scheduling := prop_scheduling properties;
     pl_deletionProtection := prop_deletionProtection properties;
     pl_serviceAccounts := prop_serviceAccounts properties;
     pl_guestAccelerators := prop_guestAccelerators properties;
     pl_disks := prop_disks properties;
     pl_metadata := None |}.

(** The assignments to the payload after the transfer. *)
Definition finish (payload : Payload) (machine_type : string)
    (accelerators : option (list Accelerator)) (disks : list Disk)
    (interfaces : list NetworkInterface) (items : list Item) : Payload :=
  {| pl_name := pl_name payload;
     pl_description := pl_description payload;
     pl_machineType := Some machine_type;
     pl_tags := pl_tags payload;
     pl_canIpForward := pl_canIpForward payload;
     pl_networkInterfaces := Some interfaces;
     pl_labels := pl_labels payload;
     pl_scheduling := pl_scheduling payload;
     pl_deletionProtection := pl_deletionProtection payload;
     pl_serviceAccounts := pl_serviceAccounts payload;
     pl_guestAccelerators := accelerators;
     pl_disks := Some disks;
     pl_metadata := Some items |}.

(** One turn of the loop over [guestAccelerators]. *)
Definition expand_accelerator (zone_url : string) (accelerator : Accelerator)
  : result Accelerator :=
  gpu_type ← getitem "acceleratorType" (acc_acceleratorType accelerator);
  Ok {| acc_acceleratorType :=
          Some (zone_url +:+ "/acceleratorTypes/" +:+ gpu_type);
        acc_other := acc_other accelerator |}.

(** One turn of the loop over [disks]. *)
Definition expand_disk (zone_url : string) (use_latest_image : bool)
    (boot_image_latest : Image) (disk : Disk) : result Disk :=
  parameters ← getitem "initializeParams" (disk_initializeParams disk);
  disk_type ← getitem "diskType" (ip_diskType parameters);
  let disk_type_url := zone_url +:+ "/diskTypes/" +:+ disk_type in
  boot ← getitem "boot" (disk_boot disk);
  if (boot : bool) && use_latest_image then
    self_link ← getitem "selfLink" (img_selfLink boot_image_latest);
    Ok {| disk_boot := disk_boot disk;
          disk_initializeParams :=
            Some {| ip_diskType := Some disk_type_url;
                    ip_sourceImage := Some self_link;
                    ip_other := ip_other parameters |};
          disk_other := disk_other disk |}
  else
    Ok {| disk_boot := disk_boot disk;
          disk_initializeParams :=
            Some {| ip_diskType := Some disk_type_url;
                    ip_sourceImage := ip_sourceImage parameters;
                    ip_other := ip_other parameters |};
          disk_other := disk_other disk |}.

(** One turn of the loop over [networkInterfaces]. *)
Definition expand_interface (region_url : string)
    (orchestrate_metadata : gmap string string)
    (interface : NetworkInterface) : NetworkInterface :=
  let network := default "default" (orchestrate_metadata !! "network") in
  {| ni_network := Some ("global/networks/" +:+ network);
     ni_subnetwork := Some (region_url +:+ "/subnetworks/" +:+ network);
     ni_other := ni_other interface |}.

Definition machine_type_url (zone_url : string)
    (orchestrate_metadata : gmap string string) : string :=
  zone_url +:+ "/machineTypes/"
  +:+ default "n1-standard-8" (orchestrate_metadata !! "machine_type").

(** [build_instance_payload] from its third statement on: the template
    and the two kinds of metadata are at hand. *)
Definition build_payload_with (uuid_hex : string) (instance : Instance)
    (template : Template) (instance_metadata : list Item)
    (orchestrate_metadata : gmap string string) : result Payload :=
  name ← build_name uuid_hex instance orchestrate_metadata;
  let region := region_of (inst_zone instance) in
  let region_url :=
    "projects/" +:+ inst_project instance +:+ "/regions/" +:+ region in
  let zone_url :=
    "projects/" +:+ inst_project instance +:+ "/zones/"
    +:+ inst_zone instance in
  properties ← getitem "properties" (tpl_properties template);
  disks ← getitem "disks" (prop_disks properties);
  '(boot_image, boot_image_latest) ← get_boot_images disks;
  let payload :=
    transfer name
      ("Orchestrate instance created from template "
       +:+ inst_template instance +:+ " size " +:+ inst_size instance)
      properties in
  let machine_type := machine_type_url zone_url orchestrate_metadata in
  accelerators ←
    match pl_guestAccelerators payload with
    | Some accelerators =>
        Some <$> mapM (expand_accelerator zone_url) accelerators
    | None => Ok None
    end;
  payload_disks ← getitem "disks" (pl_disks payload);
  disks' ← mapM (expand_disk zone_url (inst_use_latest_image instance)
                   boot_image_latest) payload_disks;
  interfaces ← getitem "networkInterfaces" (pl_networkInterfaces payload);
  let interfaces' :=
    map (expand_interface region_url orchestrate_metadata) interfaces in
  items ← set_startup_script instance_metadata
             (if inst_use_latest_image instance then boot_image_latest
              else boot_image);
  Ok (finish payload machine_type accelerators disks' interfaces' items).

Definition build_instance_payload (uuid_hex : string) (instance : Instance)
  : result Payload :=
  template ← get_template instance;
  '(instance_metadata, orchestrate_metadata) ← get_metadata instance template;
  build_payload_with uuid_hex instance template instance_metadata
    orchestrate_metadata.

(** *** [run] *)

Definition already_exists_message (name : string) : string :=
  "An instance with name " +:+ name +:+ " already exists.".

(** The [except errors.HttpError] clause.  [payload] is the local variable
    of [run]: it is bound once [build_instance_payload] has returned. *)
Definition except_HttpError {A : Type} (payload : option Payload) (e : error)
  : result A :=
  match e with
  | HttpError status =>
      if decide (status = 409) then
        match payload with
        | Some payload =>
            Raise (OrchestrateInstanceCreationError
                     (already_exists_message (pl_name payload)))
        | None => Raise (UnboundLocalError "payload")
        end
      else Raise e
  | _ => Raise e
  end.

(** [request_id] is [uuid.uuid4().hex] of the first call, [uuid_hex] that
    of the second call, made by [build_name]. *)
Definition run (request_id uuid_hex : string) (instance : Instance)
  : result CreateInstanceResponse :=
  match build_instance_payload uuid_hex instance with
  | Raise e => except_HttpError None e
  | Ok payload =>
      match
        operation ← instances_insert compute (inst_project instance)
                      (inst_zone instance) payload;
        _ ← getitem "name" (op_name operation);
        Ok {| resp_status := "SUBMITTED";
              resp_request_id := request_id;
              resp_name := pl_name payload |}
      with
      | Raise e => except_HttpError (Some payload) e
      | Ok response => Ok response
      end
  end.

End create.

(** ** Vocabulary of the properties *)

(** The item's key carries the reserved prefix. *)
Definition reserved (item : Item) : bool :=
  PyStr.startswith (item_key item) "orchestrate_".

(** The source image a disk references, if any. *)
Definition source_image (disk : Disk) : option string :=
  disk_initializeParams disk ≫= ip_sourceImage.

(** The value of the image's [orchestrate_os] label, if any. *)
Definition os_label (image : Image) : option string :=
  default ∅ (img_labels image) !! "orchestrate_os".

(** No brace occurs in the text. *)
Fixpoint brace_free (s : string) : bool :=
  match s with
  | "" => true
  | String c s' =>
      negb (bool_decide (c = "{"%char)) && negb (bool_decide (c = "}"%char))
      && brace_free s'
  end.

(** [zone_url] and [region_url] of [build_instance_payload]. *)
Definition zone_url_of (instance : Instance) : string :=
  "projects/" +:+ inst_project instance +:+ "/zones/" +:+ inst_zone instance.

Definition region_url_of (instance : Instance) : string :=
  "projects/" +:+ inst_project instance +:+ "/regions/"
  +:+ region_of (inst_zone instance).

(** The disk is explicitly flagged as not being the boot disk. *)
Definition not_boot (disk : Disk) : Prop := disk_boot disk = Some false.

(** ** A sample deployment

    One project with the template [render-8], whose boot disk references an
    image of the family [centos-7], used to run the command on concrete
    requests. *)

Module Sample.

Definition bucket : string := "orchestrate-bucket".

Definition image_link (version : string) : string :=
  "https://www.googleapis.com/compute/v1/projects/acme/global/images/" +:+ version.

Definition image (version family : string)
    (labels : option (gmap string string)) : Image :=
  {| img_selfLink := Some (image_link version);
     img_family := Some family;
     img_labels := labels |}.

Definition disk (boot : bool) (version : string) : Disk :=
  {| disk_boot := Some boot;
     disk_initializeParams :=
       Some {| ip_diskType := Some "pd-ssd";
               ip_sourceImage := Some (image_link version);
               ip_other := "{}" |};
     disk_other := "{}" |}.

Definition interface : NetworkInterface :=
  {| ni_network := None; ni_subnetwork := None; ni_other := "{}" |}.

Definition properties (items : list Item) (disks : option (list Disk))
    (interfaces : option (list NetworkInterface)) : Properties :=
  {| prop_machineType := Some "n1-highmem-4";
     prop_tags := None;
     prop_canIpForward := None;
     prop_networkInterfaces := interfaces;
     prop_labels := Some "{}";
     prop_scheduling := None;
     prop_deletionProtection := None;
     prop_serviceAccounts := None;
     prop_guestAccelerators := None;
     prop_disks := disks;
     prop_metadata := Some {| md_items := Some items |} |}.

Definition template (items : list Item) (disks : option (list Disk))
    (interfaces : option (list NetworkInterface)) : Template :=
  {| tpl_name := Some "render-8";
     tpl_properties := Some (properties items disks interfaces) |}.

(** A client that serves [template] under the name [render-8], the image
    [visual-1] with the given labels and [visual-2] as the latest image of
    its family, and answers [insert] with [inserted]. *)
Definition compute (template : Template)
    (labels : option (gmap string string))
    (inserted : result Operation) : ComputeApi :=
  {| instanceTemplates_get project name :=
       if decide (name = "render-8") then Ok template
       else Raise (HttpError 404);
     instanceTemplates_list project filter := Ok (Some [template]);
     images_get project version :=
       if decide (project = "acme" ∧ version = "visual-1")
       then Ok (image "visual-1" "centos-7" labels)
       else Raise (HttpError 404);
     images_getFromFamily project family :=
       if decide (project = "acme" ∧ family = "centos-7")
       then Ok (image "visual-2" "centos-7" labels)
       else Raise (HttpError 404);
     instances_insert project zone payload := inserted |}.

Definition request (name : string) (use_latest_image : bool) : Instance :=
  {| inst_project := "studio";
     inst_zone := "us-central1-a";
     inst_template := "render";
     inst_size := "8";
     inst_name := name;
     inst_metadata := [{| item_key := "owner"; item_value := "ann" |}];
     inst_use_latest_image := use_latest_image |}.

Definition items : list Item :=
  [{| item_key := "orchestrate_machine_type"; item_value := "n1-standard-16" |};
   {| item_key := "enable-oslogin"; item_value := "TRUE" |}].

Definition plain_items : list Item :=
  [{| item_key := "enable-oslogin"; item_value := "TRUE" |}].

Definition uuid : string := "3f2a9c1e5b7d4e0f8a6b2c4d6e8f0a1b".

Definition operation : result Operation := Ok {| op_name := Some "operation-1" |}.

(** The template [render-8] with one boot disk and one interface. *)
Definition render (items : list Item) : Template :=
  template items (Some [disk true "visual-1"]) (Some [interface]).

(** A client whose every call is rejected with the given status. *)
Definition rejecting (status : Z) : ComputeApi :=
  {| instanceTemplates_get project name := Raise (HttpError status);
     instanceTemplates_list project filter := Raise (HttpError status);
     images_get project version := Raise (HttpError status);
     images_getFromFamily project family := Raise (HttpError status);
     instances_insert project zone payload := Raise (HttpError status) |}.

Definition labelled (os : string) : option (gmap string string) :=
  Some {[ "orchestrate_os" := os ]}.

End Sample.

(** ** Further vocabulary *)

(** The number of occurrences of a character in a text. *)
Fixpoint occurs (c : ascii) (s : string) : nat :=
  match s with
  | "" => 0
  | String x s' => (if decide (x = c) then 1 else 0) + occurs c s'
  end.

(** The text up to its first newline, and the text from there on. *)
Fixpoint first_line (s : string) : string :=
  match s with
  | "" => ""
  | String c s' => if decide (c = Re.newline) then "" else String c (first_line s')
  end.

Fixpoint after_first_line (s : string) : string :=
  match s with
  | "" => ""
  | String c s' => if decide (c = Re.newline) then s else after_first_line s'
  end.

(** The greedy repetition of [Re.match_tokens], with the rest of the
    pattern as the continuation [k]. *)
Definition star_from (g : option string)
    (k : string → option (list (string * string)))
  : string → string → option (list (string * string)) :=
  fix star (s : string) (taken : string) {struct s} :=
    let stop := Re.capture g taken <$> k s in
    match s with
    | "" => stop
    | String c s' =>
        if decide (c = Re.newline) then stop
        else match star s' (taken +:+ String c "") with
             | Some groups => Some groups
             | None => stop
             end
    end.

(** The metadata items of a template, when it has the three keys. *)
Definition items_of (template : Template) : option (list Item) :=
  properties ← tpl_properties template;
  metadata ← prop_metadata properties;
  md_items metadata.

(** The template carries the marker of the default size. *)
Definition marked (template : Template) : Prop :=
  ∃ items, items_of template = Some items
           ∧ existsb is_default_size items = true.

(** The template has its item list and the marker is not in it. *)
Definition unmarked (template : Template) : Prop :=
  ∃ items, items_of template = Some items
           ∧ existsb is_default_size items = false.

(** The names bound by [build_name] for the rendering of a pattern. *)
Definition placeholder_names : list string :=
  ["template"; "size"; "region"; "zone"; "type"; "gpu_name"; "gpu_count";
   "gpu_type"; "user"; "id"].

(** A field name inside the embedded fragment of [str.format]: ASCII, with
    no brace and no conversion, format specification, attribute or index. *)
Fixpoint plain_field (s : string) : bool :=
  match s with
  | "" => true
  | String c s' =>
      negb (bool_decide (c = "{"%char)) && negb (bool_decide (c = "}"%char))
      && negb (PyStr.outside_fragment c) && plain_field s'
  end.

(** The filter of the listing made by [get_template]. *)
Definition default_size_filter (instance : Instance) : string :=
  "name = " +:+ PyStr.quote +:+ inst_template instance +:+ "-*" +:+ PyStr.quote.

(** The client with another answer to [instances.insert]. *)
Definition with_insert (compute : ComputeApi)
    (insert : string → string → Payload → result Operation) : ComputeApi :=
  {| instanceTemplates_get := instanceTemplates_get compute;
     instanceTemplates_list := instanceTemplates_list compute;
     images_get := images_get compute;
     images_getFromFamily := images_getFromFamily compute;
     instances_insert := insert |}.

(** ** The Teradici deployment: [cli/orchestrate/systems/teradici/main.py]

    The configuration step and the creation of the connector token of the
    class [CloudAccessSoftware].  The attributes [project], [zone], [name],
    [prefix] and [dry_run] and the method [run_command] come from the base
    class [base.OrchestrateSystem], [tempfile.mkdtemp] from the standard
    library and the Cloud Access Manager client from [camapi]: the
    attributes are fields of the record, the calls are parameters.  An
    attribute that can be [None] is an [option]; the attributes that the
    two methods neither read nor write are left out. *)

Module Teradici.

Record System : Type := {
  project : string;
  zone : string;
  name : string;
  prefix : option string;
  dry_run : bool;
  api_token : option string;
  registration_code : option string;
  deployment_name : option string;
  connector_name : option string;
  public_ssh_key_file : option string;
  windows_accelerator_type : option string;
  deploy_dir : string;
  terraform_version : string;
  region : string;
  service_account_name : string;
  service_account_display_name : string;
  service_account : string;
  credentials_file : string;
  terraform_dir : string;
  terraform_deployment_dir : string;
  connector_token : option string;
}.

(** The host of the deployment: [self.run_command(command)] and
    [tempfile.mkdtemp(prefix, dir)]. *)
Record Host : Type := {
  run_command : string → result ();
  mkdtemp : string → string → result string;
}.

(** The calls made on [camapi.CloudAccessManager(api_token)]:
    [deployments.get(name)], which answers a deployment or nothing,
    [deployments.post(name, registration_code)] and
    [auth.tokens.connector.post(deployment, connector_name)]. *)
Record Cam : Type := {
  deployments_get : option string → string → result (option Json);
  deployments_post : option string → string → option string → result Json;
  connector_post : option string → Json → string → result string;
}.

(** Truth value of an attribute that is a string or [None]. *)
Definition truthy (value : option string) : bool :=
  match value with
  | Some s => PyStr.truthy s
  | None => false
  end.

(** [parts[:-1]]. *)
Definition but_last {A : Type} (parts : list A) : list A :=
  take (length parts - 1) parts.

Definition p4_regions : list string :=
  ["us-west2"; "us-east4"; "northamerica-northeast1"].

Definition configure (host : Host) (self : System) : result System :=
  let region := PyStr.join "-" (but_last (PyStr.split "-"%char (zone self))) in
  deploy_dir ←
    (if PyStr.truthy (deploy_dir self) then
       _ ← run_command host ("mkdir -p " +:+ deploy_dir self);
       Ok (deploy_dir self)
     else
       mkdtemp host
         ("orchestrate-" +:+ project self +:+ "-" +:+ name self +:+ "-")
         "/var/tmp");
  let service_account_name := "teradici" in
  let terraform_dir := deploy_dir +:+ "/" +:+ name self in
  Ok {| project := project self;
        zone := zone self;
        name := name self;
        prefix := prefix self;
        dry_run := dry_run self;
        api_token := api_token self;
        registration_code := registration_code self;
        deployment_name := deployment_name self;
        connector_name := connector_name self;
        public_ssh_key_file :=
          if negb (truthy (public_ssh_key_file self)) then
            Some (deploy_dir +:+ "/" +:+ project self +:+ "-"
                  +:+ service_account_name)
          else public_ssh_key_file self;
        windows_accelerator_type :=
          match windows_accelerator_type self with
          | None =>
              if bool_decide (region ∈ p4_regions)
              then Some "nvidia-tesla-p4-vws"
              else Some "nvidia-tesla-t4-vws"
          | Some type => Some type
          end;
        deploy_dir := deploy_dir;
        terraform_version := "0.12.7";
        region := region;
        service_account_name := service_account_name;
        service_account_display_name := "Teradici CAS";
        service_account :=
          service_account_name +:+ "@" +:+ project self
          +:+ ".iam.gserviceaccount.com";
        credentials_file :=
          deploy_dir +:+ "/" +:+ project self +:+ "-" +:+ service_account_name
          +:+ ".json";
        terraform_dir := terraform_dir;
        terraform_deployment_dir :=
          terraform_dir +:+ "/deployments/gcp/single-connector";
        connector_token := None |}.

Definition get_connector_token (cam : Cam) (deployment_name connector_name : string)
    (registration_code api_token : option string) : result string :=
  found ← deployments_get cam api_token deployment_name;
  deployment ←
    match found with
    | Some deployment => Ok deployment
    | None => deployments_post cam api_token deployment_name registration_code
    end;
  connector_post cam api_token deployment connector_name.

(** The names computed by [create_connector_token]. *)
Definition deployment_name_of (self : System) : string :=
  if truthy (deployment_name self) then default "" (deployment_name self)
  else if truthy (prefix self)
       then project self +:+ "-" +:+ default "" (prefix self)
       else project self.

Definition connector_name_of (self : System) : string :=
  if truthy (connector_name self) then default "" (connector_name self)
  else if truthy (prefix self) then default "" (prefix self)
  else zone self.

Definition with_connector_token (self : System) (token : option string)
  : System :=
  {| project := project self;
     zone := zone self;
     name := name self;
     prefix := prefix self;
     dry_run := dry_run self;
     api_token := api_token self;
     registration_code := registration_code self;
     deployment_name := deployment_name self;
     connector_name := connector_name self;
     public_ssh_key_file := public_ssh_key_file self;
     windows_accelerator_type := windows_accelerator_type self;
     deploy_dir := deploy_dir self;
     terraform_version := terraform_version self;
     region := region self;
     service_account_name := service_account_name self;
     service_account_display_name := service_account_display_name self;
     service_account := service_account self;
     credentials_file := credentials_file self;
     terraform_dir := terraform_dir self;
     terraform_deployment_dir := terraform_deployment_dir self;
     connector_token := token |}.

Definition create_connector_token (cam : Cam) (self : System) : result System :=
  let deployment_name := deployment_name_of self in
  let connector_name := connector_name_of self in
  if dry_run self then Ok (with_connector_token self None)
  else
    token ← get_connector_token cam deployment_name connector_name
               (registration_code self) (api_token self);
    Ok (with_connector_token self (Some token)).

End Teradici.

(** ** Further samples *)

Module Fixture.

(** A client that answers the listing of templates with [listing] and
    serves the images of [Sample.compute]. *)
Definition listing_client (listing : option (list Template)) : ComputeApi :=
  {| instanceTemplates_get project name := Raise (HttpError 404);
     instanceTemplates_list project filter := Ok listing;
     images_get := images_get (Sample.compute (Sample.render []) None Sample.operation);
     images_getFromFamily :=
       images_getFromFamily (Sample.compute (Sample.render []) None Sample.operation);
     instances_insert project zone payload := Sample.operation |}.

(** A request that leaves the size out. *)
Definition request_no_size : Instance :=
  {| inst_project := "studio";
     inst_zone := "us-central1-a";
     inst_template := "render";
     inst_size := "";
     inst_name := "";
     inst_metadata := [];
     inst_use_latest_image := false |}.

Definition marker : Item :=
  {| item_key := "orchestrate_default_size"; item_value := "true" |}.

Definition named (name : string) (items : list Item) : Template :=
  {| tpl_name := Some name;
     tpl_properties :=
       Some (Sample.properties items (Some [Sample.disk true "visual-1"])
               (Some [Sample.interface])) |}.

Definition small : Template := named "render-4" Sample.plain_items.
Definition medium : Template := named "render-8" (Sample.plain_items ++ [marker]).
Definition large : Template := named "render-16" [marker].
Definition broken : Template :=
  {| tpl_name := Some "render-2"; tpl_properties := None |}.

(** A template with a guest accelerator and an interface that names its own
    network. *)
Definition gpu_template : Template :=
  {| tpl_name := Some "render-8";
     tpl_properties :=
       Some {| prop_machineType := Some "n1-highmem-4";
               prop_tags := None;
               prop_canIpForward := None;
               prop_networkInterfaces :=
                 Some [{| ni_network := Some "global/networks/legacy";
                          ni_subnetwork := None;
                          ni_other := "{}" |}];
               prop_labels := None;
               prop_scheduling := None;
               prop_deletionProtection := None;
               prop_serviceAccounts := None;
               prop_guestAccelerators :=
                 Some [{| acc_acceleratorType := Some "nvidia-tesla-t4";
                          acc_other := "1" |}];
               prop_disks := Some [Sample.disk true "visual-1"];
               prop_metadata := Some {| md_items := Some Sample.items |} |} |}.

Definition gpu_client : ComputeApi :=
  Sample.compute gpu_template None Sample.operation.

(** Items that file two values under one key of the extended mapping. *)
Definition twice : list Item :=
  [{| item_key := "orchestrate_network"; item_value := "studio-a" |};
   {| item_key := "enable-oslogin"; item_value := "TRUE" |};
   {| item_key := "orchestrate_network"; item_value := "studio-b" |}].

(** A Teradici deployment in the zone [us-west2-b], with a prefix. *)
Definition system : Teradici.System :=
  {| Teradici.project := "studio";
     Teradici.zone := "us-west2-b";
     Teradici.name := "teradici";
     Teradici.prefix := Some "demo";
     Teradici.dry_run := false;
     Teradici.api_token := Some "token";
     Teradici.registration_code := Some "code";
     Teradici.deployment_name := None;
     Teradici.connector_name := None;
     Teradici.public_ssh_key_file := None;
     Teradici.windows_accelerator_type := None;
     Teradici.deploy_dir := "";
     Teradici.terraform_version := "0.13.0";
     Teradici.region := "";
     Teradici.service_account_name := "";
     Teradici.service_account_display_name := "";
     Teradici.service_account := "";
     Teradici.credentials_file := "";
     Teradici.terraform_dir := "";
     Teradici.terraform_deployment_dir := "";
     Teradici.connector_token := None |}.

Definition host : Teradici.Host :=
  {| Teradici.run_command command := Ok ();
     Teradici.mkdtemp prefix dir := Ok (dir +:+ "/" +:+ prefix +:+ "x1") |}.

(** A manager that knows the deployments in [known]. *)
Definition manager (known : list string) : Teradici.Cam :=
  {| Teradici.deployments_get token name :=
       Ok (if bool_decide (name ∈ known) then Some name else None);
     Teradici.deployments_post token name code := Ok name;
     Teradici.connector_post token deployment connector :=
       Ok (deployment +:+ "/" +:+ connector) |}.

End Fixture.

(** * Properties *)

(** ** The string primitives on examples *)

Example format_default :
  PyStr.format "{template}-{size}-{id}"
    [("template", "render"); ("size", "8"); ("id", "ab12c")]
  = Ok "render-8-ab12c".
Proof. vm_compute. reflexivity. Qed.

Example format_escape :
  PyStr.format "a{{b}}-{x}" [("x", "1")] = Ok "a{b}-1".
Proof. vm_compute. reflexivity. Qed.

Example format_single : ∃ m, PyStr.format "a}" [] = Raise (ValueError m).
Proof. eexists. vm_compute. reflexivity. Qed.

Example split_zone : PyStr.split "-"%char "us-central1-a" = ["us"; "central1"; "a"].
Proof. reflexivity. Qed.

Example re_example :
  Re.match_tokens
    [Re.DotStar None; Re.Lit "/projects/"; Re.DotStar (Some "project");
     Re.Lit "/global/images/"; Re.DotStar (Some "version")]
    "https://x/v1/projects/p/global/images/v1"
  = Some [("project", "p"); ("version", "v1")].
Proof. vm_compute. reflexivity. Qed.

Example region_example : region_of "us-central1-a" = "us-central1".
Proof. reflexivity. Qed.

Example lower_example : PyStr.lower "Windows-2019" = "windows-2019".
Proof. reflexivity. Qed.

(** ** The result monad *)

Lemma bind_Ok {A B : Type} (m : result A) (f : A → result B) (b : B) :
  m ≫= f = Ok b → ∃ a, m = Ok a ∧ f a = Ok b.
Proof. destruct m as [a|e]; [eauto | discriminate]. Qed.

Lemma fmap_Ok {A B : Type} (m : result A) (f : A → B) (b : B) :
  f <$> m = Ok b → ∃ a, m = Ok a ∧ b = f a.
Proof. destruct m as [a|e]; [|discriminate]. intros [= <-]. eauto. Qed.

Lemma getitem_Ok {A : Type} (k : string) (field : option A) (a : A) :
  getitem k field = Ok a → field = Some a.
Proof. destruct field; [|discriminate]. by intros [= ->]. Qed.

Lemma getitem_Some {A : Type} (k : string) (a : A) : getitem k (Some a) = Ok a.
Proof. reflexivity. Qed.

Lemma ret_bind {A B : Type} (a : A) (f : A → result B) : Ok a ≫= f = f a.
Proof. reflexivity. Qed.

Lemma raise_bind {A B : Type} (e : error) (f : A → result B) :
  Raise e ≫= f = Raise e.
Proof. reflexivity. Qed.

Lemma mapM_Ok {A B : Type} (f : A → result B) (l : list A) (k : list B) :
  mapM f l = Ok k ↔ Forall2 (fun x y => f x = Ok y) l k.
Proof.
  revert k. induction l as [|x l IH]; intros k; simpl.
  - split.
    + intros [= <-]. constructor.
    + by inversion 1.
  - split.
    + intros H. apply bind_Ok in H as (y & Hy & H).
      apply bind_Ok in H as (k' & Hk' & H). injection H as <-.
      constructor; [done | by apply IH].
    + inversion 1 as [|? y ? k' Hy Hk']; subst.
      apply IH in Hk'. by rewrite Hy; simpl; rewrite Hk'.
Qed.

(** ** Metadata splitting *)

Lemma startswith_app (s p : string) :
  PyStr.startswith s p = true → ∃ r, s = p +:+ r.
Proof.
  revert s. induction p as [|a p IH]; intros s H; simpl in H.
  - by exists s.
  - destruct s as [|b s]; simpl in H; [discriminate|].
    case_decide; [subst b | discriminate].
    destruct (IH s H) as [r ->]. by exists r.
Qed.

Lemma app_String (a : ascii) (p r : string) :
  String a p +:+ r = String a (p +:+ r).
Proof. reflexivity. Qed.

Lemma string_app_assoc (a b c : string) : (a +:+ b) +:+ c = a +:+ b +:+ c.
Proof.
  induction a as [|x a IH]; [done|]. rewrite !app_String. by rewrite IH.
Qed.

Lemma startswith_app_true (p r : string) : PyStr.startswith (p +:+ r) p = true.
Proof.
  induction p as [|a p IH]; [done|].
  rewrite app_String. simpl. by rewrite decide_True.
Qed.

(** What the loop does with an item whose key carries the prefix: the key
    is cut after eight characters, and the prefix has twelve. *)
Lemma split_item_reserved (acc : list Item * gmap string string) (rest v : string) :
  split_item acc {| item_key := "orchestrate_" +:+ rest; item_value := v |}
  = (acc.1, <["ate_" +:+ rest := v]> acc.2).
Proof. reflexivity. Qed.

Lemma split_item_plain (acc : list Item * gmap string string) (item : Item) :
  reserved item = false → split_item acc item = (acc.1 ++ [item], acc.2).
Proof. unfold split_item, reserved. by intros ->. Qed.

Lemma foldl_split_item_fst (items : list Item) (acc : list Item * gmap string string) :
  (foldl split_item acc items).1
  = acc.1 ++ filter (fun item => reserved item = false) items.
Proof.
  revert acc. induction items as [|item items IH]; intros acc; simpl.
  - by rewrite app_nil_r.
  - rewrite IH, filter_cons. unfold split_item. fold (reserved item).
    destruct (reserved item) eqn:Hr; simpl.
    + done.
    + by rewrite <- app_assoc.
Qed.

Lemma foldl_split_item_keys (items : list Item) (acc : list Item * gmap string string) :
  (∀ k, is_Some (acc.2 !! k) → PyStr.startswith k "ate_" = true) →
  ∀ k, is_Some ((foldl split_item acc items).2 !! k) →
       PyStr.startswith k "ate_" = true.
Proof.
  revert acc. induction items as [|item items IH]; intros acc Hacc; [done|].
  cbn [foldl]. apply IH. intros k. unfold split_item.
  destruct (PyStr.startswith (item_key item) "orchestrate_") eqn:Hr;
    cbn [fst snd]; [|by apply Hacc].
  apply startswith_app in Hr as [r ->].
  change (PyStr.drop 8 ("orchestrate_" +:+ r)) with ("ate_" +:+ r).
  destruct (decide (k = "ate_" +:+ r)) as [->|Hne].
  - intros _. exact (startswith_app_true "ate_" r).
  - rewrite lookup_insert_ne by done. by apply Hacc.
Qed.

Lemma map_item_id (items : list Item) :
  map (fun item => {| item_key := item_key item; item_value := item_value item |})
      items = items.
Proof. induction items as [|[k v] items IH]; simpl; [done|]. by rewrite IH. Qed.

(** X12.  The instance metadata is the template's items without the prefix,
    in order, followed by the request's items; no key of the extended mapping
    starts with the prefix. *)
Lemma get_metadata_partition (instance : Instance) (template : Template)
    (properties : Properties) (metadata : Metadata) (items : list Item) :
  tpl_properties template = Some properties →
  prop_metadata properties = Some metadata →
  md_items metadata = Some items →
  ∃ extended,
    get_metadata instance template
    = Ok (filter (fun item => reserved item = false) items
            ++ inst_metadata instance, extended)
    ∧ ∀ k, is_Some (extended !! k) → PyStr.startswith k "orchestrate_" = false.
Proof.
  intros Hp Hm Hi. unfold get_metadata. rewrite Hp; simpl. rewrite Hm; simpl.
  rewrite Hi; simpl.
  pose proof (foldl_split_item_fst items ([], ∅)) as Hfst.
  pose proof (foldl_split_item_keys items ([], ∅)) as Hsnd.
  destruct (foldl split_item ([], ∅) items) as [im om]; cbn [fst snd] in *.
  exists om. rewrite map_item_id, Hfst. split; [done|].
  intros k Hk. apply Hsnd in Hk.
  - apply startswith_app in Hk as [r ->]. reflexivity.
  - intros k'. rewrite lookup_empty. by intros [? ?].
Qed.

(** C1 (the code departs from the claim).  An item whose key carries the
    reserved prefix [orchestrate_] is stored in the extended mapping under
    its key cut after eight characters, so four characters of the prefix
    stay: the template item [orchestrate_machine_type] is filed under
    [ate_machine_type], and nothing is filed under [machine_type]. *)
Theorem get_metadata_keeps_prefix_tail :
  (∀ instance rest v,
     get_metadata instance
       (Sample.template
          [{| item_key := "orchestrate_" +:+ rest; item_value := v |}] None None)
     = Ok (inst_metadata instance, {[ "ate_" +:+ rest := v ]}))
  ∧ ∃ extended,
      get_metadata (Sample.request "" false)
        (Sample.template Sample.items None None)
      = Ok ([{| item_key := "enable-oslogin"; item_value := "TRUE" |};
             {| item_key := "owner"; item_value := "ann" |}], extended)
      ∧ extended !! "ate_machine_type" = Some "n1-standard-16"
      ∧ extended !! "machine_type" = None.
Proof.
  split.
  - intros instance rest v. unfold get_metadata; simpl.
    by rewrite map_item_id.
  - eexists. split; [reflexivity|]. split; by vm_compute.
Qed.

(** ** Instance names *)

Lemma format_brace_free (s : string) (kwargs : list (string * string)) :
  brace_free s = true → PyStr.format s kwargs = Ok s.
Proof.
  unfold PyStr.format. induction s as [|c s IH]; [done|].
  cbn [brace_free]. intros [[Ho%negb_true_iff Hc%negb_true_iff]%andb_prop Hs]%andb_prop.
  apply bool_decide_eq_false in Ho, Hc.
  cbn [PyStr.format_go]. rewrite !decide_False by done.
  by rewrite (IH Hs).
Qed.

Lemma string_app_empty_r (s : string) : s +:+ "" = s.
Proof. induction s as [|c s IH]; [done|]. by rewrite app_String, IH. Qed.

Lemma format_default_render
    (template size region zone type gpu_name gpu_count gpu_type id : string) :
  PyStr.format default_pattern
    [("template", template); ("size", size); ("region", region);
     ("zone", zone); ("type", type); ("gpu_name", gpu_name);
     ("gpu_count", gpu_count); ("gpu_type", gpu_type); ("user", id);
     ("id", id)]
  = Ok (template +:+ "-" +:+ size +:+ "-" +:+ id +:+ "").
Proof. vm_compute. reflexivity. Qed.

(** The default pattern renders to the template, the size and the short
    identifier, joined by dashes. *)
Lemma format_default_pattern (uuid_hex : string) (instance : Instance)
    (orchestrate_metadata : gmap string string) :
  PyStr.format default_pattern
    (name_placeholders uuid_hex instance orchestrate_metadata)
  = Ok (inst_template instance +:+ "-" +:+ inst_size instance +:+ "-"
        +:+ PyStr.take 5 uuid_hex).
Proof.
  unfold name_placeholders. cbv zeta.
  rewrite format_default_render. by rewrite string_app_empty_r.
Qed.

Lemma truthy_false (s : string) : PyStr.truthy s = false ↔ s = "".
Proof. by destruct s. Qed.

Lemma truthy_true (s : string) : PyStr.truthy s = true ↔ s ≠ "".
Proof. by destruct s. Qed.

(** C4 (amended).  The name is a pattern rendered with the placeholders, and
    the pattern follows the precedence chain: a non-empty explicit name of
    the request is the pattern, and is the resulting name as it stands when
    it holds no brace; with no explicit name, a non-empty naming pattern of
    the extended metadata is the pattern; with neither (the naming pattern
    missing or empty), the default pattern is used and the name is the
    template, the size and the first five characters of the random
    identifier, joined by dashes. *)
Theorem build_name_precedence (uuid_hex : string) (instance : Instance)
    (orchestrate_metadata : gmap string string) :
  (inst_name instance ≠ "" →
   build_name uuid_hex instance orchestrate_metadata
   = PyStr.format (inst_name instance)
       (name_placeholders uuid_hex instance orchestrate_metadata)
   ∧ (brace_free (inst_name instance) = true →
      build_name uuid_hex instance orchestrate_metadata
      = Ok (inst_name instance)))
  ∧ (inst_name instance = "" →
     ∀ pattern,
       orchestrate_metadata !! "instance_name_pattern" = Some pattern →
       pattern ≠ "" →
       build_name uuid_hex instance orchestrate_metadata
       = PyStr.format pattern
           (name_placeholders uuid_hex instance orchestrate_metadata))
  ∧ (inst_name instance = "" →
     orchestrate_metadata !! "instance_name_pattern" = None
     ∨ orchestrate_metadata !! "instance_name_pattern" = Some "" →
     build_name uuid_hex instance orchestrate_metadata
     = Ok (inst_template instance +:+ "-" +:+ inst_size instance +:+ "-"
           +:+ PyStr.take 5 uuid_hex)).
Proof.
  unfold build_name. split; [|split].
  - intros Hname%truthy_true. rewrite Hname. split; [done|].
    intros Hfree. by apply format_brace_free.
  - intros Hname%truthy_false pattern Hpattern Hne%truthy_true.
    rewrite Hname, Hpattern. unfold PyStr.or_else. by rewrite Hne.
  - intros Hname%truthy_false Hpattern. rewrite Hname.
    destruct Hpattern as [-> | ->]; apply format_default_pattern.
Qed.

(** ** Operating system and startup script *)

Lemma get_os_type_label (image : Image) (label : string) :
  os_label image = Some label → label ≠ "" →
  get_os_type image = Ok (PyStr.lower label).
Proof.
  unfold os_label, get_os_type. intros -> Hne%truthy_true. by rewrite Hne.
Qed.

Lemma get_os_type_guess (image : Image) :
  os_label image = None ∨ os_label image = Some "" →
  get_os_type image = guess_os_type image.
Proof. unfold os_label, get_os_type. by intros [-> | ->]. Qed.

Lemma linux_families_not_windows : "windows" ∉ linux_families.
Proof. apply (proj1 (bool_decide_eq_false _)). reflexivity. Qed.

(** C5 (amended).  A present, non-empty OS label decides alone and the
    result is that label in lower case, whatever it spells; with no label
    or an empty one, the first hyphen-delimited token of the family decides:
    [windows] gives windows, a token of the Linux list gives linux, and any
    other token makes the classification fail with the domain error naming
    the image.  So a result is linux, windows, or the lower-cased label. *)
Theorem get_os_type_classification (image : Image) :
  (∀ label,
     os_label image = Some label → label ≠ "" →
     get_os_type image = Ok (PyStr.lower label))
  ∧ (os_label image = None ∨ os_label image = Some "" →
     ∀ family,
       img_family image = Some family →
       let token := hd "" (PyStr.split "-"%char family) in
       (token = "windows" → get_os_type image = Ok "windows")
       ∧ (token ∈ linux_families → get_os_type image = Ok "linux")
       ∧ (token ≠ "windows" → token ∉ linux_families →
          ∀ link,
            img_selfLink image = Some link →
            get_os_type image
            = Raise (OrchestrateInstanceCreationError (unknown_os_message link))))
  ∧ (∀ os,
       get_os_type image = Ok os →
       os = "linux" ∨ os = "windows"
       ∨ ∃ label, os_label image = Some label ∧ label ≠ ""
                  ∧ os = PyStr.lower label).
Proof.
  split; [apply get_os_type_label|]. split.
  - intros Hlabel family Hfamily token.
    rewrite (get_os_type_guess _ Hlabel). unfold guess_os_type.
    rewrite Hfamily, getitem_Some, ret_bind. fold token.
    repeat split.
    + intros ->. by rewrite decide_True.
    + intros Hin. rewrite decide_False.
      * by rewrite bool_decide_eq_true_2.
      * intros ->. by apply linux_families_not_windows.
    + intros Hw Hl link Hlink.
      rewrite decide_False, bool_decide_eq_false_2 by done.
      by rewrite Hlink, getitem_Some, ret_bind.
  - intros os H.
    assert (guess_os_type image = Ok os → os = "linux" ∨ os = "windows") as Hguess.
    { unfold guess_os_type. intros Hg.
      apply bind_Ok in Hg as (family & _ & Hg).
      case_decide; [injection Hg as <-; auto|].
      case_bool_decide; [injection Hg as <-; auto|].
      apply bind_Ok in Hg as (? & _ & Hg). discriminate. }
    destruct (os_label image) as [label|] eqn:Hlabel.
    + destruct (decide (label = "")) as [->|Hne].
      * rewrite get_os_type_guess in H by auto.
        destruct (Hguess H); auto.
      * rewrite (get_os_type_label _ _ Hlabel Hne) in H. injection H as <-.
        right; right. eauto.
    + rewrite get_os_type_guess in H by auto. destruct (Hguess H); auto.
Qed.

Section startup.

Context (ORCHESTRATE_BUCKET : string).

Lemma set_startup_script_other_label (metadata : list Item) (image : Image)
    (label : string) :
  os_label image = Some label → label ≠ "" →
  PyStr.lower label ≠ "linux" → PyStr.lower label ≠ "windows" →
  set_startup_script ORCHESTRATE_BUCKET metadata image = Ok metadata.
Proof.
  intros Hlabel Hne Hl Hw. unfold set_startup_script.
  rewrite (get_os_type_label _ _ Hlabel Hne), ret_bind.
  by rewrite !decide_False.
Qed.

End startup.

(** ** Boot images *)

Section images.

Context (compute : ComputeApi).

Lemma get_images_Ok (parameters : InitializeParams) (image latest : Image) :
  get_images compute parameters = Ok (image, latest) →
  ∃ link groups family,
    ip_sourceImage parameters = Some link
    ∧ Re.match_tokens source_image_pattern link = Some groups
    ∧ images_get compute (Re.group "project" groups)
        (Re.group "version" groups) = Ok image
    ∧ img_family image = Some family
    ∧ images_getFromFamily compute (Re.group "project" groups) family
      = Ok latest.
Proof.
  unfold get_images. intros H.
  apply bind_Ok in H as (link & Hlink%getitem_Ok & H).
  destruct (Re.match_tokens source_image_pattern link) as [groups|] eqn:Hm;
    [|discriminate].
  apply bind_Ok in H as (image' & Himage & H).
  apply bind_Ok in H as (family & Hfamily%getitem_Ok & H).
  apply bind_Ok in H as (latest' & Hlatest & H).
  injection H as <- <-. eauto 10.
Qed.

(** The loop stops at the first disk flagged boot. *)
Lemma get_boot_images_first (before after : list Disk) (disk : Disk) :
  Forall not_boot before →
  disk_boot disk = Some true →
  get_boot_images compute (before ++ disk :: after)
  = parameters ← getitem "initializeParams" (disk_initializeParams disk);
    get_images compute parameters.
Proof.
  intros Hbefore Hboot.
  induction Hbefore as [|d before Hd _ IH]; simpl.
  - by rewrite Hboot.
  - unfold not_boot in Hd. by rewrite Hd.
Qed.

Lemma get_boot_images_none (disks : list Disk) :
  Forall not_boot disks →
  get_boot_images compute disks
  = Raise (OrchestrateInstanceCreationError "Template has no boot disk.").
Proof.
  induction 1 as [|d disks Hd _ IH]; simpl; [done|].
  unfold not_boot in Hd. by rewrite Hd.
Qed.

Lemma get_boot_images_Ok (disks : list Disk) (image latest : Image) :
  get_boot_images compute disks = Ok (image, latest) →
  ∃ before disk after parameters,
    disks = before ++ disk :: after
    ∧ Forall not_boot before
    ∧ disk_boot disk = Some true
    ∧ disk_initializeParams disk = Some parameters
    ∧ get_images compute parameters = Ok (image, latest).
Proof.
  induction disks as [|d disks IH]; simpl; [discriminate|].
  intros H. apply bind_Ok in H as ([|] & Hboot%getitem_Ok & H).
  - apply bind_Ok in H as (parameters & Hp%getitem_Ok & H).
    exists [], d, disks, parameters. by repeat split.
  - destruct (IH H) as (before & disk & after & parameters & -> & ? & ? & ? & ?).
    exists (d :: before), disk, after, parameters.
    repeat split; try done. by constructor.
Qed.

(** C3 (amended).  When no disk of the template is flagged boot, resolving
    the boot images fails with the domain error [Template has no boot
    disk.]; otherwise the first disk flagged boot decides, whatever the
    disks after it are flagged: when its source image reference matches the
    pattern with the groups [project] and [version], [images.get] answers
    [image] and [images.getFromFamily] on that image's family answers
    [latest], the result is the pair of [image] and [latest]. *)
Theorem get_boot_images_first_boot_disk (disks before after : list Disk)
    (disk : Disk) (parameters : InitializeParams)
    (link project version family : string) (image latest : Image) :
  (Forall not_boot disks →
   get_boot_images compute disks
   = Raise (OrchestrateInstanceCreationError "Template has no boot disk."))
  ∧ (disks = before ++ disk :: after →
     Forall not_boot before →
     disk_boot disk = Some true →
     disk_initializeParams disk = Some parameters →
     ip_sourceImage parameters = Some link →
     Re.match_tokens source_image_pattern link
     = Some [("project", project); ("version", version)] →
     images_get compute project version = Ok image →
     img_family image = Some family →
     images_getFromFamily compute project family = Ok latest →
     get_boot_images compute disks = Ok (image, latest)).
Proof.
  split; [apply get_boot_images_none|].
  intros -> Hbefore Hboot Hparams Hlink Hmatch Himage Hfamily Hlatest.
  rewrite get_boot_images_first by done.
  rewrite Hparams, getitem_Some, ret_bind. unfold get_images.
  rewrite Hlink, getitem_Some, ret_bind, Hmatch.
  change (Re.group "project" [("project", project); ("version", version)])
    with project.
  change (Re.group "version" [("project", project); ("version", version)])
    with version.
  rewrite Himage, ret_bind, Hfamily, getitem_Some, ret_bind, Hlatest.
  reflexivity.
Qed.

(** Without a match, [match.group] is called on [None]. *)
Lemma get_images_no_match (parameters : InitializeParams) (link : string) :
  ip_sourceImage parameters = Some link →
  Re.match_tokens source_image_pattern link = None →
  get_images compute parameters
  = Raise (AttributeError "'NoneType' object has no attribute 'group'").
Proof.
  intros Hlink Hmatch. unfold get_images. rewrite Hlink.
  rewrite getitem_Some, ret_bind. by rewrite Hmatch.
Qed.

(** C6 (the code departs from the claim).  A source image reference that
    does not match the pattern makes the resolution fail with
    [AttributeError], raised by [match.group] on the missing match, and
    not with a domain error.  The reference given as the example in the
    source, which has no slash before [projects], is such a reference, and
    so is a bare image name. *)
Theorem get_images_malformed_reference :
  get_images compute
    {| ip_diskType := Some "pd-ssd";
       ip_sourceImage :=
         Some "projects/cloud-media-solutions/global/images/visual-20191217t184104";
       ip_other := "{}" |}
  = Raise (AttributeError "'NoneType' object has no attribute 'group'")
  ∧ get_boot_images compute
      [{| disk_boot := Some true;
          disk_initializeParams :=
            Some {| ip_diskType := Some "pd-ssd";
                    ip_sourceImage := Some "visual-20191217t184104";
                    ip_other := "{}" |};
          disk_other := "{}" |}]
    = Raise (AttributeError "'NoneType' object has no attribute 'group'").
Proof. split; reflexivity. Qed.

End images.

(** ** Descriptor assembly *)

Section assembly.

Context (compute : ComputeApi) (ORCHESTRATE_BUCKET : string).

(** What a successful assembly went through, step by step. *)
Lemma build_payload_with_Ok (uuid_hex : string) (instance : Instance)
    (template : Template) (instance_metadata : list Item)
    (orchestrate_metadata : gmap string string) (payload : Payload) :
  build_payload_with compute ORCHESTRATE_BUCKET uuid_hex instance template
    instance_metadata orchestrate_metadata = Ok payload →
  ∃ name properties disks image latest accelerators disks' interfaces items,
    build_name uuid_hex instance orchestrate_metadata = Ok name
    ∧ tpl_properties template = Some properties
    ∧ prop_disks properties = Some disks
    ∧ get_boot_images compute disks = Ok (image, latest)
    ∧ match prop_guestAccelerators properties with
      | Some l =>
          ∃ l', mapM (expand_accelerator (zone_url_of instance)) l = Ok l'
                ∧ accelerators = Some l'
      | None => accelerators = None
      end
    ∧ mapM (expand_disk (zone_url_of instance)
              (inst_use_latest_image instance) latest) disks = Ok disks'
    ∧ prop_networkInterfaces properties = Some interfaces
    ∧ set_startup_script ORCHESTRATE_BUCKET instance_metadata
        (if inst_use_latest_image instance then latest else image) = Ok items
    ∧ payload
      = finish
          (transfer name
             ("Orchestrate instance created from template "
              +:+ inst_template instance +:+ " size " +:+ inst_size instance)
             properties)
          (machine_type_url (zone_url_of instance) orchestrate_metadata)
          accelerators disks'
          (map (expand_interface (region_url_of instance) orchestrate_metadata)
               interfaces)
          items.
Proof.
  unfold build_payload_with. fold (zone_url_of instance) (region_url_of instance).
  intros H.
  apply bind_Ok in H as (name & Hname & H).
  apply bind_Ok in H as (properties & Hprops%getitem_Ok & H).
  apply bind_Ok in H as (disks & Hdisks%getitem_Ok & H).
  apply bind_Ok in H as ([image latest] & Hboot & H).
  apply bind_Ok in H as (accelerators & Hacc & H).
  apply bind_Ok in H as (disks0 & Hdisks0%getitem_Ok & H).
  apply bind_Ok in H as (disks' & Hdisks' & H).
  apply bind_Ok in H as (interfaces & Hifs%getitem_Ok & H).
  apply bind_Ok in H as (items & Hitems & H).
  injection H as <-.
  cbn [transfer pl_disks pl_networkInterfaces pl_guestAccelerators] in *.
  assert (disks0 = disks) as -> by congruence.
  exists name, properties, disks, image, latest, accelerators, disks',
    interfaces, items.
  repeat split; try done.
  destruct (prop_guestAccelerators properties) as [l|].
  - apply fmap_Ok in Hacc as (l' & Hl' & ->). eauto.
  - by injection Hacc as <-.
Qed.

(** C2 (amended).  The machine type of an assembled descriptor is the URL
    [projects/{project}/zones/{zone}/machineTypes/{m}], where [m] is the
    value the extended metadata holds under [machine_type] when it holds
    one and the fixed default [n1-standard-8] otherwise; the machine type
    declared by the template's properties is not used. *)
Theorem build_payload_machine_type (uuid_hex : string) (instance : Instance)
    (template : Template) (instance_metadata : list Item)
    (orchestrate_metadata : gmap string string) (payload : Payload) :
  build_payload_with compute ORCHESTRATE_BUCKET uuid_hex instance template
    instance_metadata orchestrate_metadata = Ok payload →
  pl_machineType payload
  = Some ("projects/" +:+ inst_project instance +:+ "/zones/"
          +:+ inst_zone instance +:+ "/machineTypes/"
          +:+ match orchestrate_metadata !! "machine_type" with
              | Some override => override
              | None => "n1-standard-8"
              end).
Proof.
  intros H.
  apply build_payload_with_Ok in H
    as (? & ? & ? & ? & ? & ? & ? & ? & ? & _ & _ & _ & _ & _ & _ & _ & _ & ->).
  cbn [finish pl_machineType]. unfold machine_type_url, zone_url_of.
  f_equal. by rewrite !string_app_assoc.
Qed.

Lemma expand_disk_Ok (zone_url : string) (use_latest_image : bool)
    (latest : Image) (disk disk' : Disk) :
  expand_disk zone_url use_latest_image latest disk = Ok disk' →
  ∃ boot,
    disk_boot disk = Some boot
    ∧ disk_boot disk' = Some boot
    ∧ source_image disk'
      = if boot && use_latest_image then img_selfLink latest
        else source_image disk.
Proof.
  unfold expand_disk, source_image. intros H.
  apply bind_Ok in H as (parameters & Hp%getitem_Ok & H).
  apply bind_Ok in H as (disk_type & _ & H).
  apply bind_Ok in H as (boot & Hboot%getitem_Ok & H).
  exists boot. rewrite Hp. destruct (boot && use_latest_image).
  - apply bind_Ok in H as (self_link & Hlink%getitem_Ok & H).
    injection H as <-. by rewrite Hlink.
  - by injection H as <-.
Qed.

(** C9 (amended).  When the OS label of an image is present and not
    empty, and in lower case is neither linux nor windows, the selection of
    the startup script raises nothing and leaves the metadata as they are;
    when the image booted is such an image, the metadata items of the
    assembled descriptor are the instance metadata, with nothing added. *)
Theorem startup_script_skipped (metadata : list Item) (booted : Image)
    (label : string) :
  os_label booted = Some label →
  label ≠ "" →
  PyStr.lower label ≠ "linux" →
  PyStr.lower label ≠ "windows" →
  set_startup_script ORCHESTRATE_BUCKET metadata booted = Ok metadata
  ∧ ∀ uuid_hex instance template orchestrate_metadata properties disks
      image latest payload,
      tpl_properties template = Some properties →
      prop_disks properties = Some disks →
      get_boot_images compute disks = Ok (image, latest) →
      booted = (if inst_use_latest_image instance then latest else image) →
      build_payload_with compute ORCHESTRATE_BUCKET uuid_hex instance
        template metadata orchestrate_metadata = Ok payload →
      pl_metadata payload = Some metadata.
Proof.
  intros Hlabel Hne Hl Hw.
  pose proof (set_startup_script_other_label ORCHESTRATE_BUCKET metadata
                booted label Hlabel Hne Hl Hw) as Hskip.
  split; [done|].
  intros uuid_hex instance template orchestrate_metadata properties disks
    image latest payload Hprops Hdisks Hboot -> H.
  apply build_payload_with_Ok in H
    as (? & properties' & disks' & image' & latest' & ? & ? & ? & items
        & _ & Hprops' & Hdisks' & Hboot' & _ & _ & _ & Hitems & ->).
  cbn [finish pl_metadata].
  assert (properties' = properties) as -> by congruence.
  assert (disks' = disks) as -> by congruence.
  assert (image' = image ∧ latest' = latest) as [-> ->]
    by (split; congruence).
  congruence.
Qed.

End assembly.

(** ** The whole resolution, and templates with missing keys *)

Section resolution.

Context (compute : ComputeApi) (ORCHESTRATE_BUCKET : string).

Lemma build_instance_payload_Ok (uuid_hex : string) (instance : Instance)
    (payload : Payload) :
  build_instance_payload compute ORCHESTRATE_BUCKET uuid_hex instance
  = Ok payload →
  ∃ template instance_metadata orchestrate_metadata,
    get_template compute instance = Ok template
    ∧ get_metadata instance template
      = Ok (instance_metadata, orchestrate_metadata)
    ∧ build_payload_with compute ORCHESTRATE_BUCKET uuid_hex instance
        template instance_metadata orchestrate_metadata = Ok payload.
Proof.
  unfold build_instance_payload. intros H.
  apply bind_Ok in H as (template & Htemplate & H).
  apply bind_Ok in H as ([im om] & Hmeta & H). eauto 6.
Qed.

Lemma get_metadata_Ok (instance : Instance) (template : Template)
    (r : list Item * gmap string string) :
  get_metadata instance template = Ok r →
  ∃ properties metadata items,
    tpl_properties template = Some properties
    ∧ prop_metadata properties = Some metadata
    ∧ md_items metadata = Some items.
Proof.
  unfold get_metadata. intros H.
  apply bind_Ok in H as (properties & Hp%getitem_Ok & H).
  apply bind_Ok in H as (metadata & Hm%getitem_Ok & H).
  apply bind_Ok in H as (items & Hi%getitem_Ok & H). eauto 6.
Qed.

(** C10 (amended).  The keys [tags], [canIpForward], [labels],
    [scheduling], [deletionProtection] and [serviceAccounts] go into the
    descriptor as the template has them, present or not.  A template whose
    properties lack the metadata item list, [disks] or [networkInterfaces]
    never yields a descriptor.  Without the metadata or its item list the
    failure is the [KeyError] of that key; without [disks] it is
    [KeyError] on [disks] once the name has been resolved; without
    [networkInterfaces] it is [KeyError] on [networkInterfaces] once the
    name, the boot images, the accelerators and the disks have been
    resolved.  An earlier step that fails decides the error instead. *)
Theorem build_payload_missing_keys (uuid_hex : string) (instance : Instance)
    (template : Template) (properties : Properties) :
  get_template compute instance = Ok template →
  tpl_properties template = Some properties →
  let build :=
    build_instance_payload compute ORCHESTRATE_BUCKET uuid_hex instance in
  (∀ payload,
     build = Ok payload →
     pl_tags payload = prop_tags properties
     ∧ pl_canIpForward payload = prop_canIpForward properties
     ∧ pl_labels payload = prop_labels properties
     ∧ pl_scheduling payload = prop_scheduling properties
     ∧ pl_deletionProtection payload = prop_deletionProtection properties
     ∧ pl_serviceAccounts payload = prop_serviceAccounts properties)
  ∧ (prop_metadata properties = None → build = Raise (KeyError "metadata"))
  ∧ (∀ metadata,
       prop_metadata properties = Some metadata →
       md_items metadata = None →
       build = Raise (KeyError "items"))
  ∧ (prop_disks properties = None →
     (∀ payload, build ≠ Ok payload)
     ∧ ∀ instance_metadata orchestrate_metadata name,
         get_metadata instance template
         = Ok (instance_metadata, orchestrate_metadata) →
         build_name uuid_hex instance orchestrate_metadata = Ok name →
         build = Raise (KeyError "disks"))
  ∧ (prop_networkInterfaces properties = None →
     (∀ payload, build ≠ Ok payload)
     ∧ ∀ instance_metadata orchestrate_metadata name disks image latest
         disks',
         get_metadata instance template
         = Ok (instance_metadata, orchestrate_metadata) →
         build_name uuid_hex instance orchestrate_metadata = Ok name →
         prop_disks properties = Some disks →
         get_boot_images compute disks = Ok (image, latest) →
         (∀ accelerators,
            prop_guestAccelerators properties = Some accelerators →
            ∃ accelerators',
              mapM (expand_accelerator (zone_url_of instance)) accelerators
              = Ok accelerators') →
         mapM (expand_disk (zone_url_of instance)
                 (inst_use_latest_image instance) latest) disks
         = Ok disks' →
         build = Raise (KeyError "networkInterfaces")).
Proof.
  intros Htemplate Hprops build.
  assert (∀ payload, build = Ok payload →
            ∃ im om, build_payload_with compute ORCHESTRATE_BUCKET uuid_hex
                       instance template im om = Ok payload) as Hinv.
  { intros payload H. apply build_instance_payload_Ok in H
      as (template' & im & om & Ht & _ & H).
    assert (template' = template) as -> by congruence. eauto. }
  assert (∀ im om, get_metadata instance template = Ok (im, om) →
            build = build_payload_with compute ORCHESTRATE_BUCKET uuid_hex
                      instance template im om) as Hrun.
  { intros im om Hmeta. unfold build, build_instance_payload.
    by rewrite Htemplate, ret_bind, Hmeta, ret_bind. }
  split; [|split; [|split; [|split]]].
  - intros payload H. apply Hinv in H as (im & om & H).
    apply build_payload_with_Ok in H
      as (? & properties' & ? & ? & ? & ? & ? & ? & ?
          & _ & Hprops' & _ & _ & _ & _ & _ & _ & ->).
    assert (properties' = properties) as -> by congruence.
    by repeat split.
  - intros Hmeta. unfold build, build_instance_payload, get_metadata.
    rewrite Htemplate, ret_bind, Hprops, getitem_Some, ret_bind, Hmeta.
    reflexivity.
  - intros metadata Hmeta Hitems.
    unfold build, build_instance_payload, get_metadata.
    rewrite Htemplate, ret_bind, Hprops, getitem_Some, ret_bind, Hmeta,
      getitem_Some, ret_bind, Hitems.
    reflexivity.
  - intros Hdisks. split.
    + intros payload H. apply Hinv in H as (im & om & H).
      apply build_payload_with_Ok in H
        as (? & properties' & ? & ? & ? & ? & ? & ? & ?
            & _ & Hprops' & Hdisks' & _).
      congruence.
    + intros im om name Hmeta Hname. rewrite (Hrun _ _ Hmeta).
      unfold build_payload_with.
      rewrite Hname, ret_bind, Hprops, getitem_Some, ret_bind, Hdisks.
      reflexivity.
  - intros Hifs. split.
    + intros payload H. apply Hinv in H as (im & om & H).
      apply build_payload_with_Ok in H
        as (? & properties' & ? & ? & ? & ? & ? & ? & ?
            & _ & Hprops' & _ & _ & _ & _ & Hifs' & _).
      congruence.
    + intros im om name disks image latest disks' Hmeta Hname Hdisks Hboot
        Hacc Hexpand.
      rewrite (Hrun _ _ Hmeta). unfold build_payload_with.
      fold (zone_url_of instance).
      rewrite Hname, ret_bind, Hprops, getitem_Some, ret_bind, Hdisks,
        getitem_Some, ret_bind, Hboot, ret_bind.
      cbn [transfer pl_guestAccelerators pl_disks pl_networkInterfaces].
      rewrite Hdisks, getitem_Some, Hifs.
      destruct (prop_guestAccelerators properties) as [accelerators|].
      * destruct (Hacc accelerators eq_refl) as [accelerators' ->].
        cbn [fmap result_fmap]. rewrite !ret_bind, Hexpand, ret_bind.
        reflexivity.
      * rewrite !ret_bind, Hexpand, ret_bind. reflexivity.
Qed.

End resolution.

(** ** The command as a whole *)

Section command.

Context (compute : ComputeApi) (ORCHESTRATE_BUCKET : string).

(** X21.  A conflict answered to [instances.insert] becomes the domain
    error that names the instance. *)
Lemma run_insert_conflict (request_id uuid_hex : string) (instance : Instance)
    (payload : Payload) :
  build_instance_payload compute ORCHESTRATE_BUCKET uuid_hex instance
  = Ok payload →
  instances_insert compute (inst_project instance) (inst_zone instance) payload
  = Raise (HttpError 409) →
  run compute ORCHESTRATE_BUCKET request_id uuid_hex instance
  = Raise (OrchestrateInstanceCreationError
             (already_exists_message (pl_name payload))).
Proof. intros Hbuild Hinsert. unfold run. by rewrite Hbuild, Hinsert. Qed.

Lemma except_HttpError_other {A : Type} (payload : option Payload) (e : error) :
  e ≠ HttpError 409 → except_HttpError (A := A) payload e = Raise e.
Proof.
  intros He. destruct e as [| status | | | | | |]; try done.
  unfold except_HttpError. rewrite decide_False; [done|]. congruence.
Qed.

(** X22.  Every error other than a conflict reaches the caller as it is,
    from the resolution and from [instances.insert] alike. *)
Lemma run_propagates (request_id uuid_hex : string) (instance : Instance)
    (e : error) :
  e ≠ HttpError 409 →
  (build_instance_payload compute ORCHESTRATE_BUCKET uuid_hex instance
   = Raise e
   ∨ ∃ payload,
       build_instance_payload compute ORCHESTRATE_BUCKET uuid_hex instance
       = Ok payload
       ∧ instances_insert compute (inst_project instance)
           (inst_zone instance) payload = Raise e) →
  run compute ORCHESTRATE_BUCKET request_id uuid_hex instance = Raise e.
Proof.
  intros He [Hbuild | (payload & Hbuild & Hinsert)]; unfold run;
    rewrite Hbuild.
  - by apply except_HttpError_other.
  - rewrite Hinsert, raise_bind. by apply except_HttpError_other.
Qed.

(** A conflict answered while the descriptor is being resolved finds the
    handler without a payload. *)
Lemma run_conflict_before_payload (request_id uuid_hex : string)
    (instance : Instance) :
  build_instance_payload compute ORCHESTRATE_BUCKET uuid_hex instance
  = Raise (HttpError 409) →
  run compute ORCHESTRATE_BUCKET request_id uuid_hex instance
  = Raise (UnboundLocalError "payload").
Proof. intros Hbuild. unfold run. by rewrite Hbuild. Qed.

Lemma run_submitted (request_id uuid_hex : string) (instance : Instance)
    (payload : Payload) (operation : string) :
  build_instance_payload compute ORCHESTRATE_BUCKET uuid_hex instance
  = Ok payload →
  instances_insert compute (inst_project instance) (inst_zone instance) payload
  = Ok {| op_name := Some operation |} →
  run compute ORCHESTRATE_BUCKET request_id uuid_hex instance
  = Ok {| resp_status := "SUBMITTED";
          resp_request_id := request_id;
          resp_name := pl_name payload |}.
Proof. intros Hbuild Hinsert. unfold run. by rewrite Hbuild, Hinsert. Qed.

End command.

(** C7 (the code departs from the claim).  The handler of the remote errors
    covers the resolution of the descriptor as well as its submission, and
    reads the name from the payload.  A conflict status answered to the
    lookup of the template reaches the handler before the payload exists:
    the caller gets [UnboundLocalError], neither the domain error that names
    the instance nor the remote error as it was.  Any other status of the
    same call is passed on as it is. *)
Theorem run_conflict_during_resolution :
  run (Sample.rejecting 409) Sample.bucket "0123456789abcdef" Sample.uuid
    (Sample.request "" false)
  = Raise (UnboundLocalError "payload")
  ∧ run (Sample.rejecting 503) Sample.bucket "0123456789abcdef" Sample.uuid
      (Sample.request "" false)
    = Raise (HttpError 503).
Proof. split; reflexivity. Qed.

(** ** The properties on the sample deployment *)

(** The override of the extended metadata is the last component. *)
Lemma build_payload_machine_type_sample :
  ∃ payload,
    build_payload_with (Sample.compute (Sample.render Sample.plain_items) None
                          Sample.operation)
      Sample.bucket Sample.uuid (Sample.request "" false)
      (Sample.render Sample.plain_items) Sample.plain_items
      {[ "machine_type" := "n1-standard-16" ]} = Ok payload
    ∧ pl_machineType payload
      = Some "projects/studio/zones/us-central1-a/machineTypes/n1-standard-16".
Proof.
  eexists. split; [vm_compute; reflexivity|].
  refine (eq_trans
            (build_payload_machine_type
               (Sample.compute (Sample.render Sample.plain_items) None
                  Sample.operation)
               Sample.bucket Sample.uuid (Sample.request "" false)
               (Sample.render Sample.plain_items) Sample.plain_items
               {[ "machine_type" := "n1-standard-16" ]} _ _) _);
    vm_compute; reflexivity.
Defined.

(** C2, as stated, fails: the template declares [n1-highmem-4], the extended
    metadata hold no machine type, and the descriptor asks for
    [n1-standard-8]. *)
Lemma machine_type_not_from_template :
  let template := Sample.render Sample.plain_items in
  let compute := Sample.compute template None Sample.operation in
  let instance := Sample.request "" false in
  ∃ properties instance_metadata orchestrate_metadata payload,
    get_template compute instance = Ok template
    ∧ tpl_properties template = Some properties
    ∧ prop_machineType properties = Some "n1-highmem-4"
    ∧ get_metadata instance template
      = Ok (instance_metadata, orchestrate_metadata)
    ∧ orchestrate_metadata !! "machine_type" = None
    ∧ build_instance_payload compute Sample.bucket Sample.uuid instance
      = Ok payload
    ∧ pl_machineType payload
      = Some "projects/studio/zones/us-central1-a/machineTypes/n1-standard-8"
    ∧ pl_machineType payload
      ≠ Some "projects/studio/zones/us-central1-a/machineTypes/n1-highmem-4".
Proof.
  intros template compute instance. do 4 eexists.
  split; [reflexivity|]. split; [reflexivity|]. split; [reflexivity|].
  split; [vm_compute; reflexivity|]. split; [reflexivity|].
  split; [vm_compute; reflexivity|]. split; [reflexivity|]. discriminate.
Defined.

(** Three disks, the last two flagged boot: the second one decides; with no
    disk flagged boot the resolution fails. *)
Lemma get_boot_images_sample :
  let compute := Sample.compute (Sample.render []) None Sample.operation in
  get_boot_images compute [Sample.disk false "visual-0"]
  = Raise (OrchestrateInstanceCreationError "Template has no boot disk.")
  ∧ get_boot_images compute
      [Sample.disk false "visual-0"; Sample.disk true "visual-1";
       Sample.disk true "visual-9"]
    = Ok (Sample.image "visual-1" "centos-7" None,
          Sample.image "visual-2" "centos-7" None).
Proof.
  intros compute. split.
  - apply (get_boot_images_first_boot_disk compute
             [Sample.disk false "visual-0"] [] [] (Sample.disk true "visual-1")
             {| ip_diskType := None; ip_sourceImage := None; ip_other := "" |}
             "" "" "" ""
             (Sample.image "visual-1" "centos-7" None)
             (Sample.image "visual-2" "centos-7" None)).
    repeat constructor.
  - apply (get_boot_images_first_boot_disk compute
             [Sample.disk false "visual-0"; Sample.disk true "visual-1";
              Sample.disk true "visual-9"]
             [Sample.disk false "visual-0"] [Sample.disk true "visual-9"]
             (Sample.disk true "visual-1")
             {| ip_diskType := Some "pd-ssd";
                ip_sourceImage := Some (Sample.image_link "visual-1");
                ip_other := "{}" |}
             (Sample.image_link "visual-1") "acme" "visual-1" "centos-7"
             (Sample.image "visual-1" "centos-7" None)
             (Sample.image "visual-2" "centos-7" None));
      try reflexivity.
    repeat constructor.
Defined.

(** C3, as stated, fails: with two disks flagged boot the resolution
    succeeds, on the first of them. *)
Lemma get_boot_images_two_boot_disks :
  get_boot_images (Sample.compute (Sample.render []) None Sample.operation)
    [Sample.disk true "visual-1"; Sample.disk true "visual-9"]
  = Ok (Sample.image "visual-1" "centos-7" None,
        Sample.image "visual-2" "centos-7" None)
  ∧ get_boot_images (Sample.compute (Sample.render []) None Sample.operation)
      [Sample.disk true "visual-1"; Sample.disk true "visual-9"]
    ≠ Raise (OrchestrateInstanceCreationError "Template has no boot disk.").
Proof. split; [reflexivity | discriminate]. Defined.

(** An explicit name without braces, a naming pattern of the extended
    metadata, and the default pattern. *)
Lemma build_name_precedence_sample :
  build_name Sample.uuid (Sample.request "workstation-7" false)
    {[ "instance_name_pattern" := "{type}-{region}-{id}" ]}
  = Ok "workstation-7"
  ∧ build_name Sample.uuid (Sample.request "" false)
      {[ "instance_name_pattern" := "{type}-{region}-{id}" ]}
    = Ok "gpu-us-central1-3f2a9"
  ∧ build_name Sample.uuid (Sample.request "" false) ∅
    = Ok "render-8-3f2a9".
Proof.
  split; [|split].
  - apply (build_name_precedence Sample.uuid
             (Sample.request "workstation-7" false)
             {[ "instance_name_pattern" := "{type}-{region}-{id}" ]});
      [discriminate | reflexivity].
  - refine (eq_trans
              (proj1 (proj2 (build_name_precedence Sample.uuid
                               (Sample.request "" false)
                               {[ "instance_name_pattern" := "{type}-{region}-{id}" ]}))
                 eq_refl "{type}-{region}-{id}" _ _) _).
    + vm_compute. reflexivity.
    + discriminate.
    + vm_compute. reflexivity.
  - refine (eq_trans
              (proj2 (proj2 (build_name_precedence Sample.uuid
                               (Sample.request "" false) ∅))
                 eq_refl _) _).
    + left. vm_compute. reflexivity.
    + vm_compute. reflexivity.
Defined.

(** C4, as stated, fails: an explicit name is rendered as a pattern, so a
    name that holds a placeholder is not used as it stands, and a name that
    holds a lone brace yields no name at all. *)
Lemma build_name_explicit_not_verbatim :
  build_name Sample.uuid (Sample.request "vm-{zone}" false) ∅
  = Ok "vm-us-central1-a"
  ∧ build_name Sample.uuid (Sample.request "vm-{zone}" false) ∅
    ≠ Ok "vm-{zone}"
  ∧ build_name Sample.uuid (Sample.request "vm-{" false) ∅
    = Raise (ValueError "Single '{' encountered in format string").
Proof.
  split; [vm_compute; reflexivity|]. split; [|vm_compute; reflexivity].
  intros H. vm_compute in H. discriminate.
Defined.

(** A label in mixed case, and the three outcomes of the family name. *)
Lemma get_os_type_classification_sample :
  get_os_type (Sample.image "visual-1" "centos-7" (Sample.labelled "Windows"))
  = Ok "windows"
  ∧ get_os_type (Sample.image "visual-1" "windows-2019" None) = Ok "windows"
  ∧ get_os_type (Sample.image "visual-1" "centos-7" (Sample.labelled ""))
    = Ok "linux"
  ∧ get_os_type (Sample.image "visual-1" "acme-custom" None)
    = Raise (OrchestrateInstanceCreationError
               (unknown_os_message (Sample.image_link "visual-1"))).
Proof.
  split; [|split; [|split]].
  - refine (eq_trans
              (proj1 (get_os_type_classification
                        (Sample.image "visual-1" "centos-7"
                           (Sample.labelled "Windows")))
                 "Windows" _ _) _).
    + vm_compute. reflexivity.
    + discriminate.
    + vm_compute. reflexivity.
  - apply (proj1 (proj2 (get_os_type_classification
                           (Sample.image "visual-1" "windows-2019" None)))
             (or_introl eq_refl) "windows-2019" eq_refl).
    vm_compute. reflexivity.
  - apply (proj1 (proj2 (get_os_type_classification
                           (Sample.image "visual-1" "centos-7"
                              (Sample.labelled ""))))
             (or_intror eq_refl) "centos-7" eq_refl).
    apply (bool_decide_unpack _). vm_compute. exact I.
  - apply (proj1 (proj2 (get_os_type_classification
                           (Sample.image "visual-1" "acme-custom" None)))
             (or_introl eq_refl) "acme-custom" eq_refl).
    + intros H. vm_compute in H. discriminate.
    + intros H. apply (bool_decide_pack _) in H. vm_compute in H. exact H.
    + reflexivity.
Defined.

(** C5, as stated, fails: a label that spells neither linux nor windows is
    the classification, in lower case. *)
Lemma get_os_type_outside_fixed_set :
  get_os_type (Sample.image "visual-1" "centos-7" (Sample.labelled "BSD"))
  = Ok "bsd"
  ∧ "bsd" ≠ "linux" ∧ "bsd" ≠ "windows".
Proof. split; [vm_compute; reflexivity|]. split; discriminate. Defined.

(** The image booted is labelled [BSD]: nothing is appended. *)
Lemma startup_script_skipped_sample :
  let template := Sample.render Sample.plain_items in
  let compute := Sample.compute template (Sample.labelled "BSD") Sample.operation in
  let booted := Sample.image "visual-1" "centos-7" (Sample.labelled "BSD") in
  set_startup_script Sample.bucket Sample.plain_items booted
  = Ok Sample.plain_items
  ∧ ∃ payload,
      build_payload_with compute Sample.bucket Sample.uuid
        (Sample.request "" false) template Sample.plain_items ∅ = Ok payload
      ∧ pl_metadata payload = Some Sample.plain_items.
Proof.
  intros template compute booted.
  assert (os_label booted = Some "BSD") as Hlabel by (vm_compute; reflexivity).
  assert ("BSD" ≠ "") as Hne by discriminate.
  assert (PyStr.lower "BSD" ≠ "linux") as Hl by discriminate.
  assert (PyStr.lower "BSD" ≠ "windows") as Hw by discriminate.
  destruct (startup_script_skipped compute Sample.bucket Sample.plain_items
              booted "BSD" Hlabel Hne Hl Hw) as [Hskip Hpayload].
  split; [exact Hskip|].
  destruct (build_payload_with compute Sample.bucket Sample.uuid
              (Sample.request "" false) template Sample.plain_items ∅)
    as [payload|e] eqn:Hbuild; [|vm_compute in Hbuild; discriminate].
  exists payload. split; [reflexivity|].
  apply (Hpayload Sample.uuid (Sample.request "" false) template ∅
           (Sample.properties Sample.plain_items
              (Some [Sample.disk true "visual-1"]) (Some [Sample.interface]))
           [Sample.disk true "visual-1"] booted
           (Sample.image "visual-2" "centos-7" (Sample.labelled "BSD"))
           payload);
    [reflexivity | reflexivity | vm_compute; reflexivity | reflexivity
    | exact Hbuild].
Defined.

(** C9, as stated, fails: an empty label is, in lower case, neither linux
    nor windows, yet the family name is consulted and the Linux startup
    script is appended; with a family that is not recognised the selection
    raises the domain error. *)
Lemma startup_script_empty_label :
  let image := Sample.image "visual-1" "centos-7" (Sample.labelled "") in
  let custom := Sample.image "visual-1" "acme-custom" (Sample.labelled "") in
  os_label image = Some ""
  ∧ PyStr.lower "" ≠ "linux"
  ∧ PyStr.lower "" ≠ "windows"
  ∧ set_startup_script Sample.bucket [] image
    = Ok [{| item_key := "startup-script-url";
             item_value := "gs://orchestrate-bucket/remotedesktopconfigure.py" |}]
  ∧ set_startup_script Sample.bucket [] image ≠ Ok []
  ∧ set_startup_script Sample.bucket [] custom
    = Raise (OrchestrateInstanceCreationError
               (unknown_os_message (Sample.image_link "visual-1"))).
Proof.
  intros image custom.
  split; [vm_compute; reflexivity|]. split; [discriminate|].
  split; [discriminate|]. split; [vm_compute; reflexivity|].
  split; [|vm_compute; reflexivity].
  intros H. vm_compute in H. discriminate.
Defined.

(** A template without [networkInterfaces], and one without [disks]. *)
Lemma build_payload_missing_keys_sample :
  let no_interfaces :=
    Sample.template Sample.plain_items (Some [Sample.disk true "visual-1"]) None in
  let no_disks :=
    Sample.template Sample.plain_items None (Some [Sample.interface]) in
  build_instance_payload (Sample.compute no_interfaces None Sample.operation)
    Sample.bucket Sample.uuid (Sample.request "" false)
  = Raise (KeyError "networkInterfaces")
  ∧ build_instance_payload (Sample.compute no_disks None Sample.operation)
      Sample.bucket Sample.uuid (Sample.request "" false)
    = Raise (KeyError "disks").
Proof.
  intros no_interfaces no_disks. split.
  - destruct (build_payload_missing_keys
                (Sample.compute no_interfaces None Sample.operation)
                Sample.bucket Sample.uuid (Sample.request "" false)
                no_interfaces
                (Sample.properties Sample.plain_items
                   (Some [Sample.disk true "visual-1"]) None)
                eq_refl eq_refl)
      as (_ & _ & _ & _ & Hifs).
    destruct (Hifs eq_refl) as [_ Hkey].
    apply (Hkey (Sample.plain_items ++ inst_metadata (Sample.request "" false))
             ∅ "render-8-3f2a9" [Sample.disk true "visual-1"]
             (Sample.image "visual-1" "centos-7" None)
             (Sample.image "visual-2" "centos-7" None)
             [{| disk_boot := Some true;
                 disk_initializeParams :=
                   Some {| ip_diskType :=
                             Some "projects/studio/zones/us-central1-a/diskTypes/pd-ssd";
                           ip_sourceImage := Some (Sample.image_link "visual-1");
                           ip_other := "{}" |};
                 disk_other := "{}" |}]);
      try (vm_compute; reflexivity).
    intros accelerators H. discriminate H.
  - destruct (build_payload_missing_keys
                (Sample.compute no_disks None Sample.operation)
                Sample.bucket Sample.uuid (Sample.request "" false)
                no_disks
                (Sample.properties Sample.plain_items None
                   (Some [Sample.interface]))
                eq_refl eq_refl)
      as (_ & _ & _ & Hdisks & _).
    destruct (Hdisks eq_refl) as [_ Hkey].
    apply (Hkey (Sample.plain_items ++ inst_metadata (Sample.request "" false))
             ∅ "render-8-3f2a9");
      vm_compute; reflexivity.
Defined.

(** C10, as stated, fails: the template lacks [networkInterfaces], and as it
    has no boot disk either the assembly fails with the domain error of the
    boot disk, raised before the interfaces are read. *)
Lemma missing_interfaces_domain_error :
  let template := Sample.template Sample.plain_items (Some []) None in
  (tpl_properties template ≫= prop_networkInterfaces) = None
  ∧ build_instance_payload (Sample.compute template None Sample.operation)
      Sample.bucket Sample.uuid (Sample.request "" false)
    = Raise (OrchestrateInstanceCreationError "Template has no boot disk.").
Proof. intros template. split; vm_compute; reflexivity. Defined.

(** * Further properties *)

(** ** Splitting and joining *)

Lemma split_cons (sep : ascii) (s : string) :
  ∃ w ws, PyStr.split sep s = w :: ws.
Proof.
  destruct s as [|c s]; simpl; [eauto|].
  case_decide; [eauto|]. destruct (PyStr.split sep s); eauto.
Qed.

Lemma join_cons (sep w : string) (ws : list string) :
  ws ≠ [] → PyStr.join sep (w :: ws) = w +:+ sep +:+ PyStr.join sep ws.
Proof. by destruct ws. Qed.

(** Splitting a text at a character and joining the parts with that
    character gives the text back. *)
Theorem join_split (sep : ascii) (s : string) :
  PyStr.join (String sep "") (PyStr.split sep s) = s.
Proof.
  induction s as [|c s IH]; [done|]. simpl.
  destruct (split_cons sep s) as (w & ws & Hs). rewrite Hs in *.
  case_decide as Hc.
  - subst c. rewrite join_cons by done. by rewrite IH.
  - destruct ws as [|w' ws].
    + simpl in *. by rewrite IH.
    + rewrite join_cons by done. rewrite join_cons in IH by done.
      rewrite app_String. by rewrite IH.
Qed.

Lemma split_free (sep : ascii) (s : string) :
  occurs sep s = 0%nat → PyStr.split sep s = [s].
Proof.
  induction s as [|c s IH]; [done|]. simpl.
  case_decide; [done|]. intros Hs. by rewrite (IH Hs).
Qed.

Lemma split_app (sep : ascii) (a rest : string) :
  occurs sep a = 0%nat →
  PyStr.split sep (a +:+ String sep rest) = a :: PyStr.split sep rest.
Proof.
  induction a as [|c a IH].
  - intros _. change ("" +:+ String sep rest) with (String sep rest).
    simpl. by rewrite decide_True.
  - simpl. case_decide; [done|]. intros Ha. by rewrite (IH Ha).
Qed.

(** X2.  The region of a zone is its first two dash-delimited components:
    for a zone made of a first component, a second one and anything after a
    second dash, the region is the first two joined by a dash; a zone with
    no dash, or with one, is its own region. *)
Theorem region_of_zone (a b rest : string) :
  occurs "-"%char a = 0%nat →
  occurs "-"%char b = 0%nat →
  region_of (a +:+ "-" +:+ b +:+ "-" +:+ rest) = a +:+ "-" +:+ b
  ∧ region_of (a +:+ "-" +:+ b) = a +:+ "-" +:+ b
  ∧ region_of a = a.
Proof.
  intros Ha Hb. unfold region_of. split; [|split].
  - change ("-" +:+ b +:+ "-" +:+ rest) with (String "-"%char (b +:+ "-" +:+ rest)).
    rewrite (split_app _ _ _ Ha).
    change ("-" +:+ rest) with (String "-"%char rest).
    rewrite (split_app _ _ _ Hb).
    destruct (split_cons "-"%char rest) as (w & ws & ->). reflexivity.
  - change ("-" +:+ b) with (String "-"%char b).
    rewrite (split_app _ _ _ Ha), (split_free _ _ Hb). reflexivity.
  - by rewrite (split_free _ _ Ha).
Qed.

(** ** The pattern of source image references *)

Lemma occurs_app (c : ascii) (a b : string) :
  occurs c (a +:+ b) = (occurs c a + occurs c b)%nat.
Proof.
  induction a as [|x a IH]; [done|].
  rewrite app_String. simpl. rewrite IH. lia.
Qed.

Lemma first_line_split (s : string) : first_line s +:+ after_first_line s = s.
Proof.
  induction s as [|c s IH]; [done|]. simpl.
  case_decide; [done|]. rewrite app_String. by rewrite IH.
Qed.

Lemma first_line_free (s : string) :
  occurs Re.newline s = 0%nat → first_line s = s.
Proof.
  induction s as [|c s IH]; [done|]. simpl.
  case_decide; [done|]. intros Hs. by rewrite (IH Hs).
Qed.

Lemma drop_app_length (l r : string) : PyStr.drop (String.length l) (l +:+ r) = r.
Proof. induction l as [|c l IH]; [done|]. rewrite app_String. simpl. exact IH. Qed.

Lemma startswith_drop (s l : string) :
  PyStr.startswith s l = true → s = l +:+ PyStr.drop (String.length l) s.
Proof.
  intros [r ->]%startswith_app. by rewrite drop_app_length.
Qed.

Lemma match_tokens_DotStar (g : option string) (pattern : list Re.token)
    (s : string) :
  Re.match_tokens (Re.DotStar g :: pattern) s
  = star_from g (Re.match_tokens pattern) s "".
Proof. reflexivity. Qed.

Lemma match_tokens_Lit (l : string) (pattern : list Re.token) (s : string) :
  Re.match_tokens (Re.Lit l :: pattern) s
  = if PyStr.startswith s l
    then Re.match_tokens pattern (PyStr.drop (String.length l) s)
    else None.
Proof. reflexivity. Qed.

(** A repetition that succeeds took a part of the line and left the rest to
    the continuation. *)
Lemma star_sound (g : option string)
    (k : string → option (list (string * string))) (s taken : string)
    (groups : list (string * string)) :
  star_from g k s taken = Some groups →
  ∃ a b groups',
    s = a +:+ b ∧ occurs Re.newline a = 0%nat ∧ k b = Some groups'
    ∧ groups = Re.capture g (taken +:+ a) groups'.
Proof.
  revert taken. induction s as [|c s IH]; intros taken; simpl.
  - intros H. destruct (k "") as [groups'|] eqn:Hk; [|discriminate].
    injection H as <-. exists "", "", groups'.
    repeat split; try done. by rewrite string_app_empty_r.
  - assert (Re.capture g taken <$> k (String c s) = Some groups →
            ∃ a b groups',
              String c s = a +:+ b ∧ occurs Re.newline a = 0%nat
              ∧ k b = Some groups'
              ∧ groups = Re.capture g (taken +:+ a) groups') as Hstop.
    { intros H. destruct (k (String c s)) as [groups'|] eqn:Hk; [|discriminate].
      injection H as <-. exists "", (String c s), groups'.
      repeat split; try done. by rewrite string_app_empty_r. }
    case_decide as Hc; [exact Hstop|].
    destruct (star_from g k s (taken +:+ String c "")) as [groups0|] eqn:Hstar;
      [|exact Hstop].
    intros [= <-]. apply IH in Hstar as (a & b & groups' & -> & Ha & Hk & ->).
    exists (String c a), b, groups'. repeat split; try done.
    + simpl. by rewrite decide_False.
    + by rewrite string_app_assoc.
Qed.

(** The repetition takes the longest part the continuation accepts: when
    the continuation refuses every shorter remainder, the split is the one at
    hand. *)
Lemma star_greedy (g : option string)
    (k : string → option (list (string * string))) (a b taken : string)
    (groups : list (string * string)) :
  occurs Re.newline a = 0%nat →
  k b = Some groups →
  (∀ c d, b = c +:+ d → c ≠ "" → k d = None) →
  star_from g k (a +:+ b) taken = Some (Re.capture g (taken +:+ a) groups).
Proof.
  intros Ha Hk Hlonger. revert taken Ha. induction a as [|x a IH]; intros taken Ha.
  - change ("" +:+ b) with b. rewrite string_app_empty_r.
    assert (∀ b' taken',
              (∀ c d, b' = c +:+ d → c ≠ "" → k d = None) →
              star_from g k b' taken' = Re.capture g taken' <$> k b') as Hfail.
    { induction b' as [|y b' IHb]; intros taken' Hb'; [done|]. simpl.
      case_decide; [done|]. rewrite IHb.
      - rewrite (Hb' (String y "") b') by done. reflexivity.
      - intros c d -> Hc. apply (Hb' (String y c) d); [by rewrite app_String|done]. }
    rewrite (Hfail b taken Hlonger), Hk. reflexivity.
  - rewrite app_String. simpl in *.
    case_decide; [done|]. rewrite (IH (taken +:+ String x "")) by done.
    by rewrite string_app_assoc.
Qed.

Lemma star_last (g : option string) (s taken : string) :
  star_from g (Re.match_tokens []) s taken
  = Some (Re.capture g (taken +:+ first_line s) []).
Proof.
  revert taken. induction s as [|c s IH]; intros taken; simpl.
  - by rewrite string_app_empty_r.
  - case_decide; [by rewrite string_app_empty_r|].
    rewrite IH. by rewrite string_app_assoc.
Qed.

(** The pattern, read backwards from a match. *)
Lemma source_image_pattern_sound (link : string)
    (groups : list (string * string)) :
  Re.match_tokens source_image_pattern link = Some groups →
  ∃ pre project rest,
    link = pre +:+ "/projects/" +:+ project +:+ "/global/images/" +:+ rest
    ∧ occurs Re.newline pre = 0%nat
    ∧ occurs Re.newline project = 0%nat
    ∧ groups = [("project", project); ("version", first_line rest)].
Proof.
  unfold source_image_pattern. rewrite match_tokens_DotStar.
  intros (pre & b & groups1 & -> & Hpre & Hk & ->)%star_sound.
  rewrite match_tokens_Lit in Hk.
  destruct (PyStr.startswith b "/projects/") eqn:Hb; [|discriminate].
  apply startswith_drop in Hb. rewrite Hb. clear Hb.
  rewrite match_tokens_DotStar in Hk.
  apply star_sound in Hk as (project & b2 & groups2 & -> & Hproject & Hk & ->).
  rewrite match_tokens_Lit in Hk.
  destruct (PyStr.startswith b2 "/global/images/") eqn:Hb2; [|discriminate].
  apply startswith_drop in Hb2. rewrite Hb2. clear Hb2.
  rewrite match_tokens_DotStar, star_last in Hk. injection Hk as <-.
  exists pre, project, (PyStr.drop (String.length "/global/images/") b2).
  by repeat split.
Qed.

Lemma occurs_suffix (c : ascii) (b x d : string) :
  PyStr.startswith b (String c "") = true → b = x +:+ d → x ≠ "" →
  (occurs c d < occurs c b)%nat.
Proof.
  intros [b' ->]%startswith_app Hx Hne. destruct x as [|y x]; [done|].
  rewrite !app_String in Hx. injection Hx as <- Hx.
  change ("" +:+ b') with b' in Hx. subst b'.
  rewrite app_String. simpl. rewrite decide_True by done.
  rewrite !occurs_app. lia.
Qed.

(** The pattern, on a reference of the usual shape. *)
Lemma source_image_pattern_complete (pre project version : string) :
  occurs Re.newline pre = 0%nat →
  occurs Re.newline project = 0%nat →
  occurs Re.newline version = 0%nat →
  occurs "/"%char project = 0%nat →
  occurs "/"%char version = 0%nat →
  Re.match_tokens source_image_pattern
    (pre +:+ "/projects/" +:+ project +:+ "/global/images/" +:+ version)
  = Some [("project", project); ("version", version)].
Proof.
  intros Hpre Hproject Hversion Hsp Hsv.
  set (tail := [Re.Lit "/global/images/"; Re.DotStar (Some "version")]).
  assert (Re.match_tokens tail ("/global/images/" +:+ version)
          = Some [("version", version)]) as Htail.
  { unfold tail. rewrite match_tokens_Lit, startswith_app_true, drop_app_length.
    rewrite match_tokens_DotStar, star_last. by rewrite first_line_free. }
  assert (∀ d, is_Some (Re.match_tokens tail d) → (3 ≤ occurs "/"%char d)%nat)
    as Htail3.
  { intros d [groups Hd]. unfold tail in Hd. rewrite match_tokens_Lit in Hd.
    destruct (PyStr.startswith d "/global/images/") eqn:E; [|discriminate].
    apply startswith_app in E as [r ->]. rewrite occurs_app.
    change (occurs "/"%char "/global/images/") with 3%nat. lia. }
  set (middle := Re.Lit "/projects/" :: Re.DotStar (Some "project") :: tail).
  assert (Re.match_tokens middle
            ("/projects/" +:+ project +:+ "/global/images/" +:+ version)
          = Some [("project", project); ("version", version)]) as Hmiddle.
  { unfold middle. rewrite match_tokens_Lit, startswith_app_true, drop_app_length.
    rewrite match_tokens_DotStar.
    rewrite (star_greedy _ _ project _ "" [("version", version)]); try done.
    intros c d Hcd Hc.
    destruct (Re.match_tokens tail d) as [groups|] eqn:Hd; [|done].
    pose proof (Htail3 d (mk_is_Some _ _ Hd)) as H3.
    pose proof (occurs_suffix "/"%char ("/global/images/" +:+ version) c d
                  eq_refl Hcd Hc) as Hlt.
    rewrite occurs_app in Hlt.
    change (occurs "/"%char "/global/images/") with 3%nat in Hlt. lia. }
  assert (∀ d, is_Some (Re.match_tokens middle d) → (5 ≤ occurs "/"%char d)%nat)
    as Hmiddle5.
  { intros d [groups Hd]. unfold middle in Hd. rewrite match_tokens_Lit in Hd.
    destruct (PyStr.startswith d "/projects/") eqn:E; [|discriminate].
    apply startswith_app in E as [r ->]. rewrite drop_app_length in Hd.
    rewrite match_tokens_DotStar in Hd.
    apply star_sound in Hd as (a & b & groups' & -> & _ & Hb & _).
    pose proof (Htail3 b (mk_is_Some _ _ Hb)) as H3.
    rewrite !occurs_app.
    change (occurs "/"%char "/projects/") with 2%nat. lia. }
  change source_image_pattern with (Re.DotStar None :: middle).
  rewrite match_tokens_DotStar.
  rewrite (star_greedy _ _ pre _ "" [("project", project); ("version", version)]);
    try done.
  intros c d Hcd Hc.
  destruct (Re.match_tokens middle d) as [groups|] eqn:Hd; [|done].
  pose proof (Hmiddle5 d (mk_is_Some _ _ Hd)) as H5.
  pose proof (occurs_suffix "/"%char
                ("/projects/" +:+ project +:+ "/global/images/" +:+ version)
                c d eq_refl Hcd Hc) as Hlt.
  rewrite !occurs_app in Hlt.
  change (occurs "/"%char "/projects/") with 2%nat in Hlt.
  change (occurs "/"%char "/global/images/") with 3%nat in Hlt. lia.
Qed.

Lemma source_image_pattern_slashes (link : string) :
  is_Some (Re.match_tokens source_image_pattern link) →
  (5 ≤ occurs "/"%char link)%nat.
Proof.
  intros [groups (pre & project & rest & -> & _)%source_image_pattern_sound].
  rewrite !occurs_app.
  change (occurs "/"%char "/projects/") with 2%nat.
  change (occurs "/"%char "/global/images/") with 3%nat. lia.
Qed.

Section references.

Context (compute : ComputeApi).

(** The images resolved belong to the first disk flagged boot: the image
    is the one its reference names, the latest image that of the image's
    family, in the project of the reference. *)
Lemma get_boot_images_resolved (disks : list Disk) (image latest : Image) :
  get_boot_images compute disks = Ok (image, latest) →
  ∃ before boot_disk after parameters pre project rest family,
    disks = before ++ boot_disk :: after
    ∧ Forall not_boot before
    ∧ disk_boot boot_disk = Some true
    ∧ disk_initializeParams boot_disk = Some parameters
    ∧ ip_sourceImage parameters
      = Some (pre +:+ "/projects/" +:+ project +:+ "/global/images/" +:+ rest)
    ∧ images_get compute project (first_line rest) = Ok image
    ∧ img_family image = Some family
    ∧ images_getFromFamily compute project family = Ok latest.
Proof.
  intros (before & boot_disk & after & parameters & -> & Hbefore & Hboot
          & Hparams & Himages)%get_boot_images_Ok.
  apply get_images_Ok in Himages
    as (link & groups & family & Hlink & Hmatch & Himage & Hfamily & Hlatest).
  apply source_image_pattern_sound in Hmatch
    as (pre & project & rest & -> & _ & _ & ->).
  exists before, boot_disk, after, parameters, pre, project, rest, family.
  by repeat split.
Qed.

(** X3.  Whatever [get_images] returns was fetched for a project and a
    version that stand in the reference itself: the reference holds the
    literal [/projects/], the project, the literal [/global/images/] and
    then the version, which runs to the end of the line; the latest image is
    asked for in the same project, for the family of the image fetched. *)
Theorem get_images_reads_reference (parameters : InitializeParams)
    (image latest : Image) :
  get_images compute parameters = Ok (image, latest) →
  ∃ link pre project rest family,
    ip_sourceImage parameters = Some link
    ∧ link = pre +:+ "/projects/" +:+ project +:+ "/global/images/" +:+ rest
    ∧ images_get compute project (first_line rest) = Ok image
    ∧ img_family image = Some family
    ∧ images_getFromFamily compute project family = Ok latest.
Proof.
  intros (link & groups & family & Hlink & Hmatch & Himage & Hfamily & Hlatest)
    %get_images_Ok.
  apply source_image_pattern_sound in Hmatch
    as (pre & project & rest & -> & _ & _ & ->).
  exists (pre +:+ "/projects/" +:+ project +:+ "/global/images/" +:+ rest),
    pre, project, rest, family.
  by repeat split.
Qed.

(** X4.  On a reference of the usual shape, any text without a newline,
    then [/projects/], a project, [/global/images/] and a version, the
    project and the version holding neither a slash nor a newline, the image
    is fetched by exactly that project and version, and the latest image by
    that project and the family of the image; an error of either call, or
    an image without a family, is the outcome. *)
Theorem get_images_usual_reference (parameters : InitializeParams)
    (pre project version : string) :
  ip_sourceImage parameters
  = Some (pre +:+ "/projects/" +:+ project +:+ "/global/images/" +:+ version) →
  occurs Re.newline pre = 0%nat →
  occurs Re.newline project = 0%nat →
  occurs Re.newline version = 0%nat →
  occurs "/"%char project = 0%nat →
  occurs "/"%char version = 0%nat →
  get_images compute parameters
  = (image ← images_get compute project version;
     family ← getitem "family" (img_family image);
     latest ← images_getFromFamily compute project family;
     Ok (image, latest)).
Proof.
  intros Hlink Hpre Hproject Hversion Hsp Hsv. unfold get_images.
  rewrite Hlink, getitem_Some, ret_bind.
  by rewrite source_image_pattern_complete.
Qed.

(** X5.  A reference with fewer than five slashes cannot match the pattern:
    the resolution of the images fails with [AttributeError] before any
    image is fetched. *)
Theorem get_images_few_slashes (parameters : InitializeParams) (link : string) :
  ip_sourceImage parameters = Some link →
  (occurs "/"%char link < 5)%nat →
  get_images compute parameters
  = Raise (AttributeError "'NoneType' object has no attribute 'group'").
Proof.
  intros Hlink Hslashes. apply (get_images_no_match compute _ link Hlink).
  destruct (Re.match_tokens source_image_pattern link) as [groups|] eqn:Hm;
    [|done].
  pose proof (source_image_pattern_slashes link) as H5.
  rewrite Hm in H5. specialize (H5 (mk_is_Some _ _ eq_refl)). lia.
Qed.

(** X6.  The scan of the disks does not look past the first disk flagged
    boot: the disks after it, however many and however shaped, do not change
    the outcome. *)
Theorem get_boot_images_ignores_rest (before after after' : list Disk)
    (disk : Disk) :
  disk_boot disk = Some true →
  get_boot_images compute (before ++ disk :: after)
  = get_boot_images compute (before ++ disk :: after').
Proof.
  intros Hboot. induction before as [|d before IH]; simpl.
  - by rewrite Hboot.
  - destruct (disk_boot d) as [[|]|]; [done | exact IH | done].
Qed.

(** X7.  A disk without the [boot] key met before any disk flagged boot
    ends the scan with [KeyError], and so does a boot disk without
    [initializeParams] or without [sourceImage]; the disks after it are not
    looked at. *)
Theorem get_boot_images_missing_keys (before after : list Disk) (disk : Disk) :
  Forall not_boot before →
  (disk_boot disk = None →
   get_boot_images compute (before ++ disk :: after) = Raise (KeyError "boot"))
  ∧ (disk_boot disk = Some true → disk_initializeParams disk = None →
     get_boot_images compute (before ++ disk :: after)
     = Raise (KeyError "initializeParams"))
  ∧ (∀ parameters,
       disk_boot disk = Some true →
       disk_initializeParams disk = Some parameters →
       ip_sourceImage parameters = None →
       get_boot_images compute (before ++ disk :: after)
       = Raise (KeyError "sourceImage")).
Proof.
  intros Hbefore. split; [|split].
  - intros Hboot. induction Hbefore as [|d before Hd _ IH]; simpl.
    + by rewrite Hboot.
    + unfold not_boot in Hd. by rewrite Hd.
  - intros Hboot Hparams. rewrite get_boot_images_first by done.
    by rewrite Hparams.
  - intros parameters Hboot Hparams Hlink.
    rewrite get_boot_images_first by done.
    rewrite Hparams, getitem_Some, ret_bind. unfold get_images.
    by rewrite Hlink.
Qed.

End references.

(** ** Locating the template *)

Lemma items_of_Some (template : Template) (items : list Item) :
  items_of template = Some items →
  ∃ properties metadata,
    tpl_properties template = Some properties
    ∧ prop_metadata properties = Some metadata
    ∧ md_items metadata = Some items.
Proof.
  unfold items_of.
  destruct (tpl_properties template) as [properties|] eqn:Hp; [|done].
  simpl. destruct (prop_metadata properties) as [metadata|] eqn:Hm; [|done].
  simpl. intros Hitems. by exists properties, metadata.
Qed.

Lemma find_default_size_step (template : Template) (templates : list Template) :
  find_default_size (template :: templates)
  = match items_of template with
    | Some items =>
        if existsb is_default_size items
        then _ ← getitem "name" (tpl_name template); Ok (Some template)
        else find_default_size templates
    | None =>
        Raise (KeyError
                 match tpl_properties template with
                 | None => "properties"
                 | Some properties =>
                     match prop_metadata properties with
                     | None => "metadata"
                     | Some _ => "items"
                     end
                 end)
    end.
Proof.
  unfold items_of. simpl.
  destruct (tpl_properties template) as [properties|]; [|done]. simpl.
  destruct (prop_metadata properties) as [metadata|]; [|done]. simpl.
  by destruct (md_items metadata).
Qed.

Lemma find_default_size_skip (before rest : list Template) :
  Forall unmarked before →
  find_default_size (before ++ rest) = find_default_size rest.
Proof.
  induction 1 as [|t before (items & Hitems & Hnone) _ IH]; [done|].
  rewrite <- app_comm_cons, find_default_size_step, Hitems, Hnone. exact IH.
Qed.

Lemma find_default_size_found (templates : list Template) (template : Template) :
  find_default_size templates = Ok (Some template) →
  ∃ before after,
    templates = before ++ template :: after
    ∧ Forall unmarked before ∧ marked template
    ∧ is_Some (tpl_name template).
Proof.
  induction templates as [|t templates IH]; [discriminate|].
  rewrite find_default_size_step.
  destruct (items_of t) as [items|] eqn:Hitems; [|discriminate].
  destruct (existsb is_default_size items) eqn:Hmark.
  - destruct (tpl_name t) as [name|] eqn:Hname; [|discriminate].
    intros [= <-]. exists [], templates. repeat split; try done.
    by exists items.
  - intros (before & after & -> & Hbefore & Hmarked & Hname)%IH.
    exists (t :: before), after. repeat split; try done.
    constructor; [by exists items | done].
Qed.

Section locate.

Context (compute : ComputeApi).

(** X8.  With no size in the request, the template returned is the first
    one, in the order of the listing, that carries the default-size marker;
    the templates listed after it are not looked at. *)
Theorem get_template_first_marked (instance : Instance)
    (before after : list Template) (template : Template) :
  inst_size instance = "" →
  instanceTemplates_list compute (inst_project instance)
    (default_size_filter instance) = Ok (Some (before ++ template :: after)) →
  Forall unmarked before →
  marked template →
  is_Some (tpl_name template) →
  get_template compute instance = Ok template.
Proof.
  intros Hsize Hlist Hbefore (items & Hitems & Hmark) [name Hname].
  unfold get_template. rewrite Hsize. cbn [PyStr.truthy negb].
  fold (default_size_filter instance). rewrite Hlist, ret_bind.
  cbn [from_option id]. rewrite (find_default_size_skip _ _ Hbefore).
  rewrite find_default_size_step, Hitems, Hmark, Hname. reflexivity.
Qed.

(** X9.  With no size in the request, when the listing has no items, or
    when none of the listed templates carries the marker, the lookup fails
    with the domain error that names the project and the template and asks
    for an explicit size. *)
Theorem get_template_no_default (instance : Instance)
    (listing : option (list Template)) :
  inst_size instance = "" →
  instanceTemplates_list compute (inst_project instance)
    (default_size_filter instance) = Ok listing →
  Forall unmarked (default [] listing) →
  get_template compute instance
  = Raise (OrchestrateInstanceCreationError
             ("Could not locate default size for project "
              +:+ inst_project instance +:+ " template "
              +:+ inst_template instance
              +:+ ". Please specify an explicit size in the request.")).
Proof.
  intros Hsize Hlist Hnone. unfold get_template.
  rewrite Hsize. cbn [PyStr.truthy negb].
  fold (default_size_filter instance). rewrite Hlist, ret_bind.
  rewrite <- (app_nil_r (default [] listing)).
  by rewrite (find_default_size_skip _ _ Hnone).
Qed.

(** X10.  With no size in the request, a template that is returned was in
    the listing, carries the marker, and no template listed before it does. *)
Theorem get_template_default_sound (instance : Instance) (template : Template) :
  inst_size instance = "" →
  get_template compute instance = Ok template →
  ∃ before after,
    instanceTemplates_list compute (inst_project instance)
      (default_size_filter instance) = Ok (Some (before ++ template :: after))
    ∧ Forall unmarked before
    ∧ marked template.
Proof.
  intros Hsize. unfold get_template. rewrite Hsize. cbn [PyStr.truthy negb].
  fold (default_size_filter instance). intros H.
  apply bind_Ok in H as (listing & Hlist & H).
  apply bind_Ok in H as (found & Hfound & H).
  destruct found as [t|]; [|discriminate]. injection H as ->.
  apply find_default_size_found in Hfound
    as (before & after & Hl & Hbefore & Hmarked & _).
  exists before, after. repeat split; try done.
  destruct listing as [templates|]; simpl in Hl.
  - by rewrite Hl in Hlist.
  - by destruct before.
Qed.

(** X11.  A listed template that lacks [properties], [metadata] or its
    [items] and comes before any marked one ends the search with [KeyError]
    on the key that is missing, the first of the three in that order,
    whatever is listed after it. *)
Theorem get_template_malformed_listing (instance : Instance)
    (before after : list Template) (template : Template) :
  inst_size instance = "" →
  instanceTemplates_list compute (inst_project instance)
    (default_size_filter instance) = Ok (Some (before ++ template :: after)) →
  Forall unmarked before →
  (tpl_properties template = None →
   get_template compute instance = Raise (KeyError "properties"))
  ∧ (∀ properties,
       tpl_properties template = Some properties →
       prop_metadata properties = None →
       get_template compute instance = Raise (KeyError "metadata"))
  ∧ (∀ properties metadata,
       tpl_properties template = Some properties →
       prop_metadata properties = Some metadata →
       md_items metadata = None →
       get_template compute instance = Raise (KeyError "items")).
Proof.
  intros Hsize Hlist Hbefore.
  assert (get_template compute instance
          = (found ← find_default_size (template :: after);
             match found with
             | Some template => Ok template
             | None =>
                 Raise (OrchestrateInstanceCreationError
                          (no_default_size_message instance))
             end)) as ->.
  { unfold get_template. rewrite Hsize. cbn [PyStr.truthy negb].
    fold (default_size_filter instance). rewrite Hlist, ret_bind.
    cbn [from_option id]. by rewrite (find_default_size_skip _ _ Hbefore). }
  rewrite find_default_size_step. unfold items_of.
  split; [|split].
  - by intros ->.
  - intros properties Hp Hm. rewrite Hp. simpl. by rewrite Hm.
  - intros properties metadata Hp Hm Hi. rewrite Hp. simpl. rewrite Hm. simpl.
    by rewrite Hi.
Qed.

End locate.

(** ** More on the metadata *)

Lemma foldl_split_item_snd (items : list Item)
    (acc : list Item * gmap string string) (k : string) :
  (foldl split_item acc items).2 !! k
  = match last (filter (fun item => reserved item = true
                                    ∧ PyStr.drop 8 (item_key item) = k) items)
    with
    | Some item => Some (item_value item)
    | None => acc.2 !! k
    end.
Proof.
  revert acc. induction items as [|item items IH]; intros acc; [done|].
  cbn [foldl]. rewrite IH, filter_cons. unfold split_item.
  fold (reserved item). destruct (reserved item) eqn:Hr; cbn [fst snd].
  - destruct (decide (PyStr.drop 8 (item_key item) = k)) as [Hk|Hk].
    + rewrite decide_True by done. rewrite last_cons.
      destruct (last _); [done|]. by rewrite Hk, lookup_insert_eq.
    + rewrite decide_False by (by intros [_ ?]).
      destruct (last _); [done|]. by rewrite lookup_insert_ne.
  - rewrite decide_False by (by intros [? _]). done.
Qed.

Lemma get_metadata_items (instance : Instance) (template : Template)
    (items : list Item) :
  items_of template = Some items →
  get_metadata instance template
  = Ok ((foldl split_item ([], ∅) items).1 ++ inst_metadata instance,
        (foldl split_item ([], ∅) items).2).
Proof.
  intros (properties & metadata & Hp & Hm & Hi)%items_of_Some.
  unfold get_metadata.
  rewrite Hp, getitem_Some, ret_bind, Hm, getitem_Some, ret_bind, Hi,
    getitem_Some, ret_bind.
  destruct (foldl split_item ([], ∅) items) as [im om]. cbn [fst snd].
  by rewrite map_item_id.
Qed.

Lemma get_metadata_items_of (instance : Instance) (template : Template)
    (r : list Item * gmap string string) :
  get_metadata instance template = Ok r → is_Some (items_of template).
Proof.
  intros (properties & metadata & items & Hp & Hm & Hi)%get_metadata_Ok.
  unfold items_of. rewrite Hp. simpl. rewrite Hm. simpl. by rewrite Hi.
Qed.

(** X13.  A key of the extended mapping holds the value of the last
    template item filed under it: among the template items whose key carries
    the prefix and, cut after eight characters, equals the key, the last one
    in the order of the template decides, and without such an item the key is
    absent. *)
Theorem get_metadata_last_write_wins (instance : Instance) (template : Template)
    (items instance_metadata : list Item)
    (orchestrate_metadata : gmap string string) (k : string) :
  items_of template = Some items →
  get_metadata instance template
  = Ok (instance_metadata, orchestrate_metadata) →
  orchestrate_metadata !! k
  = item_value
      <$> last (filter (fun item => reserved item = true
                                    ∧ PyStr.drop 8 (item_key item) = k) items).
Proof.
  intros Hitems. rewrite (get_metadata_items _ _ _ Hitems). intros [= _ <-].
  rewrite foldl_split_item_snd. by destruct (last _).
Qed.

(** X14.  The metadata of the request never reach the extended mapping:
    two requests get the same extended mapping from a template, whatever
    their own metadata are, keys with the prefix included. *)
Theorem get_metadata_extended_from_template (instance instance' : Instance)
    (template : Template) :
  snd <$> get_metadata instance template
  = snd <$> get_metadata instance' template.
Proof.
  destruct (items_of template) as [items|] eqn:Hitems.
  - by rewrite !(get_metadata_items _ _ _ Hitems).
  - unfold items_of in Hitems. unfold get_metadata.
    destruct (tpl_properties template) as [properties|]; [|done].
    simpl in *. destruct (prop_metadata properties) as [metadata|]; [|done].
    simpl in *. by rewrite Hitems.
Qed.

Lemma get_metadata_keys (instance : Instance) (template : Template)
    (instance_metadata : list Item) (orchestrate_metadata : gmap string string)
    (k : string) :
  get_metadata instance template
  = Ok (instance_metadata, orchestrate_metadata) →
  is_Some (orchestrate_metadata !! k) → PyStr.startswith k "ate_" = true.
Proof.
  intros H. destruct (get_metadata_items_of _ _ _ H) as [items Hitems].
  rewrite (get_metadata_items _ _ _ Hitems) in H. injection H as _ <-.
  apply foldl_split_item_keys. intros k'. cbn [snd]. rewrite lookup_empty.
  by intros [? ?].
Qed.

Lemma lookup_not_ate (om : gmap string string) (k : string) :
  (∀ k', is_Some (om !! k') → PyStr.startswith k' "ate_" = true) →
  PyStr.startswith k "ate_" = false →
  om !! k = None.
Proof.
  intros Hkeys Hk. destruct (om !! k) eqn:E; [|done].
  rewrite (Hkeys k) in Hk by (by rewrite E). discriminate.
Qed.

(** ** More on the assembled descriptor *)

Section descriptor.

Context (compute : ComputeApi) (ORCHESTRATE_BUCKET : string).

Lemma expand_accelerator_Ok (zone_url : string) (a a' : Accelerator) :
  expand_accelerator zone_url a = Ok a' →
  ∃ type,
    acc_acceleratorType a = Some type
    ∧ acc_acceleratorType a'
      = Some (zone_url +:+ "/acceleratorTypes/" +:+ type)
    ∧ acc_other a' = acc_other a.
Proof.
  unfold expand_accelerator. intros H.
  apply bind_Ok in H as (type & Htype%getitem_Ok & H). injection H as <-.
  by exists type.
Qed.

Lemma expand_disk_type (zone_url : string) (use_latest_image : bool)
    (latest : Image) (disk disk' : Disk) :
  expand_disk zone_url use_latest_image latest disk = Ok disk' →
  ∃ parameters parameters' type,
    disk_initializeParams disk = Some parameters
    ∧ ip_diskType parameters = Some type
    ∧ disk_initializeParams disk' = Some parameters'
    ∧ ip_diskType parameters' = Some (zone_url +:+ "/diskTypes/" +:+ type)
    ∧ ip_other parameters' = ip_other parameters
    ∧ disk_other disk' = disk_other disk.
Proof.
  unfold expand_disk. intros H.
  apply bind_Ok in H as (parameters & Hp%getitem_Ok & H).
  apply bind_Ok in H as (type & Htype%getitem_Ok & H).
  apply bind_Ok in H as (boot & _ & H).
  exists parameters. destruct (boot && use_latest_image).
  - apply bind_Ok in H as (self_link & _ & H). injection H as <-.
    eexists _, type. by repeat split.
  - injection H as <-. eexists _, type. by repeat split.
Qed.

Lemma expand_disk_self_link (zone_url : string) (latest : Image)
    (disk disk' : Disk) :
  expand_disk zone_url true latest disk = Ok disk' →
  disk_boot disk = Some true →
  is_Some (img_selfLink latest).
Proof.
  unfold expand_disk. intros H Hboot.
  apply bind_Ok in H as (parameters & _ & H).
  apply bind_Ok in H as (type & _ & H).
  rewrite Hboot, getitem_Some, ret_bind in H. cbn [andb] in H.
  apply bind_Ok in H as (self_link & Hlink%getitem_Ok & _). by exists self_link.
Qed.

(** C8.  In an assembled descriptor the disks are those of the template,
    in order.  The boot disk is the first disk flagged boot; the boot image
    is the image that disk's reference names, fetched by the project and the
    version read in the reference, and the latest image is the answer of
    [images.getFromFamily], in that project, for the family of the boot
    image.  A disk flagged boot carries the [selfLink] of that latest image
    when the request sets [use_latest_image], a link the latest image then
    has, and its original reference when the request does not; a disk not
    flagged boot keeps its source image in both cases. *)
Theorem build_payload_source_images (uuid_hex : string) (instance : Instance)
    (template : Template) (instance_metadata : list Item)
    (orchestrate_metadata : gmap string string) (payload : Payload) :
  build_payload_with compute ORCHESTRATE_BUCKET uuid_hex instance template
    instance_metadata orchestrate_metadata = Ok payload →
  ∃ properties before boot_disk after parameters pre project rest image family
    latest disks',
    tpl_properties template = Some properties
    ∧ prop_disks properties = Some (before ++ boot_disk :: after)
    ∧ Forall not_boot before
    ∧ disk_boot boot_disk = Some true
    ∧ disk_initializeParams boot_disk = Some parameters
    ∧ ip_sourceImage parameters
      = Some (pre +:+ "/projects/" +:+ project +:+ "/global/images/" +:+ rest)
    ∧ images_get compute project (first_line rest) = Ok image
    ∧ img_family image = Some family
    ∧ images_getFromFamily compute project family = Ok latest
    ∧ (inst_use_latest_image instance = true → is_Some (img_selfLink latest))
    ∧ pl_disks payload = Some disks'
    ∧ Forall2
        (fun disk disk' =>
           ∃ boot,
             disk_boot disk = Some boot
             ∧ disk_boot disk' = Some boot
             ∧ source_image disk'
               = if boot && inst_use_latest_image instance
                 then img_selfLink latest
                 else source_image disk)
        (before ++ boot_disk :: after) disks'.
Proof.
  intros H.
  apply build_payload_with_Ok in H
    as (name & properties & disks & image & latest & accelerators & disks'
        & interfaces & items & _ & Hprops & Hdisks & Hboot & _ & Hexpand
        & _ & _ & ->).
  apply get_boot_images_resolved in Hboot
    as (before & boot_disk & after & parameters & pre & project & rest & family
        & -> & Hbefore & Hflag & Hparams & Hlink & Himage & Hfamily & Hlatest).
  apply mapM_Ok in Hexpand.
  exists properties, before, boot_disk, after, parameters, pre, project, rest,
    image, family, latest, disks'.
  repeat split; try done.
  - intros Hlatest_flag. rewrite Hlatest_flag in Hexpand.
    apply Forall2_app_inv_l in Hexpand as (k1 & k2 & _ & Hk2 & _).
    apply Forall2_cons_inv_l in Hk2 as (disk' & k2' & Hdisk' & _ & _).
    exact (expand_disk_self_link _ _ _ _ Hdisk' Hflag).
  - eapply Forall2_impl; [exact Hexpand|].
    intros disk0 disk0'. apply expand_disk_Ok.
Qed.

(** X15.  In an assembled descriptor every network interface of the
    template is there, in order and with its other fields, and is attached
    to the network named by the extended metadata under [network], or
    [default], as [global/networks/{network}], and to the subnetwork of the
    same name in the region of the request; what the template's interface
    said of network and subnetwork is replaced. *)
Theorem build_payload_interfaces (uuid_hex : string) (instance : Instance)
    (template : Template) (instance_metadata : list Item)
    (orchestrate_metadata : gmap string string) (payload : Payload) :
  build_payload_with compute ORCHESTRATE_BUCKET uuid_hex instance template
    instance_metadata orchestrate_metadata = Ok payload →
  let network := default "default" (orchestrate_metadata !! "network") in
  ∃ interfaces interfaces',
    tpl_properties template ≫= prop_networkInterfaces = Some interfaces
    ∧ pl_networkInterfaces payload = Some interfaces'
    ∧ Forall2
        (fun interface interface' =>
           ni_network interface' = Some ("global/networks/" +:+ network)
           ∧ ni_subnetwork interface'
             = Some ("projects/" +:+ inst_project instance +:+ "/regions/"
                     +:+ region_of (inst_zone instance) +:+ "/subnetworks/"
                     +:+ network)
           ∧ ni_other interface' = ni_other interface)
        interfaces interfaces'.
Proof.
  intros H network.
  apply build_payload_with_Ok in H
    as (name & properties & disks & image & latest & accelerators & disks'
        & interfaces & items & _ & Hprops & _ & _ & _ & _ & Hifs & _ & ->).
  exists interfaces. eexists. split; [by rewrite Hprops|].
  split; [reflexivity|].
  apply Forall2_fmap_r, Forall_Forall2_diag, Forall_forall.
  intros interface _. unfold expand_interface, region_url_of.
  cbn [ni_network ni_subnetwork ni_other]. fold network.
  by rewrite !string_app_assoc.
Qed.

(** X16.  In an assembled descriptor the guest accelerators are those of
    the template, in order, each with its type turned into the URL of that
    type in the zone of the request; a template without accelerators yields a
    descriptor without the key. *)
Theorem build_payload_accelerators (uuid_hex : string) (instance : Instance)
    (template : Template) (instance_metadata : list Item)
    (orchestrate_metadata : gmap string string) (payload : Payload) :
  build_payload_with compute ORCHESTRATE_BUCKET uuid_hex instance template
    instance_metadata orchestrate_metadata = Ok payload →
  match tpl_properties template ≫= prop_guestAccelerators with
  | None => pl_guestAccelerators payload = None
  | Some accelerators =>
      ∃ accelerators',
        pl_guestAccelerators payload = Some accelerators'
        ∧ Forall2
            (fun a a' =>
               ∃ type,
                 acc_acceleratorType a = Some type
                 ∧ acc_acceleratorType a'
                   = Some ("projects/" +:+ inst_project instance +:+ "/zones/"
                           +:+ inst_zone instance +:+ "/acceleratorTypes/"
                           +:+ type)
                 ∧ acc_other a' = acc_other a)
            accelerators accelerators'
  end.
Proof.
  intros H.
  apply build_payload_with_Ok in H
    as (name & properties & disks & image & latest & accelerators & disks'
        & interfaces & items & _ & Hprops & _ & _ & Hacc & _ & _ & _ & ->).
  rewrite Hprops. cbn [mbind option_bind finish pl_guestAccelerators].
  destruct (prop_guestAccelerators properties) as [l|]; [|done].
  destruct Hacc as (l' & Hl' & ->). exists l'. split; [done|].
  apply mapM_Ok in Hl'. eapply Forall2_impl; [exact Hl'|].
  intros a a' (type & Ha & Ha' & Hother)%expand_accelerator_Ok.
  exists type. repeat split; try done.
  rewrite Ha'. unfold zone_url_of. by rewrite !string_app_assoc.
Qed.

(** X17.  In an assembled descriptor every disk of the template is there,
    in order, with its disk type turned into the URL of that type in the zone
    of the request, and with its other fields as they were. *)
Theorem build_payload_disk_types (uuid_hex : string) (instance : Instance)
    (template : Template) (instance_metadata : list Item)
    (orchestrate_metadata : gmap string string) (payload : Payload) :
  build_payload_with compute ORCHESTRATE_BUCKET uuid_hex instance template
    instance_metadata orchestrate_metadata = Ok payload →
  ∃ disks disks',
    tpl_properties template ≫= prop_disks = Some disks
    ∧ pl_disks payload = Some disks'
    ∧ Forall2
        (fun disk disk' =>
           ∃ parameters parameters' type,
             disk_initializeParams disk = Some parameters
             ∧ ip_diskType parameters = Some type
             ∧ disk_initializeParams disk' = Some parameters'
             ∧ ip_diskType parameters'
               = Some ("projects/" +:+ inst_project instance +:+ "/zones/"
                       +:+ inst_zone instance +:+ "/diskTypes/" +:+ type)
             ∧ ip_other parameters' = ip_other parameters
             ∧ disk_other disk' = disk_other disk)
        disks disks'.
Proof.
  intros H.
  apply build_payload_with_Ok in H
    as (name & properties & disks & image & latest & accelerators & disks'
        & interfaces & items & _ & Hprops & Hdisks & _ & _ & Hexpand & _ & _ & ->).
  exists disks, disks'. split; [by rewrite Hprops|]. split; [done|].
  apply mapM_Ok in Hexpand. eapply Forall2_impl; [exact Hexpand|].
  intros disk disk'
    (parameters & parameters' & type & ? & ? & ? & Htype & ? & ?)%expand_disk_type.
  exists parameters, parameters', type. repeat split; try done.
  rewrite Htype. unfold zone_url_of. by rewrite !string_app_assoc.
Qed.

(** X18.  The metadata items of an assembled descriptor are the instance
    metadata, all of them and in order, followed by at most one item: the
    Linux startup script when the image booted classifies as linux, the
    Windows one when it classifies as windows, nothing otherwise.  The image
    booted is the latest image of the family when the request sets
    [use_latest_image], and the image the boot disk references when not:
    the boot disk is the first disk flagged boot, the image is fetched by
    the project and the version read in that disk's reference, and the
    latest image is the answer of [images.getFromFamily], in that project,
    for the family of that image. *)
Theorem build_payload_metadata (uuid_hex : string) (instance : Instance)
    (template : Template) (instance_metadata : list Item)
    (orchestrate_metadata : gmap string string) (payload : Payload) :
  build_payload_with compute ORCHESTRATE_BUCKET uuid_hex instance template
    instance_metadata orchestrate_metadata = Ok payload →
  ∃ properties before boot_disk after parameters pre project rest image family
    latest os added,
    tpl_properties template = Some properties
    ∧ prop_disks properties = Some (before ++ boot_disk :: after)
    ∧ Forall not_boot before
    ∧ disk_boot boot_disk = Some true
    ∧ disk_initializeParams boot_disk = Some parameters
    ∧ ip_sourceImage parameters
      = Some (pre +:+ "/projects/" +:+ project +:+ "/global/images/" +:+ rest)
    ∧ images_get compute project (first_line rest) = Ok image
    ∧ img_family image = Some family
    ∧ images_getFromFamily compute project family = Ok latest
    ∧ get_os_type (if inst_use_latest_image instance then latest else image)
      = Ok os
    ∧ pl_metadata payload = Some (instance_metadata ++ added)
    ∧ added
      = if decide (os = "linux") then
          [{| item_key := "startup-script-url";
              item_value := "gs://" +:+ ORCHESTRATE_BUCKET
                            +:+ "/remotedesktopconfigure.py" |}]
        else if decide (os = "windows") then
          [{| item_key := "windows-startup-script-url";
              item_value := "gs://" +:+ ORCHESTRATE_BUCKET
                            +:+ "/remotedesktopconfigure.ps1" |}]
        else [].
Proof.
  intros H.
  apply build_payload_with_Ok in H
    as (name & properties & disks & image & latest & accelerators & disks'
        & interfaces & items & _ & Hprops & Hdisks & Hboot & _ & _ & _
        & Hitems & ->).
  apply get_boot_images_resolved in Hboot
    as (before & boot_disk & after & parameters & pre & project & rest & family
        & -> & Hbefore & Hflag & Hparams & Hlink & Himage & Hfamily & Hlatest).
  unfold set_startup_script in Hitems.
  apply bind_Ok in Hitems as (os & Hos & Hitems).
  exists properties, before, boot_disk, after, parameters, pre, project, rest,
    image, family, latest, os. eexists.
  do 10 (split; [done|]).
  split; [|reflexivity]. cbn [finish pl_metadata]. f_equal.
  repeat case_decide; injection Hitems as <-; try done.
  by rewrite app_nil_r.
Qed.

(** X19.  End to end, the keys that the assembly reads in the extended
    metadata are never there, since every key filed by the metadata split
    starts with [ate_]: the machine type of a descriptor is [n1-standard-8]
    in the zone of the request, every interface is on the network [default],
    and a request without an explicit name is named by the default pattern,
    whatever the metadata of the template say. *)
Theorem build_instance_payload_defaults (uuid_hex : string)
    (instance : Instance) (payload : Payload) :
  build_instance_payload compute ORCHESTRATE_BUCKET uuid_hex instance
  = Ok payload →
  pl_machineType payload
  = Some ("projects/" +:+ inst_project instance +:+ "/zones/"
          +:+ inst_zone instance +:+ "/machineTypes/n1-standard-8")
  ∧ (∀ interfaces interface,
       pl_networkInterfaces payload = Some interfaces →
       interface ∈ interfaces →
       ni_network interface = Some "global/networks/default")
  ∧ (inst_name instance = "" →
     pl_name payload
     = inst_template instance +:+ "-" +:+ inst_size instance +:+ "-"
       +:+ PyStr.take 5 uuid_hex).
Proof.
  intros (template & im & om & _ & Hmeta & H)%build_instance_payload_Ok.
  pose proof (fun k => lookup_not_ate om k
                (fun k' => get_metadata_keys _ _ _ _ k' Hmeta)) as Habsent.
  apply build_payload_with_Ok in H
    as (name & properties & disks & image & latest & accelerators & disks'
        & interfaces & items & Hname & _ & _ & _ & _ & _ & _ & _ & ->).
  cbn [finish transfer pl_machineType pl_networkInterfaces pl_name].
  split; [|split].
  - unfold machine_type_url, zone_url_of.
    rewrite (Habsent "machine_type") by reflexivity. cbn [from_option id].
    by rewrite !string_app_assoc.
  - intros ? interface [= <-] (i & -> & _)%list_elem_of_fmap.
    unfold expand_interface. cbn [ni_network].
    by rewrite (Habsent "network") by reflexivity.
  - intros Hexplicit. unfold build_name in Hname.
    rewrite Hexplicit in Hname. cbn [PyStr.truthy] in Hname.
    rewrite (Habsent "instance_name_pattern") in Hname by reflexivity.
    cbn [PyStr.or_else] in Hname.
    rewrite format_default_pattern in Hname. by injection Hname as <-.
Qed.

End descriptor.

(** ** More on the command *)

Section outcome.

Context (compute : ComputeApi) (ORCHESTRATE_BUCKET : string).

Lemma except_HttpError_not_conflict {A : Type} (payload : option Payload)
    (e : error) :
  except_HttpError (A := A) payload e ≠ Raise (HttpError 409).
Proof.
  destruct e as [| status | | | | | |]; try done.
  unfold except_HttpError. case_decide as Hs.
  - by destruct payload.
  - intros [= ->]. done.
Qed.

(** X20.  The caller never receives the conflict status as such: whatever
    the remote answers, an error the command ends with is not [HttpError]
    409. *)
Theorem run_never_conflict_status (request_id uuid_hex : string)
    (instance : Instance) (e : error) :
  run compute ORCHESTRATE_BUCKET request_id uuid_hex instance = Raise e →
  e ≠ HttpError 409.
Proof.
  intros H ->. revert H. unfold run.
  destruct (build_instance_payload compute ORCHESTRATE_BUCKET uuid_hex instance)
    as [payload|e]; [|apply except_HttpError_not_conflict].
  destruct (instances_insert compute (inst_project instance)
              (inst_zone instance) payload) as [operation|e];
    [|apply except_HttpError_not_conflict].
  rewrite ret_bind. by destruct (op_name operation).
Qed.

(** X23.  A response is only given for a descriptor that was resolved and
    that [instances.insert] accepted: its status is [SUBMITTED], its request
    id the first random identifier, and its name the name of the descriptor
    submitted.  When the operation returned for an accepted descriptor has
    no name, the command ends with [KeyError] although the descriptor was
    submitted. *)
Theorem run_response (request_id uuid_hex : string) (instance : Instance) :
  (∀ response,
     run compute ORCHESTRATE_BUCKET request_id uuid_hex instance = Ok response →
     ∃ payload operation,
       build_instance_payload compute ORCHESTRATE_BUCKET uuid_hex instance
       = Ok payload
       ∧ instances_insert compute (inst_project instance)
           (inst_zone instance) payload
         = Ok {| op_name := Some operation |}
       ∧ response = {| resp_status := "SUBMITTED";
                       resp_request_id := request_id;
                       resp_name := pl_name payload |})
  ∧ (∀ payload,
       build_instance_payload compute ORCHESTRATE_BUCKET uuid_hex instance
       = Ok payload →
       instances_insert compute (inst_project instance) (inst_zone instance)
         payload = Ok {| op_name := None |} →
       run compute ORCHESTRATE_BUCKET request_id uuid_hex instance
       = Raise (KeyError "name")).
Proof.
  split.
  - intros response. unfold run.
    destruct (build_instance_payload compute ORCHESTRATE_BUCKET uuid_hex
                instance) as [payload|e] eqn:Hbuild.
    + destruct (instances_insert compute (inst_project instance)
                  (inst_zone instance) payload) as [[[operation|]]|e]
        eqn:Hinsert.
      * intros [= <-]. by exists payload, operation.
      * discriminate.
      * rewrite raise_bind. intros H.
        destruct e as [| status | | | | | |]; try discriminate.
        unfold except_HttpError in H. by case_decide.
    + intros H. destruct e as [| status | | | | | |]; try discriminate.
      unfold except_HttpError in H. by case_decide.
  - intros payload Hbuild Hinsert. unfold run. by rewrite Hbuild, Hinsert.
Qed.

(** X24.  Nothing is submitted for a request whose descriptor cannot be
    resolved: the resolution does not depend on what [instances.insert]
    would answer, and when it fails neither does the outcome of the
    command. *)
Theorem run_resolution_failure (request_id uuid_hex : string)
    (instance : Instance) (e : error)
    (insert : string → string → Payload → result Operation) :
  build_instance_payload compute ORCHESTRATE_BUCKET uuid_hex instance
  = Raise e →
  build_instance_payload (with_insert compute insert) ORCHESTRATE_BUCKET
    uuid_hex instance = Raise e
  ∧ run (with_insert compute insert) ORCHESTRATE_BUCKET request_id uuid_hex
      instance
    = run compute ORCHESTRATE_BUCKET request_id uuid_hex instance.
Proof.
  intros Hbuild.
  assert (build_instance_payload (with_insert compute insert)
            ORCHESTRATE_BUCKET uuid_hex instance
          = build_instance_payload compute ORCHESTRATE_BUCKET uuid_hex instance)
    as Hsame by reflexivity.
  split; [by rewrite Hsame|]. unfold run. by rewrite Hsame, Hbuild.
Qed.

(** X25.  With a size in the request, the template is fetched by the name
    made of the template and the size joined by a dash, and a failure of
    that fetch other than a conflict is the outcome of the command as the
    remote raised it: a template that does not exist is reported by the
    error of the remote, not by a domain error. *)
Theorem run_template_lookup_error (request_id uuid_hex : string)
    (instance : Instance) (e : error) :
  inst_size instance ≠ "" →
  instanceTemplates_get compute (inst_project instance)
    (inst_template instance +:+ "-" +:+ inst_size instance) = Raise e →
  e ≠ HttpError 409 →
  run compute ORCHESTRATE_BUCKET request_id uuid_hex instance = Raise e.
Proof.
  intros Hsize%truthy_true Hget He.
  unfold run, build_instance_payload, get_template.
  rewrite Hsize. cbn [negb]. rewrite Hget, raise_bind.
  by apply except_HttpError_other.
Qed.

End outcome.

(** ** More on the operating system *)

Lemma lower_ascii_idempotent (c : ascii) :
  PyStr.lower_ascii (PyStr.lower_ascii c) = PyStr.lower_ascii c.
Proof. by destruct c as [[] [] [] [] [] [] [] []]. Qed.

Lemma lower_idempotent (s : string) : PyStr.lower (PyStr.lower s) = PyStr.lower s.
Proof.
  induction s as [|c s IH]; [done|]. simpl.
  by rewrite lower_ascii_idempotent, IH.
Qed.

(** X26.  A classification is always in lower case, whether it comes from
    the label or from the family. *)
Theorem get_os_type_lower_case (image : Image) (os : string) :
  get_os_type image = Ok os → PyStr.lower os = os.
Proof.
  assert (guess_os_type image = Ok os → PyStr.lower os = os) as Hguess.
  { unfold guess_os_type. intros H.
    apply bind_Ok in H as (family & _ & H).
    case_decide; [by injection H as <-|].
    case_bool_decide; [by injection H as <-|].
    apply bind_Ok in H as (? & _ & H). discriminate. }
  unfold get_os_type.
  destruct (default ∅ (img_labels image) !! "orchestrate_os") as [label|];
    [|exact Hguess].
  destruct (PyStr.truthy label); [|exact Hguess].
  intros [= <-]. apply lower_idempotent.
Qed.

(** ** More on the names *)

Lemma format_go_brace_free (kwargs : list (string * string)) (pre s : string) :
  brace_free pre = true →
  PyStr.format_go kwargs None (pre +:+ s)
  = String.append pre <$> PyStr.format_go kwargs None s.
Proof.
  induction pre as [|c pre IH].
  - intros _. change ("" +:+ s) with s.
    by destruct (PyStr.format_go kwargs None s).
  - cbn [brace_free].
    intros [[Ho%negb_true_iff Hc%negb_true_iff]%andb_prop Hpre]%andb_prop.
    apply bool_decide_eq_false in Ho, Hc.
    rewrite app_String. cbn [PyStr.format_go]. rewrite !decide_False by done.
    rewrite (IH Hpre). by destruct (PyStr.format_go kwargs None s).
Qed.

Lemma format_go_field (kwargs : list (string * string))
    (read field post : string) :
  plain_field field = true →
  PyStr.format_go kwargs (Some read) (field +:+ String "}"%char post)
  = (v ← PyStr.get_field kwargs (read +:+ field);
     rest ← PyStr.format_go kwargs None post;
     Ok (v +:+ rest)).
Proof.
  revert read. induction field as [|c field IH]; intros read.
  - intros _. change ("" +:+ String "}"%char post) with (String "}"%char post).
    cbn [PyStr.format_go]. rewrite decide_True by done.
    by rewrite string_app_empty_r.
  - cbn [plain_field].
    intros [[[Ho%negb_true_iff Hc%negb_true_iff]%andb_prop
               Hout%negb_true_iff]%andb_prop Hfield]%andb_prop.
    apply bool_decide_eq_false in Ho, Hc.
    rewrite app_String. cbn [PyStr.format_go].
    rewrite !decide_False by done. rewrite Hout.
    rewrite (IH _ Hfield). by rewrite string_app_assoc.
Qed.

Lemma list_find_names (bindings : list (string * string)) (name : string) :
  name ∉ bindings.*1 →
  list_find (fun kv : string * string => kv.1 = name) bindings = None.
Proof.
  intros Hname. apply list_find_None, Forall_forall.
  intros [k v] Hin Hk. simpl in Hk. subst k.
  apply Hname, list_elem_of_fmap. by exists (name, v).
Qed.

Lemma format_go_open (kwargs : list (string * string)) (field post : string) :
  plain_field field = true →
  field ≠ "" →
  PyStr.format_go kwargs None (String "{"%char (field +:+ String "}"%char post))
  = PyStr.format_go kwargs (Some "") (field +:+ String "}"%char post).
Proof.
  destruct field as [|c field]; [done|]. cbn [plain_field].
  intros [[[Ho%negb_true_iff _]%andb_prop _]%andb_prop _]%andb_prop _.
  apply bool_decide_eq_false in Ho.
  rewrite app_String.
  change (PyStr.format_go kwargs None
            (String "{"%char (String c (field +:+ String "}"%char post))))
    with (if decide (c = "{"%char)
          then String "{"%char
                 <$> PyStr.format_go kwargs None (field +:+ String "}"%char post)
          else PyStr.format_go kwargs (Some "")
                 (String c (field +:+ String "}"%char post))).
  by rewrite decide_False.
Qed.

(** X27.  A pattern that names a placeholder the command does not bind is
    not rendered with the placeholder left in place: the resolution of the
    name fails with [KeyError] on that placeholder.  The placeholder is a
    field name that is not empty, is made of ASCII characters other than the
    braces and the marks of a conversion, a format specification, an
    attribute or an index, is not made of digits only, and is none of the
    ten names bound.  Stated for the explicit name of a request, made of
    text without braces, the placeholder, and anything after it. *)
Theorem build_name_unknown_placeholder (uuid_hex : string) (instance : Instance)
    (orchestrate_metadata : gmap string string) (pre field post : string) :
  inst_name instance = pre +:+ "{" +:+ field +:+ "}" +:+ post →
  brace_free pre = true →
  plain_field field = true →
  field ≠ "" →
  PyStr.all_digits field = false →
  field ∉ placeholder_names →
  build_name uuid_hex instance orchestrate_metadata = Raise (KeyError field).
Proof.
  intros Hname Hpre Hplain Hne Hdigits Hunknown. unfold build_name.
  assert (PyStr.truthy (inst_name instance) = true) as ->.
  { rewrite Hname. destruct pre; [done|]. by rewrite app_String. }
  rewrite Hname. unfold PyStr.format.
  rewrite (format_go_brace_free _ _ _ Hpre).
  change ("{" +:+ field +:+ "}" +:+ post)
    with (String "{"%char (field +:+ String "}"%char post)).
  rewrite (format_go_open _ _ _ Hplain Hne), (format_go_field _ _ _ _ Hplain).
  change ("" +:+ field) with field.
  unfold PyStr.get_field. rewrite decide_False by done. rewrite Hdigits.
  by rewrite list_find_names.
Qed.

Lemma take_drop_string (n : nat) (s : string) :
  PyStr.take n s +:+ PyStr.drop n s = s.
Proof.
  revert s. induction n as [|n IH]; intros s; [done|].
  destruct s as [|c s]; [done|]. simpl. rewrite app_String. by rewrite IH.
Qed.

Lemma endswith_drop_end (s suffix : string) :
  PyStr.endswith s suffix = true →
  PyStr.drop_end (String.length suffix) s +:+ suffix = s.
Proof.
  unfold PyStr.endswith, PyStr.drop_end.
  intros [_ Hdrop%bool_decide_eq_true]%andb_prop.
  rewrite <- Hdrop at 2. apply take_drop_string.
Qed.

(** X28.  The placeholders that describe the GPU recompose its type: when
    the GPU type of the extended metadata ends in [-vws], the placeholder
    [type] is [vws] and [gpu_name] followed by [-vws] is the GPU type;
    otherwise [type] is [gpu] and [gpu_name] is the GPU type itself, which
    is empty when the metadata hold none.  The placeholders [user] and [id]
    are the same first five characters of the random identifier. *)
Theorem name_placeholders_gpu (uuid_hex : string) (instance : Instance)
    (orchestrate_metadata : gmap string string) :
  let bindings := name_placeholders uuid_hex instance orchestrate_metadata in
  let gpu_type := default "" (orchestrate_metadata !! "gpu_type") in
  PyStr.get_field bindings "gpu_type" = Ok gpu_type
  ∧ (PyStr.endswith gpu_type "-vws" = true →
     PyStr.get_field bindings "type" = Ok "vws"
     ∧ ∃ gpu_name,
         PyStr.get_field bindings "gpu_name" = Ok gpu_name
         ∧ gpu_name +:+ "-vws" = gpu_type)
  ∧ (PyStr.endswith gpu_type "-vws" = false →
     PyStr.get_field bindings "type" = Ok "gpu"
     ∧ PyStr.get_field bindings "gpu_name" = Ok gpu_type)
  ∧ PyStr.get_field bindings "user" = Ok (PyStr.take 5 uuid_hex)
  ∧ PyStr.get_field bindings "id" = Ok (PyStr.take 5 uuid_hex).
Proof.
  intros bindings gpu_type. unfold bindings, name_placeholders.
  fold gpu_type. split; [reflexivity|]. split; [|split; [|split; reflexivity]].
  - intros Hvws. rewrite Hvws. split; [reflexivity|].
    exists (PyStr.drop_end 4 gpu_type). split; [reflexivity|].
    exact (endswith_drop_end gpu_type "-vws" Hvws).
  - intros Hvws. rewrite Hvws. split; reflexivity.
Qed.

(** ** The Teradici deployment *)

Section teradici.

Import Teradici.

Context (host : Host) (cam : Cam).

Lemma configure_Ok (self self' : System) :
  configure host self = Ok self' →
  region self' = PyStr.join "-" (but_last (PyStr.split "-"%char (zone self)))
  ∧ windows_accelerator_type self'
    = match windows_accelerator_type self with
      | None =>
          if bool_decide (region self' ∈ p4_regions)
          then Some "nvidia-tesla-p4-vws"
          else Some "nvidia-tesla-t4-vws"
      | Some type => Some type
      end
  ∧ terraform_version self' = "0.12.7"
  ∧ connector_token self' = None
  ∧ zone self' = zone self.
Proof.
  unfold configure. intros H.
  apply bind_Ok in H as (dir & _ & H). injection H as <-. by repeat split.
Qed.

(** X29.  The configuration takes as the region every dash-delimited
    component of the zone but the last: for a zone of three components it is
    the first two, the region the instance creation computes as well, and
    for a zone without a dash it is empty.  The accelerator of the Windows
    workstations, when none is set, follows from that region: the P4
    workstation type in the three regions listed, the T4 one elsewhere; an
    accelerator that is set is kept.  The Terraform version is [0.12.7]
    whatever it was before, and no connector token is held. *)
Theorem configure_region (self self' : System) (a b c : string) :
  configure host self = Ok self' →
  occurs "-"%char a = 0%nat →
  occurs "-"%char b = 0%nat →
  occurs "-"%char c = 0%nat →
  (zone self = a +:+ "-" +:+ b +:+ "-" +:+ c →
   region self' = a +:+ "-" +:+ b
   ∧ region self' = region_of (zone self))
  ∧ (zone self = a → region self' = "")
  ∧ windows_accelerator_type self'
    = match windows_accelerator_type self with
      | None =>
          if bool_decide (region self' ∈ p4_regions)
          then Some "nvidia-tesla-p4-vws"
          else Some "nvidia-tesla-t4-vws"
      | Some type => Some type
      end
  ∧ terraform_version self' = "0.12.7"
  ∧ connector_token self' = None.
Proof.
  intros (Hregion & Hacc & Hversion & Htoken & _)%configure_Ok Ha Hb Hc.
  split; [|split; [|by repeat split]].
  - intros Hzone. rewrite Hregion, Hzone.
    rewrite (proj1 (region_of_zone a b c Ha Hb)).
    change ("-" +:+ b +:+ "-" +:+ c) with (String "-"%char (b +:+ "-" +:+ c)).
    rewrite (split_app _ _ _ Ha).
    change ("-" +:+ c) with (String "-"%char c).
    by rewrite (split_app _ _ _ Hb), (split_free _ _ Hc).
  - intros Hzone. rewrite Hregion, Hzone. by rewrite (split_free _ _ Ha).
Qed.

(** X1.  The configuration works in the deployment directory given, after
    the command that creates it, or else in a fresh directory made under
    [/var/tmp] with the project and the name of the deployment in its prefix;
    when the command or the creation of the directory fails, so does the
    configuration.  The credentials file, the Terraform directory and the
    public key it settles on lie in that directory; a public key file that
    was given is kept. *)
Theorem configure_deploy_dir (self : System) :
  (∀ e,
     (deploy_dir self ≠ ""
      ∧ run_command host ("mkdir -p " +:+ deploy_dir self) = Raise e)
     ∨ (deploy_dir self = ""
        ∧ mkdtemp host
            ("orchestrate-" +:+ project self +:+ "-" +:+ name self +:+ "-")
            "/var/tmp" = Raise e) →
     configure host self = Raise e)
  ∧ (∀ self',
       configure host self = Ok self' →
       (if PyStr.truthy (deploy_dir self)
        then deploy_dir self' = deploy_dir self
             ∧ run_command host ("mkdir -p " +:+ deploy_dir self) = Ok ()
        else mkdtemp host
               ("orchestrate-" +:+ project self +:+ "-" +:+ name self +:+ "-")
               "/var/tmp" = Ok (deploy_dir self'))
       ∧ credentials_file self'
         = deploy_dir self' +:+ "/" +:+ project self +:+ "-teradici.json"
       ∧ terraform_dir self' = deploy_dir self' +:+ "/" +:+ name self
       ∧ terraform_deployment_dir self'
         = deploy_dir self' +:+ "/" +:+ name self
           +:+ "/deployments/gcp/single-connector"
       ∧ public_ssh_key_file self'
         = if truthy (public_ssh_key_file self) then public_ssh_key_file self
           else Some (deploy_dir self' +:+ "/" +:+ project self +:+ "-teradici")).
Proof.
  unfold configure. split.
  - intros e [[Hdir%truthy_true Hfail] | [Hdir%truthy_false Hfail]];
      rewrite Hdir, Hfail; reflexivity.
  - intros self' H. apply bind_Ok in H as (dir & Hdir & H). injection H as <-.
    cbn [deploy_dir credentials_file terraform_dir terraform_deployment_dir
         public_ssh_key_file].
    split; [|split; [|split; [|split]]].
    + destruct (PyStr.truthy (deploy_dir self)); [|exact Hdir].
      apply bind_Ok in Hdir as ([] & Hrun & [= <-]). by split.
    + reflexivity.
    + reflexivity.
    + by rewrite !string_app_assoc.
    + by destruct (truthy (public_ssh_key_file self)).
Qed.

(** X30.  The connector token is asked for the deployment named by the
    attribute [deployment_name] when it is set, else by the project followed
    by a dash and the prefix when there is a prefix, else by the project;
    the connector is named by [connector_name], else by the prefix, else by
    the zone.  The deployment is created only when the manager does not know
    it.  In a dry run the manager is not called and no token is held. *)
Theorem create_connector_token_outcome (self : System) :
  (dry_run self = true →
   create_connector_token cam self = Ok (with_connector_token self None))
  ∧ (dry_run self = false →
     ∀ deployment,
       deployments_get cam (api_token self) (deployment_name_of self)
       = Ok (Some deployment) →
       create_connector_token cam self
       = (token ← connector_post cam (api_token self) deployment
                     (connector_name_of self);
          Ok (with_connector_token self (Some token))))
  ∧ (dry_run self = false →
     deployments_get cam (api_token self) (deployment_name_of self) = Ok None →
     create_connector_token cam self
     = (deployment ← deployments_post cam (api_token self)
                        (deployment_name_of self) (registration_code self);
        token ← connector_post cam (api_token self) deployment
                  (connector_name_of self);
        Ok (with_connector_token self (Some token))))
  ∧ (∀ explicit, deployment_name self = Some explicit → explicit ≠ "" →
       deployment_name_of self = explicit)
  ∧ (truthy (deployment_name self) = false →
     (∀ p, prefix self = Some p → p ≠ "" →
        deployment_name_of self = project self +:+ "-" +:+ p)
     ∧ (truthy (prefix self) = false → deployment_name_of self = project self))
  ∧ (∀ explicit, connector_name self = Some explicit → explicit ≠ "" →
       connector_name_of self = explicit)
  ∧ (truthy (connector_name self) = false →
     (∀ p, prefix self = Some p → p ≠ "" → connector_name_of self = p)
     ∧ (truthy (prefix self) = false → connector_name_of self = zone self)).
Proof.
  unfold create_connector_token, get_connector_token, deployment_name_of,
    connector_name_of.
  split; [by intros ->|]. split; [|split].
  - intros -> deployment ->. reflexivity.
  - intros -> ->. rewrite ret_bind.
    destruct (deployments_post cam _ _ _); reflexivity.
  - split; [|split; [|split]].
    + intros explicit -> Hne%truthy_true. cbn [truthy]. by rewrite Hne.
    + intros ->. split.
      * intros p -> Hne%truthy_true. cbn [truthy]. by rewrite Hne.
      * by intros ->.
    + intros explicit -> Hne%truthy_true. cbn [truthy]. by rewrite Hne.
    + intros ->. split.
      * intros p -> Hne%truthy_true. cbn [truthy]. by rewrite Hne.
      * by intros ->.
Qed.

End teradici.

(** ** The further properties on the samples *)

Lemma region_of_zone_sample :
  region_of "us-central1-a" = "us-central1"
  ∧ region_of "us-central1" = "us-central1"
  ∧ region_of "us" = "us".
Proof.
  exact (region_of_zone "us" "central1" "a" eq_refl eq_refl).
Defined.

Lemma get_images_reads_reference_sample :
  let compute := Sample.compute (Sample.render []) None Sample.operation in
  let parameters :=
    {| ip_diskType := Some "pd-ssd";
       ip_sourceImage := Some (Sample.image_link "visual-1");
       ip_other := "{}" |} in
  get_images compute parameters
  = Ok (Sample.image "visual-1" "centos-7" None,
        Sample.image "visual-2" "centos-7" None)
  ∧ ∃ link pre project rest family,
      ip_sourceImage parameters = Some link
      ∧ link = pre +:+ "/projects/" +:+ project +:+ "/global/images/" +:+ rest
      ∧ images_get compute project (first_line rest)
        = Ok (Sample.image "visual-1" "centos-7" None)
      ∧ img_family (Sample.image "visual-1" "centos-7" None) = Some family
      ∧ images_getFromFamily compute project family
        = Ok (Sample.image "visual-2" "centos-7" None).
Proof.
  intros compute parameters.
  assert (get_images compute parameters
          = Ok (Sample.image "visual-1" "centos-7" None,
                Sample.image "visual-2" "centos-7" None)) as H
    by (vm_compute; reflexivity).
  split; [exact H|].
  exact (get_images_reads_reference compute parameters _ _ H).
Defined.

Lemma get_images_usual_reference_sample :
  get_images (Sample.compute (Sample.render []) None Sample.operation)
    {| ip_diskType := Some "pd-ssd";
       ip_sourceImage := Some (Sample.image_link "visual-1");
       ip_other := "{}" |}
  = Ok (Sample.image "visual-1" "centos-7" None,
        Sample.image "visual-2" "centos-7" None).
Proof.
  refine (eq_trans
            (get_images_usual_reference
               (Sample.compute (Sample.render []) None Sample.operation)
               {| ip_diskType := Some "pd-ssd";
                  ip_sourceImage := Some (Sample.image_link "visual-1");
                  ip_other := "{}" |}
               "https://www.googleapis.com/compute/v1" "acme" "visual-1"
               _ _ _ _ _ _) _);
    vm_compute; reflexivity.
Defined.

Lemma get_images_few_slashes_sample :
  get_images (Sample.compute (Sample.render []) None Sample.operation)
    {| ip_diskType := Some "pd-ssd";
       ip_sourceImage :=
         Some "projects/cloud-media-solutions/global/images/visual-20191217t184104";
       ip_other := "{}" |}
  = Raise (AttributeError "'NoneType' object has no attribute 'group'").
Proof.
  apply (get_images_few_slashes _ _
           "projects/cloud-media-solutions/global/images/visual-20191217t184104");
    [reflexivity|].
  vm_compute. repeat constructor.
Defined.

Lemma get_boot_images_ignores_rest_sample :
  let compute := Sample.compute (Sample.render []) None Sample.operation in
  get_boot_images compute
    [Sample.disk false "visual-0"; Sample.disk true "visual-1"]
  = get_boot_images compute
      [Sample.disk false "visual-0"; Sample.disk true "visual-1";
       Sample.disk true "visual-9";
       {| disk_boot := None; disk_initializeParams := None; disk_other := "" |}].
Proof.
  intros compute.
  exact (get_boot_images_ignores_rest compute [Sample.disk false "visual-0"] []
           [Sample.disk true "visual-9";
            {| disk_boot := None; disk_initializeParams := None;
               disk_other := "" |}]
           (Sample.disk true "visual-1") eq_refl).
Defined.

Lemma get_boot_images_missing_keys_sample :
  let compute := Sample.compute (Sample.render []) None Sample.operation in
  let flagless :=
    {| disk_boot := None; disk_initializeParams := None; disk_other := "" |} in
  let bare :=
    {| disk_boot := Some true; disk_initializeParams := None; disk_other := "" |} in
  let blank :=
    {| disk_boot := Some true;
       disk_initializeParams :=
         Some {| ip_diskType := None; ip_sourceImage := None; ip_other := "" |};
       disk_other := "" |} in
  get_boot_images compute
    [Sample.disk false "visual-0"; flagless; Sample.disk true "visual-1"]
  = Raise (KeyError "boot")
  ∧ get_boot_images compute
      [Sample.disk false "visual-0"; bare; Sample.disk true "visual-1"]
    = Raise (KeyError "initializeParams")
  ∧ get_boot_images compute
      [Sample.disk false "visual-0"; blank; Sample.disk true "visual-1"]
    = Raise (KeyError "sourceImage").
Proof.
  intros compute flagless bare blank.
  assert (Forall not_boot [Sample.disk false "visual-0"]) as Hbefore
    by repeat constructor.
  split; [|split].
  - exact (proj1 (get_boot_images_missing_keys compute _
                    [Sample.disk true "visual-1"] flagless Hbefore) eq_refl).
  - exact (proj1 (proj2 (get_boot_images_missing_keys compute _
                           [Sample.disk true "visual-1"] bare Hbefore))
             eq_refl eq_refl).
  - exact (proj2 (proj2 (get_boot_images_missing_keys compute _
                           [Sample.disk true "visual-1"] blank Hbefore))
             _ eq_refl eq_refl eq_refl).
Defined.

Lemma unmarked_small : unmarked Fixture.small.
Proof. exists Sample.plain_items. split; reflexivity. Qed.

Lemma marked_medium : marked Fixture.medium.
Proof. eexists. split; reflexivity. Qed.

Lemma get_template_first_marked_sample :
  get_template
    (Fixture.listing_client
       (Some [Fixture.small; Fixture.medium; Fixture.large]))
    Fixture.request_no_size
  = Ok Fixture.medium.
Proof.
  apply (get_template_first_marked _ Fixture.request_no_size
           [Fixture.small] [Fixture.large] Fixture.medium);
    [reflexivity | reflexivity | | exact marked_medium | by eexists].
  constructor; [exact unmarked_small | constructor].
Defined.

Lemma get_template_no_default_sample :
  get_template (Fixture.listing_client None) Fixture.request_no_size
  = Raise (OrchestrateInstanceCreationError
             "Could not locate default size for project studio template render. Please specify an explicit size in the request.")
  ∧ get_template (Fixture.listing_client (Some [Fixture.small]))
      Fixture.request_no_size
    = Raise (OrchestrateInstanceCreationError
               "Could not locate default size for project studio template render. Please specify an explicit size in the request.").
Proof.
  split.
  - apply (get_template_no_default (Fixture.listing_client None)
             Fixture.request_no_size None); [reflexivity | reflexivity |].
    constructor.
  - apply (get_template_no_default
             (Fixture.listing_client (Some [Fixture.small]))
             Fixture.request_no_size (Some [Fixture.small]));
      [reflexivity | reflexivity |].
    constructor; [exact unmarked_small | constructor].
Defined.

Lemma get_template_default_sound_sample :
  let compute :=
    Fixture.listing_client (Some [Fixture.small; Fixture.medium; Fixture.large]) in
  get_template compute Fixture.request_no_size = Ok Fixture.medium
  ∧ ∃ before after,
      instanceTemplates_list compute (inst_project Fixture.request_no_size)
        (default_size_filter Fixture.request_no_size)
      = Ok (Some (before ++ Fixture.medium :: after))
      ∧ Forall unmarked before
      ∧ marked Fixture.medium.
Proof.
  intros compute.
  assert (get_template compute Fixture.request_no_size = Ok Fixture.medium) as H
    by (vm_compute; reflexivity).
  split; [exact H|].
  exact (get_template_default_sound compute Fixture.request_no_size
           Fixture.medium eq_refl H).
Defined.

Lemma get_template_malformed_listing_sample :
  let no_metadata :=
    {| tpl_name := Some "render-2";
       tpl_properties :=
         Some {| prop_machineType := None; prop_tags := None;
                 prop_canIpForward := None; prop_networkInterfaces := None;
                 prop_labels := None; prop_scheduling := None;
                 prop_deletionProtection := None; prop_serviceAccounts := None;
                 prop_guestAccelerators := None; prop_disks := None;
                 prop_metadata := None |} |} in
  let no_items :=
    {| tpl_name := Some "render-2";
       tpl_properties :=
         Some {| prop_machineType := None; prop_tags := None;
                 prop_canIpForward := None; prop_networkInterfaces := None;
                 prop_labels := None; prop_scheduling := None;
                 prop_deletionProtection := None; prop_serviceAccounts := None;
                 prop_guestAccelerators := None; prop_disks := None;
                 prop_metadata := Some {| md_items := None |} |} |} in
  get_template
    (Fixture.listing_client
       (Some [Fixture.small; Fixture.broken; Fixture.medium]))
    Fixture.request_no_size
  = Raise (KeyError "properties")
  ∧ get_template
      (Fixture.listing_client (Some [Fixture.small; no_metadata; Fixture.medium]))
      Fixture.request_no_size
    = Raise (KeyError "metadata")
  ∧ get_template
      (Fixture.listing_client (Some [Fixture.small; no_items; Fixture.medium]))
      Fixture.request_no_size
    = Raise (KeyError "items").
Proof.
  intros no_metadata no_items.
  assert (Forall unmarked [Fixture.small]) as Hbefore
    by (constructor; [exact unmarked_small | constructor]).
  split; [|split].
  - exact (proj1 (get_template_malformed_listing
                    (Fixture.listing_client
                       (Some [Fixture.small; Fixture.broken; Fixture.medium]))
                    Fixture.request_no_size [Fixture.small] [Fixture.medium]
                    Fixture.broken eq_refl eq_refl Hbefore) eq_refl).
  - exact (proj1 (proj2 (get_template_malformed_listing
                           (Fixture.listing_client
                              (Some [Fixture.small; no_metadata; Fixture.medium]))
                           Fixture.request_no_size [Fixture.small]
                           [Fixture.medium] no_metadata eq_refl eq_refl Hbefore))
             _ eq_refl eq_refl).
  - exact (proj2 (proj2 (get_template_malformed_listing
                           (Fixture.listing_client
                              (Some [Fixture.small; no_items; Fixture.medium]))
                           Fixture.request_no_size [Fixture.small]
                           [Fixture.medium] no_items eq_refl eq_refl Hbefore))
             _ _ eq_refl eq_refl eq_refl).
Defined.

Lemma get_metadata_partition_sample :
  ∃ extended,
    get_metadata (Sample.request "" false)
      (Sample.template Fixture.twice None None)
    = Ok (filter (fun item => reserved item = false) Fixture.twice
            ++ inst_metadata (Sample.request "" false), extended)
    ∧ ∀ k, is_Some (extended !! k) → PyStr.startswith k "orchestrate_" = false.
Proof.
  exact (get_metadata_partition (Sample.request "" false)
           (Sample.template Fixture.twice None None)
           (Sample.properties Fixture.twice None None)
           {| md_items := Some Fixture.twice |} Fixture.twice
           eq_refl eq_refl eq_refl).
Defined.

Lemma get_metadata_last_write_wins_sample :
  ∃ instance_metadata orchestrate_metadata,
    get_metadata (Sample.request "" false)
      (Sample.template Fixture.twice None None)
    = Ok (instance_metadata, orchestrate_metadata)
    ∧ orchestrate_metadata !! "ate_network" = Some "studio-b".
Proof.
  destruct (get_metadata (Sample.request "" false)
              (Sample.template Fixture.twice None None))
    as [[instance_metadata orchestrate_metadata]|e] eqn:H;
    [|vm_compute in H; discriminate].
  exists instance_metadata, orchestrate_metadata. split; [reflexivity|].
  rewrite (get_metadata_last_write_wins (Sample.request "" false)
             (Sample.template Fixture.twice None None) Fixture.twice
             instance_metadata orchestrate_metadata "ate_network" eq_refl H).
  vm_compute. reflexivity.
Defined.

Lemma build_payload_interfaces_sample :
  ∃ payload,
    build_payload_with Fixture.gpu_client Sample.bucket Sample.uuid
      (Sample.request "" false) Fixture.gpu_template Sample.plain_items
      {[ "network" := "studio" ]} = Ok payload
    ∧ pl_networkInterfaces payload
      = Some [{| ni_network := Some "global/networks/studio";
                 ni_subnetwork :=
                   Some "projects/studio/regions/us-central1/subnetworks/studio";
                 ni_other := "{}" |}].
Proof.
  destruct (build_payload_with Fixture.gpu_client Sample.bucket Sample.uuid
              (Sample.request "" false) Fixture.gpu_template Sample.plain_items
              {[ "network" := "studio" ]}) as [payload|e] eqn:Hbuild;
    [|vm_compute in Hbuild; discriminate].
  exists payload. split; [reflexivity|].
  destruct (build_payload_interfaces Fixture.gpu_client Sample.bucket
              Sample.uuid (Sample.request "" false) Fixture.gpu_template
              Sample.plain_items {[ "network" := "studio" ]} payload Hbuild)
    as (interfaces & interfaces' & _ & _ & _).
  vm_compute in Hbuild. injection Hbuild as <-. vm_compute. reflexivity.
Defined.

Lemma build_payload_accelerators_sample :
  ∃ payload,
    build_payload_with Fixture.gpu_client Sample.bucket Sample.uuid
      (Sample.request "" false) Fixture.gpu_template Sample.plain_items ∅
    = Ok payload
    ∧ pl_guestAccelerators payload
      = Some [{| acc_acceleratorType :=
                   Some "projects/studio/zones/us-central1-a/acceleratorTypes/nvidia-tesla-t4";
                 acc_other := "1" |}].
Proof.
  destruct (build_payload_with Fixture.gpu_client Sample.bucket Sample.uuid
              (Sample.request "" false) Fixture.gpu_template Sample.plain_items ∅)
    as [payload|e] eqn:Hbuild; [|vm_compute in Hbuild; discriminate].
  exists payload. split; [reflexivity|].
  pose proof (build_payload_accelerators Fixture.gpu_client Sample.bucket
                Sample.uuid (Sample.request "" false) Fixture.gpu_template
                Sample.plain_items ∅ payload Hbuild) as _.
  vm_compute in Hbuild. injection Hbuild as <-. vm_compute. reflexivity.
Defined.

Lemma build_payload_disk_types_sample :
  ∃ payload,
    build_payload_with Fixture.gpu_client Sample.bucket Sample.uuid
      (Sample.request "" false) Fixture.gpu_template Sample.plain_items ∅
    = Ok payload
    ∧ (fun disk => disk_initializeParams disk ≫= ip_diskType)
        <$> default [] (pl_disks payload)
      = [Some "projects/studio/zones/us-central1-a/diskTypes/pd-ssd"].
Proof.
  destruct (build_payload_with Fixture.gpu_client Sample.bucket Sample.uuid
              (Sample.request "" false) Fixture.gpu_template Sample.plain_items ∅)
    as [payload|e] eqn:Hbuild; [|vm_compute in Hbuild; discriminate].
  exists payload. split; [reflexivity|].
  destruct (build_payload_disk_types Fixture.gpu_client Sample.bucket
              Sample.uuid (Sample.request "" false) Fixture.gpu_template
              Sample.plain_items ∅ payload Hbuild)
    as (disks & disks' & _ & _ & _).
  vm_compute in Hbuild. injection Hbuild as <-. vm_compute. reflexivity.
Defined.

Lemma build_payload_metadata_sample :
  ∃ payload,
    build_payload_with Fixture.gpu_client Sample.bucket Sample.uuid
      (Sample.request "" true) Fixture.gpu_template Sample.plain_items ∅
    = Ok payload
    ∧ pl_metadata payload
      = Some (Sample.plain_items
                ++ [{| item_key := "startup-script-url";
                       item_value :=
                         "gs://orchestrate-bucket/remotedesktopconfigure.py" |}]).
Proof.
  destruct (build_payload_with Fixture.gpu_client Sample.bucket Sample.uuid
              (Sample.request "" true) Fixture.gpu_template Sample.plain_items ∅)
    as [payload|e] eqn:Hbuild; [|vm_compute in Hbuild; discriminate].
  exists payload. split; [reflexivity|].
  destruct (build_payload_metadata Fixture.gpu_client Sample.bucket
              Sample.uuid (Sample.request "" true) Fixture.gpu_template
              Sample.plain_items ∅ payload Hbuild)
    as (properties & before & boot_disk & after & parameters & pre & project
        & rest & image & family & latest & os & added & _).
  vm_compute in Hbuild. injection Hbuild as <-. vm_compute. reflexivity.
Defined.

(** The template asks for [n1-standard-16] under the reserved prefix; the
    descriptor is built for [n1-standard-8]. *)
Lemma build_instance_payload_defaults_sample :
  ∃ payload,
    build_instance_payload Fixture.gpu_client Sample.bucket Sample.uuid
      (Sample.request "" false) = Ok payload
    ∧ pl_machineType payload
      = Some "projects/studio/zones/us-central1-a/machineTypes/n1-standard-8"
    ∧ pl_name payload = "render-8-3f2a9".
Proof.
  destruct (build_instance_payload Fixture.gpu_client Sample.bucket Sample.uuid
              (Sample.request "" false)) as [payload|e] eqn:Hbuild;
    [|vm_compute in Hbuild; discriminate].
  exists payload. split; [reflexivity|].
  destruct (build_instance_payload_defaults Fixture.gpu_client Sample.bucket
              Sample.uuid (Sample.request "" false) payload Hbuild)
    as (Hmachine & _ & Hname).
  split; [exact Hmachine | exact (Hname eq_refl)].
Defined.

Lemma run_never_conflict_status_sample :
  run (Sample.rejecting 503) Sample.bucket "0123456789abcdef" Sample.uuid
    (Sample.request "" false) = Raise (HttpError 503)
  ∧ HttpError 503 <> HttpError 409.
Proof.
  assert (run (Sample.rejecting 503) Sample.bucket "0123456789abcdef"
            Sample.uuid (Sample.request "" false) = Raise (HttpError 503)) as H
    by reflexivity.
  split; [exact H|].
  exact (run_never_conflict_status (Sample.rejecting 503) Sample.bucket
           "0123456789abcdef" Sample.uuid (Sample.request "" false) _ H).
Defined.

Lemma run_insert_conflict_sample :
  run (Sample.compute (Sample.render Sample.plain_items) None
         (Raise (HttpError 409)))
    Sample.bucket "0123456789abcdef" Sample.uuid
    (Sample.request "workstation-7" false)
  = Raise (OrchestrateInstanceCreationError
             "An instance with name workstation-7 already exists.").
Proof.
  destruct (build_instance_payload
              (Sample.compute (Sample.render Sample.plain_items) None
                 (Raise (HttpError 409)))
              Sample.bucket Sample.uuid (Sample.request "workstation-7" false))
    as [payload|e] eqn:Hbuild; [|vm_compute in Hbuild; discriminate].
  rewrite (run_insert_conflict _ _ "0123456789abcdef" _ _ payload Hbuild eq_refl).
  vm_compute in Hbuild. injection Hbuild as <-. reflexivity.
Defined.

Lemma run_propagates_sample :
  run (Sample.compute (Sample.render Sample.plain_items) None
         (Raise (HttpError 403)))
    Sample.bucket "0123456789abcdef" Sample.uuid (Sample.request "" false)
  = Raise (HttpError 403)
  ∧ run (Sample.rejecting 404) Sample.bucket "0123456789abcdef" Sample.uuid
      (Sample.request "" false)
    = Raise (HttpError 404).
Proof.
  split.
  - apply run_propagates; [discriminate|]. right.
    destruct (build_instance_payload
                (Sample.compute (Sample.render Sample.plain_items) None
                   (Raise (HttpError 403)))
                Sample.bucket Sample.uuid (Sample.request "" false))
      as [payload|e] eqn:Hbuild; [|vm_compute in Hbuild; discriminate].
    by exists payload.
  - apply run_propagates; [discriminate|]. left. reflexivity.
Defined.

Lemma run_response_sample :
  let compute :=
    Sample.compute (Sample.render Sample.plain_items) None Sample.operation in
  run compute Sample.bucket "0123456789abcdef" Sample.uuid
    (Sample.request "" false)
  = Ok {| resp_status := "SUBMITTED";
          resp_request_id := "0123456789abcdef";
          resp_name := "render-8-3f2a9" |}
  ∧ (∃ payload operation,
       build_instance_payload compute Sample.bucket Sample.uuid
         (Sample.request "" false) = Ok payload
       ∧ instances_insert compute "studio" "us-central1-a" payload
         = Ok {| op_name := Some operation |}
       ∧ pl_name payload = "render-8-3f2a9")
  ∧ run (Sample.compute (Sample.render Sample.plain_items) None
           (Ok {| op_name := None |}))
      Sample.bucket "0123456789abcdef" Sample.uuid (Sample.request "" false)
    = Raise (KeyError "name").
Proof.
  intros compute.
  assert (run compute Sample.bucket "0123456789abcdef" Sample.uuid
            (Sample.request "" false)
          = Ok {| resp_status := "SUBMITTED";
                  resp_request_id := "0123456789abcdef";
                  resp_name := "render-8-3f2a9" |}) as H
    by (vm_compute; reflexivity).
  split; [exact H|]. split.
  - destruct (proj1 (run_response compute Sample.bucket "0123456789abcdef"
                       Sample.uuid (Sample.request "" false)) _ H)
      as (payload & operation & Hbuild & Hinsert & Hresponse).
    exists payload, operation. repeat split; try done.
    by injection Hresponse as <-.
  - destruct (build_instance_payload
                (Sample.compute (Sample.render Sample.plain_items) None
                   (Ok {| op_name := None |}))
                Sample.bucket Sample.uuid (Sample.request "" false))
      as [payload|e] eqn:Hbuild; [|vm_compute in Hbuild; discriminate].
    exact (proj2 (run_response _ Sample.bucket "0123456789abcdef" Sample.uuid
                    (Sample.request "" false)) payload Hbuild eq_refl).
Defined.

Lemma run_resolution_failure_sample :
  let accepting := fun (_ _ : string) (_ : Payload) => Sample.operation in
  build_instance_payload (with_insert (Sample.rejecting 404) accepting)
    Sample.bucket Sample.uuid (Sample.request "" false)
  = Raise (HttpError 404)
  ∧ run (with_insert (Sample.rejecting 404) accepting) Sample.bucket
      "0123456789abcdef" Sample.uuid (Sample.request "" false)
    = run (Sample.rejecting 404) Sample.bucket "0123456789abcdef" Sample.uuid
        (Sample.request "" false).
Proof.
  intros accepting.
  exact (run_resolution_failure (Sample.rejecting 404) Sample.bucket
           "0123456789abcdef" Sample.uuid (Sample.request "" false)
           (HttpError 404) accepting eq_refl).
Defined.

Lemma run_template_lookup_error_sample :
  run (Sample.rejecting 404) Sample.bucket "0123456789abcdef" Sample.uuid
    (Sample.request "" false)
  = Raise (HttpError 404).
Proof.
  apply run_template_lookup_error; [discriminate | reflexivity | discriminate].
Defined.

Lemma get_os_type_lower_case_sample :
  get_os_type (Sample.image "visual-1" "centos-7" (Sample.labelled "Windows"))
  = Ok "windows"
  ∧ PyStr.lower "windows" = "windows".
Proof.
  assert (get_os_type
            (Sample.image "visual-1" "centos-7" (Sample.labelled "Windows"))
          = Ok "windows") as H by (vm_compute; reflexivity).
  split; [exact H|]. exact (get_os_type_lower_case _ _ H).
Defined.

Lemma build_name_unknown_placeholder_sample :
  build_name Sample.uuid (Sample.request "ws-{owner}-1" false) ∅
  = Raise (KeyError "owner").
Proof.
  apply (build_name_unknown_placeholder Sample.uuid
           (Sample.request "ws-{owner}-1" false) ∅ "ws-" "owner" "-1");
    [reflexivity | reflexivity | reflexivity | discriminate | reflexivity |].
  intros H. apply (bool_decide_pack _) in H. vm_compute in H. exact H.
Defined.

Lemma name_placeholders_gpu_sample :
  let bindings :=
    name_placeholders Sample.uuid (Sample.request "" false)
      {[ "gpu_type" := "nvidia-tesla-t4-vws" ]} in
  PyStr.get_field bindings "type" = Ok "vws"
  ∧ ∃ gpu_name,
      PyStr.get_field bindings "gpu_name" = Ok gpu_name
      ∧ gpu_name +:+ "-vws" = "nvidia-tesla-t4-vws".
Proof.
  intros bindings.
  destruct (name_placeholders_gpu Sample.uuid (Sample.request "" false)
              {[ "gpu_type" := "nvidia-tesla-t4-vws" ]})
    as (_ & Hvws & _).
  destruct (Hvws ltac:(vm_compute; reflexivity)) as (Htype & name & Hname & Heq).
  split; [exact Htype|]. exists name. split; [exact Hname|].
  rewrite Heq. vm_compute. reflexivity.
Defined.

Lemma configure_region_sample :
  ∃ self',
    Teradici.configure Fixture.host Fixture.system = Ok self'
    ∧ Teradici.region self' = "us-west2"
    ∧ Teradici.region self' = region_of "us-west2-b"
    ∧ Teradici.windows_accelerator_type self' = Some "nvidia-tesla-p4-vws"
    ∧ Teradici.terraform_version self' = "0.12.7".
Proof.
  destruct (Teradici.configure Fixture.host Fixture.system)
    as [self'|e] eqn:Hconfigure; [|vm_compute in Hconfigure; discriminate].
  exists self'. split; [reflexivity|].
  destruct (configure_region Fixture.host Fixture.system self' "us" "west2" "b"
              Hconfigure eq_refl eq_refl eq_refl)
    as (Hzone & _ & Hacc & Hversion & _).
  destruct (Hzone eq_refl) as [Hregion Hsame].
  split; [exact Hregion|]. split; [exact Hsame|]. split; [|exact Hversion].
  rewrite Hacc, Hregion. reflexivity.
Defined.

Lemma create_connector_token_outcome_sample :
  Teradici.create_connector_token (Fixture.manager []) Fixture.system
  = Ok (Teradici.with_connector_token Fixture.system
          (Some "studio-demo/demo"))
  ∧ Teradici.deployment_name_of Fixture.system = "studio-demo"
  ∧ Teradici.connector_name_of Fixture.system = "demo".
Proof.
  destruct (create_connector_token_outcome (Fixture.manager []) Fixture.system)
    as (_ & _ & Hcreate & _ & Hdeployment & _ & Hconnector).
  split; [|split].
  - rewrite (Hcreate eq_refl eq_refl). reflexivity.
  - exact (proj1 (Hdeployment eq_refl) "demo" eq_refl ltac:(discriminate)).
  - exact (proj1 (Hconnector eq_refl) "demo" eq_refl ltac:(discriminate)).
Defined.

Lemma configure_deploy_dir_sample :
  ∃ self',
    Teradici.configure Fixture.host Fixture.system = Ok self'
    ∧ Teradici.deploy_dir self' = "/var/tmp/orchestrate-studio-teradici-x1"
    ∧ Teradici.credentials_file self'
      = "/var/tmp/orchestrate-studio-teradici-x1/studio-teradici.json"
    ∧ Teradici.public_ssh_key_file self'
      = Some "/var/tmp/orchestrate-studio-teradici-x1/studio-teradici".
Proof.
  destruct (Teradici.configure Fixture.host Fixture.system)
    as [self'|e] eqn:Hconfigure; [|vm_compute in Hconfigure; discriminate].
  exists self'.
  destruct (proj2 (configure_deploy_dir Fixture.host Fixture.system) self'
              Hconfigure) as (_ & Hcredentials & _ & _ & Hkey).
  split; [reflexivity|].
  assert (Teradici.deploy_dir self' = "/var/tmp/orchestrate-studio-teradici-x1")
    as Hdir by (vm_compute in Hconfigure; by injection Hconfigure as <-).
  split; [exact Hdir|].
  rewrite Hcredentials, Hkey, Hdir. split; reflexivity.
Defined.

(** With [use_latest_image] set, the boot disk of the descriptor references
    the latest image of the family of the image it referenced, and the other
    disk keeps its reference. *)
Lemma build_payload_source_images_sample :
  let template :=
    Sample.template Sample.plain_items
      (Some [Sample.disk true "visual-1"; Sample.disk false "scratch-3"])
      (Some [Sample.interface]) in
  let compute := Sample.compute template None Sample.operation in
  ∃ payload,
    build_payload_with compute Sample.bucket Sample.uuid
      (Sample.request "" true) template Sample.plain_items ∅ = Ok payload
    ∧ (source_image <$> default [] (pl_disks payload))
      = [Some (Sample.image_link "visual-2");
         Some (Sample.image_link "scratch-3")].
Proof.
  intros template compute.
  destruct (build_payload_with compute Sample.bucket Sample.uuid
              (Sample.request "" true) template Sample.plain_items ∅)
    as [payload|e] eqn:Hbuild; [|vm_compute in Hbuild; discriminate].
  exists payload. split; [reflexivity|].
  destruct (build_payload_source_images compute Sample.bucket Sample.uuid
              (Sample.request "" true) template Sample.plain_items ∅ payload
              Hbuild)
    as (properties & before & boot_disk & after & parameters & pre & project
        & rest & image & family & latest & disks' & _).
  vm_compute in Hbuild. injection Hbuild as <-. vm_compute. reflexivity.
Defined.
